(** * SDRdaemon: UDP framing of I/Q samples and device configuration

    A shallow embedding of

    - [UDPSink::write] (sdmnbase/UDPSink.cpp), the sender-side packetizer;
    - the frame header [MetaData] (gr-sdrdaemon/lib/SDRdaemonBuffer.h);
    - the receiver [SDRdaemonBuffer::writeAndRead], whose declaration only is
      available and whose body follows the design document;
    - [AirspySource::configure] and [AirspyHFSource::configure]
      (sdmnbase/AirspySource.cpp, sdmnbase/AirspyHFSource.cpp).

    Fixed-width C++ integers are integers of [Z] with the wrap-around written
    out; memory is a list of bytes (each a [Z] in [0, 256)); undefined
    behaviour of the C++ code (division by zero, reads or writes outside a
    buffer, signed overflow, an array deleted twice) makes the embedded
    function return [None]. *)

From Stdlib Require Import ZArith Lia List Bool String Ascii.
From stdpp Require Import base option list gmap strings pretty.

Open Scope Z_scope.

(** ** Fixed-width integers *)

Definition u8 (v : Z) : Z := v mod 2 ^ 8.
Definition u16 (v : Z) : Z := v mod 2 ^ 16.
Definition u32 (v : Z) : Z := v mod 2 ^ 32.
Definition u64 (v : Z) : Z := v mod 2 ^ 64.

(** Conversion to a 32-bit [int] (two's complement). *)
Definition s32 (v : Z) : Z := (v + 2 ^ 31) mod 2 ^ 32 - 2 ^ 31.

Definition INT_MAX : Z := 2 ^ 31 - 1.

(** ** Bytes in memory (little endian, as on the hosts the daemon runs on) *)

Fixpoint le_bytes (n : nat) (v : Z) : list Z :=
  match n with
  | O => []
  | S k => v mod 256 :: le_bytes k (v / 256)
  end.

Fixpoint le_value (bs : list Z) : Z :=
  match bs with
  | [] => 0
  | b :: r => b + 256 * le_value r
  end.

(** [read_bytes mem off len]: the [len] bytes of [mem] from offset [off];
    [None] when the range leaves the object. *)
Definition read_bytes (mem : list Z) (off len : Z) : option (list Z) :=
  if (0 <=? off) && (0 <=? len) && (off + len <=? Z.of_nat (length mem))
  then Some (take (Z.to_nat len) (drop (Z.to_nat off) mem))
  else None.

(** [write_bytes mem off src]: [mem] with [src] copied in at offset [off]
    (a [memcpy], or the stores through a struct pointer); [None] when the
    range leaves the object. *)
Definition write_bytes (mem : list Z) (off : Z) (src : list Z) : option (list Z) :=
  if (0 <=? off) && (off + Z.of_nat (length src) <=? Z.of_nat (length mem))
  then Some (take (Z.to_nat off) mem ++ src
             ++ drop (Z.to_nat off + length src) mem)
  else None.

(** ** External collaborators *)

(** [CRC64::calculate_crc] (CRC64.h is not among the sources). *)
Class CRC64 := { calculate_crc : list Z -> Z }.

(** [LZ4_compressBound] of the lz4 library. *)
Class LZ4 := { LZ4_compressBound : Z -> Z }.

(** ** The frame header *)

Module MetaData.

(** [struct MetaData], packed ([#pragma pack(push, 1)]), as
    SDRdaemonBuffer.h declares it; [UDPSink::write] fills the same fields. *)
Record t := mk {
  m_centerFrequency : Z;   (* uint64_t *)
  m_sampleRate : Z;        (* uint32_t *)
  m_sampleBytes : Z;       (* uint8_t: MSB(4) indicators, LSB(4) bytes per sample *)
  m_sampleBits : Z;        (* uint8_t *)
  m_blockSize : Z;         (* uint16_t *)
  m_nbSamples : Z;         (* uint32_t *)
  m_nbBlocks : Z;          (* uint16_t *)
  m_remainderSamples : Z;  (* uint16_t *)
  m_nbCompleteBlocks : Z;  (* uint16_t *)
  m_tv_sec : Z;            (* uint32_t *)
  m_tv_usec : Z;           (* uint32_t *)
  m_crc : Z                (* uint64_t *)
}.

(** [sizeof(MetaData)]. *)
Definition sizeof : Z := 8 + 4 + 1 + 1 + 2 + 4 + 2 + 2 + 2 + 4 + 4 + 8.

(** The bytes of the fields that precede [m_crc], in declaration order. *)
Definition leading_bytes (m : t) : list Z :=
  le_bytes 8 (m_centerFrequency m) ++ le_bytes 4 (m_sampleRate m)
  ++ le_bytes 1 (m_sampleBytes m) ++ le_bytes 1 (m_sampleBits m)
  ++ le_bytes 2 (m_blockSize m) ++ le_bytes 4 (m_nbSamples m)
  ++ le_bytes 2 (m_nbBlocks m) ++ le_bytes 2 (m_remainderSamples m)
  ++ le_bytes 2 (m_nbCompleteBlocks m)
  ++ le_bytes 4 (m_tv_sec m) ++ le_bytes 4 (m_tv_usec m).

Definition to_bytes (m : t) : list Z :=
  leading_bytes m ++ le_bytes 8 (m_crc m).

Definition field (bs : list Z) (off len : nat) : Z :=
  le_value (take len (drop off bs)).

(** Reading a buffer through a [MetaData *]. *)
Definition of_bytes (bs : list Z) : t :=
  {| m_centerFrequency := field bs 0 8;
     m_sampleRate := field bs 8 4;
     m_sampleBytes := field bs 12 1;
     m_sampleBits := field bs 13 1;
     m_blockSize := field bs 14 2;
     m_nbSamples := field bs 16 4;
     m_nbBlocks := field bs 20 2;
     m_remainderSamples := field bs 22 2;
     m_nbCompleteBlocks := field bs 24 2;
     m_tv_sec := field bs 26 4;
     m_tv_usec := field bs 30 4;
     m_crc := field bs 34 8 |}.

Definition set_crc (m : t) (c : Z) : t :=
  {| m_centerFrequency := m_centerFrequency m;
     m_sampleRate := m_sampleRate m;
     m_sampleBytes := m_sampleBytes m;
     m_sampleBits := m_sampleBits m;
     m_blockSize := m_blockSize m;
     m_nbSamples := m_nbSamples m;
     m_nbBlocks := m_nbBlocks m;
     m_remainderSamples := m_remainderSamples m;
     m_nbCompleteBlocks := m_nbCompleteBlocks m;
     m_tv_sec := m_tv_sec m;
     m_tv_usec := m_tv_usec m;
     m_crc := c |}.

(** [MetaData::init] (all fields zero). *)
Definition init : t := mk 0 0 0 0 0 0 0 0 0 0 0 0.

End MetaData.

(** [MetaData::operator==] is declared in UDPSink.h, which is not among the
    sources; [UDPSink::write] uses it only to decide whether to log and
    refresh [m_currentMeta]. *)
Class MetaDataEq := { MetaData_eqb : MetaData.t -> MetaData.t -> bool }.

(** ** I/Q samples *)

(** An [IQSample] is built from two [int16_t] components
    ([IQSample(re, im)] in the device callbacks). *)
Record IQSample := mkIQ { re : Z; im : Z }.

Definition sizeof_IQSample : Z := 4.

Definition IQSample_bytes (s : IQSample) : list Z :=
  le_bytes 2 (u16 (re s)) ++ le_bytes 2 (u16 (im s)).

(** The storage of an [IQSampleVector]. *)
Definition IQ_image (v : list IQSample) : list Z :=
  concat (map IQSample_bytes v).

(** ** The sender: [UDPSink] *)

Module UDPSink.

(** The members of [UDPSink] that [write] uses. UDPSink.h is not among the
    sources: the types are those of the constructor's arguments and of the
    header fields the members are copied to. [lz4_deleted] is not a member:
    it is the part of the heap the object depends on, namely whether the
    array [m_lz4Buffer] points to has been given to [delete[]]. *)
Record t := mk {
  m_udpSize : Z;            (* unsigned int *)
  m_centerFrequency : Z;    (* uint64_t *)
  m_sampleRate : Z;         (* uint32_t *)
  m_sampleBytes : Z;        (* uint8_t *)
  m_sampleBits : Z;         (* uint8_t *)
  m_nbSamples : Z;
  m_lz4MinInputSize : Z;    (* size_t *)
  m_lz4BufSize : Z;
  m_lz4Buffer : Z;          (* address of the array, 0 when null *)
  lz4_deleted : bool;       (* the array at m_lz4Buffer has been deleted *)
  m_currentMeta : MetaData.t;
  m_bufMeta : list Z;       (* new uint8_t[m_udpSize] *)
  m_buf : list Z            (* new uint8_t[m_udpSize] *)
}.

(** What a call takes from its environment: the clock ([gettimeofday])
    and the address [new] would return. *)
Record Env := mkEnv { tv_sec : Z; tv_usec : Z; new_ptr : Z }.

(** The constructor. The two arrays are not initialised by [new]: their
    contents [g1], [g2] are whatever the allocator returns. *)
Definition init (udpSize : Z) (g1 g2 : list Z) : t :=
  {| m_udpSize := udpSize;
     m_centerFrequency := 100000000;
     m_sampleRate := 48000;
     m_sampleBytes := 1;
     m_sampleBits := 8;
     m_nbSamples := 0;
     m_lz4MinInputSize := 0;
     m_lz4BufSize := 0;
     m_lz4Buffer := 0;
     lz4_deleted := false;
     m_currentMeta := MetaData.init;
     m_bufMeta := g1;
     m_buf := g2 |}.

(** [m_lz4Buffer] is not null and points to an array already deleted:
    [delete[] m_lz4Buffer] is then undefined. *)
Definition dangling (st : t) : bool :=
  negb (m_lz4Buffer st =? 0) && lz4_deleted st.

(** [uint16_t samplesPerBlock = m_udpSize / (2 * m_sampleBytes)]. *)
Definition samplesPerBlock (st : t) : Z :=
  u16 (m_udpSize st / (2 * m_sampleBytes st)).

(** The header fields assigned on lines 61-71, for a vector of [size]
    elements; [m_crc] keeps the bytes the buffer held. *)
Definition fill_meta (env : Env) (st : t) (size : Z) : MetaData.t :=
  {| MetaData.m_centerFrequency := u64 (m_centerFrequency st);
     MetaData.m_sampleRate := u32 (m_sampleRate st);
     MetaData.m_sampleBytes := u8 (m_sampleBytes st);
     MetaData.m_sampleBits := u8 (m_sampleBits st);
     MetaData.m_blockSize := u16 (m_udpSize st);
     MetaData.m_nbSamples := u32 size;
     MetaData.m_nbBlocks := 1;
     MetaData.m_remainderSamples := u16 (size mod samplesPerBlock st);
     MetaData.m_nbCompleteBlocks := u16 (size / samplesPerBlock st);
     MetaData.m_tv_sec := u32 (tv_sec env);
     MetaData.m_tv_usec := u32 (tv_usec env);
     MetaData.m_crc := MetaData.field (m_bufMeta st) 34 8 |}.

(** Lines 55-72: the header is built in place in [m_bufMeta] and the CRC
    of its first [sizeof(MetaData) - 8] bytes stored in its last field.
    Returns the header and the new contents of [m_bufMeta]. *)
Definition build_meta `{CRC64} (env : Env) (st : t) (size : Z)
  : option (MetaData.t * list Z) :=
  if 2 * m_sampleBytes st =? 0 then None
  else if samplesPerBlock st =? 0 then None
  else
    let meta0 := fill_meta env st size in
    buf1 ← write_bytes (m_bufMeta st) 0 (MetaData.leading_bytes meta0);
    pre ← read_bytes buf1 0 (MetaData.sizeof - 8);
    let crc := u64 (calculate_crc pre) in
    buf2 ← write_bytes buf1 (MetaData.sizeof - 8) (le_bytes 8 crc);
    Some (MetaData.set_crc meta0 crc, buf2).

(** Lines 74-91: the LZ4 scratch buffer follows the frame size. Returns
    the new [(m_nbSamples, m_lz4BufSize, m_lz4Buffer, lz4_deleted)].
    [None]: the division by [bytesPerFrame = 0] of line 80, or
    [delete[] m_lz4Buffer] (line 82) on an array already deleted; the array
    [new] returns (line 83) is live. *)
Definition resize_lz4 `{LZ4} (env : Env) (st : t) (meta : MetaData.t)
  : option (Z * Z * Z * bool) :=
  if negb (MetaData.m_nbSamples meta =? m_nbSamples st) then
    let bytesPerFrame := u32 (MetaData.m_nbSamples meta * 2 * m_sampleBytes st) in
    if 0 <? m_lz4MinInputSize st then
      if bytesPerFrame =? 0 then None
      else if dangling st then None
      else
        let inputLZ4Size :=
          u32 (u64 ((m_lz4MinInputSize st / bytesPerFrame + 1) * bytesPerFrame)) in
        Some (MetaData.m_nbSamples meta,
              LZ4_compressBound (s32 inputLZ4Size),
              new_ptr env,
              false)
    else Some (MetaData.m_nbSamples meta, m_lz4BufSize st, m_lz4Buffer st,
               lz4_deleted st)
  else Some (m_nbSamples st, m_lz4BufSize st, m_lz4Buffer st, lz4_deleted st).

(** [SendDataGram(ptr, (int) m_udpSize, ...)] with [ptr] at offset [off]
    of the object [mem]: the datagram handed to the socket. *)
Definition SendDataGram (st : t) (mem : list Z) (off : Z) : option (list Z) :=
  read_bytes mem off (s32 (m_udpSize st)).

(** Lines 115-118: one datagram per complete block, read straight from
    the sample vector. *)
Definition send_complete_blocks (st : t) (meta : MetaData.t)
    (samples_in : list IQSample) : option (list (list Z)) :=
  mapM (fun i => SendDataGram st (IQ_image samples_in)
                   (u32 (i * samplesPerBlock st) * sizeof_IQSample))
       (seqZ 0 (MetaData.m_nbCompleteBlocks meta)).

(** Lines 120-124: the remainder goes through the scratch buffer [m_buf].
    Returns the new contents of [m_buf] and the datagrams sent. *)
Definition send_remainder (st : t) (meta : MetaData.t)
    (samples_in : list IQSample) : option (list Z * list (list Z)) :=
  if 0 <? MetaData.m_remainderSamples meta then
    let first := MetaData.m_nbCompleteBlocks meta * samplesPerBlock st in
    if INT_MAX <? first then None
    else
      src ← read_bytes (IQ_image samples_in) (first * sizeof_IQSample)
              (2 * MetaData.m_remainderSamples meta
               * Z.land (MetaData.m_sampleBytes meta) 15);
      buf ← write_bytes (m_buf st) 0 src;
      dg ← SendDataGram st buf 0;
      Some (buf, [dg])
  else Some (m_buf st, []).

(** [UDPSink::write]: the new state and the datagrams handed to the
    socket, in order. *)
Definition write `{CRC64} `{LZ4} `{MetaDataEq} (env : Env) (st : t)
    (samples_in : list IQSample) : option (t * list (list Z)) :=
  '(meta, bufMeta) ← build_meta env st (Z.of_nat (length samples_in));
  '(nbSamples, lz4BufSize, lz4Buffer, deleted) ← resize_lz4 env st meta;
  let currentMeta :=
    if negb (MetaData_eqb meta (m_currentMeta st)) then meta
    else m_currentMeta st in
  hdr ← SendDataGram st bufMeta 0;
  blocks ← send_complete_blocks st meta samples_in;
  '(buf, last) ← send_remainder st meta samples_in;
  Some ({| m_udpSize := m_udpSize st;
           m_centerFrequency := m_centerFrequency st;
           m_sampleRate := m_sampleRate st;
           m_sampleBytes := m_sampleBytes st;
           m_sampleBits := m_sampleBits st;
           m_nbSamples := nbSamples;
           m_lz4MinInputSize := m_lz4MinInputSize st;
           m_lz4BufSize := lz4BufSize;
           m_lz4Buffer := lz4Buffer;
           lz4_deleted := deleted;
           m_currentMeta := currentMeta;
           m_bufMeta := bufMeta;
           m_buf := buf |},
        hdr :: blocks ++ last).

(** [UDPSink::setLZ4MinInputSize]. With a zero argument the array is
    deleted when the pointer is not null (lines 131-133), and the pointer
    keeps its value: [None] when that array was deleted before. *)
Definition setLZ4MinInputSize (st : t) (lz4MinInputSize : Z) : option t :=
  if (lz4MinInputSize =? 0) && dangling st then None
  else
    Some {| m_udpSize := m_udpSize st;
            m_centerFrequency := m_centerFrequency st;
            m_sampleRate := m_sampleRate st;
            m_sampleBytes := m_sampleBytes st;
            m_sampleBits := m_sampleBits st;
            m_nbSamples := m_nbSamples st;
            m_lz4MinInputSize := lz4MinInputSize;
            m_lz4BufSize := if lz4MinInputSize =? 0 then 0 else m_lz4BufSize st;
            m_lz4Buffer := m_lz4Buffer st;
            lz4_deleted := if lz4MinInputSize =? 0
                           then negb (m_lz4Buffer st =? 0)
                           else lz4_deleted st;
            m_currentMeta := m_currentMeta st;
            m_bufMeta := m_bufMeta st;
            m_buf := m_buf st |}.

End UDPSink.

(** ** The receiver: [SDRdaemonBuffer] *)

(** The inverse of the payload transform selected by the codec indicator
    bits (high nibble of the sample-encoding byte). With no indicator bit set
    the payload is carried as it is. *)
Class Codec := {
  inverse_transform : Z -> list Z -> option (list Z);
  inverse_transform_plain : forall d, inverse_transform 0 d = Some d
}.

Module SDRdaemonBuffer.

Inductive state :=
| AWAITING_HEADER
| COLLECTING (header : MetaData.t) (blocks_remaining : Z)
             (next_offset : Z) (frame : list Z).

Record t := mk { m_blockSize : Z; m_state : state }.

(** [SDRdaemonBuffer(blockSize)]. *)
Definition init (blockSize : Z) : t :=
  {| m_blockSize := blockSize; m_state := AWAITING_HEADER |}.

(** Modelled from the spec: the header test of [writeAndRead]
    (SDRdaemonBuffer.cpp is not among the sources): "reinterpret datagram
    as a candidate header record; compute the checksum over its leading
    fields and compare to its trailing checksum field". *)
Definition valid_header `{CRC64} (datagram : list Z) : bool :=
  (MetaData.sizeof <=? Z.of_nat (length datagram))
  && (u64 (calculate_crc (take (Z.to_nat (MetaData.sizeof - 8)) datagram))
      =? MetaData.m_crc (MetaData.of_bytes datagram)).

Definition bytesPerComponent (h : MetaData.t) : Z :=
  Z.land (MetaData.m_sampleBytes h) 15.

Definition indicator_bits (h : MetaData.t) : Z :=
  Z.shiftr (MetaData.m_sampleBytes h) 4.

Definition samplesPerBlock (h : MetaData.t) : Z :=
  MetaData.m_blockSize h / (2 * bytesPerComponent h).

(** [src] copied into [frame] at [off]; the frame never grows. *)
Definition copy_into (frame : list Z) (off : Z) (src : list Z) : list Z :=
  take (length frame)
       (take (Z.to_nat off) frame ++ src
        ++ drop (Z.to_nat off + length src) frame).

(** Modelled from the spec: the body of [SDRdaemonBuffer::writeAndRead]
    (SDRdaemonBuffer.cpp is not among the sources), after the operation
    [accept] of the design document: a datagram of unexpected size is
    dropped; a datagram that passes the checksum test is adopted as the
    active header, with [blocks_remaining = blockCount], [next_offset = 0]
    and a reconstruction buffer of [frameSampleCount * 2 *
    bytesPerComponent] bytes; any other datagram is payload: discarded
    while awaiting a header, else [samplesPerBlock] samples of it (or
    [remainderSamples] samples if this is the final expected block and the
    frame has a partially filled block) are copied at [next_offset], and
    the frame is returned when [blocks_remaining] reaches zero. *)
Definition writeAndRead `{CRC64} `{Codec} (b : t) (datagram : list Z)
  : t * option (list Z) :=
  if negb (Z.of_nat (length datagram) =? m_blockSize b) then (b, None)
  else if valid_header datagram then
    let h := MetaData.of_bytes datagram in
    ({| m_blockSize := m_blockSize b;
        m_state :=
          COLLECTING h (MetaData.m_nbBlocks h) 0
            (repeat 0 (Z.to_nat (MetaData.m_nbSamples h * 2 * bytesPerComponent h))) |},
     None)
  else
    match m_state b with
    | AWAITING_HEADER => (b, None)
    | COLLECTING h remaining off frame =>
        match inverse_transform (indicator_bits h) datagram with
        | None => (b, None)
        | Some payload =>
            let count :=
              if (remaining =? 1) && (0 <? MetaData.m_remainderSamples h)
              then MetaData.m_remainderSamples h
              else samplesPerBlock h in
            let nbytes := count * 2 * bytesPerComponent h in
            let frame' := copy_into frame off (take (Z.to_nat nbytes) payload) in
            if remaining - 1 =? 0
            then ({| m_blockSize := m_blockSize b; m_state := AWAITING_HEADER |},
                  Some frame')
            else ({| m_blockSize := m_blockSize b;
                     m_state := COLLECTING h (remaining - 1) (off + nbytes) frame' |},
                  None)
        end
    end.

(** The receive loop: every datagram goes through [writeAndRead]; the
    completed frames are collected in order. *)
Fixpoint feed `{CRC64} `{Codec} (b : t) (datagrams : list (list Z))
  : t * list (list Z) :=
  match datagrams with
  | [] => (b, [])
  | d :: rest =>
      let '(b1, out) := writeAndRead b d in
      let '(b2, frames) := feed b1 rest in
      (b2, match out with Some f => f :: frames | None => frames end)
  end.

End SDRdaemonBuffer.

(** ** Device sources *)

(** The C library as the sources use it. [atoi] returns an [int];
    floating-point values ([float m_ppm], the [double] tuner frequency) are
    kept abstract: [strtod_ok s] is the converted value when the whole string
    converts without error ([*e == '\0' && errno == 0]), and
    [tuner_freq f q ppm] is the [uint32_t] obtained from
    [t = f + 0.25 * q; t += t * ppm * 1e-6]. *)
Class Libc := {
  atoi : string -> Z;
  atoi_int : forall s, - 2 ^ 31 <= atoi s <= INT_MAX;
  float : Type;
  float_zero : float;
  float_opp : float -> float;
  strtod_ok : string -> option float;
  tuner_freq : Z -> Z -> float -> Z
}.

Definition lower (a : ascii) : ascii :=
  let n := nat_of_ascii a in
  if (Nat.leb 65 n) && (Nat.leb n 90) then ascii_of_nat (n + 32) else a.

Fixpoint lower_string (s : string) : string :=
  match s with
  | EmptyString => EmptyString
  | String a r => String (lower a) (lower_string r)
  end.

(** [strcasecmp(a, b) == 0]. *)
Definition strcasecmp_eq (a b : string) : bool :=
  String.eqb (lower_string a) (lower_string b).

(** The position of the first element of [l] equal to [x], counted from
    [i]: the search loops of [configure]. *)
Fixpoint find_rate (x : Z) (l : list Z) (i : Z) : option Z :=
  match l with
  | [] => None
  | y :: r => if y =? x then Some i else find_rate x r (i + 1)
  end.

(** [find(v.begin(), v.end(), x) != v.end()]. *)
Definition contains (x : Z) (l : list Z) : bool :=
  existsb (Z.eqb x) l.

(** [for (int g : gains) ostr << g << " "]. *)
Definition gains_string (l : list Z) : string :=
  fold_right (fun g acc => pretty g +:+ " " +:+ acc) EmptyString l.

(** A run of [configure(pairs_type&)] either leaves through one of its
    [return false] statements or goes on with its local variables. *)
Inductive parse (S A : Type) :=
| Fail (st : S)
| Continue (a : A).
Arguments Fail {S A} st.
Arguments Continue {S A} a.

Definition parse_bind {S A B} (p : parse S A) (k : A -> parse S B) : parse S B :=
  match p with
  | Fail st => Fail st
  | Continue a => k a
  end.

Global Instance parse_mbind {S} : MBind (parse S) :=
  fun A B k p => parse_bind p k.

Definition has_flag (changeFlags bit : Z) : bool :=
  negb (Z.land changeFlags bit =? 0).

(** The loop of the two device callbacks,
    [for (int i = 0, j = 0; i < len; i += 2, j++)
       iqsamples[j] = IQSample(buf[i], buf[i+1])],
    for the [n] iterations that remain; [None] when [buf] is read or
    [iqsamples] written outside its bounds. *)
Fixpoint callback_loop (n : nat) (buf : list Z) (i j : Z)
    (iqsamples : list IQSample) : option (list IQSample) :=
  match n with
  | O => Some iqsamples
  | S k =>
      re ← (if i <? 0 then None else buf !! Z.to_nat i);
      im ← (if i + 1 <? 0 then None else buf !! Z.to_nat (i + 1));
      if (0 <=? j) && (j <? Z.of_nat (length iqsamples))
      then callback_loop k buf (i + 2) (j + 1)
             (<[Z.to_nat j := mkIQ re im]> iqsamples)
      else None
  end.

(** The body shared by [AirspySource::callback] and
    [AirspyHFSource::callback]: the vector handed to [m_buf->push].
    [iqsamples.resize(len/2)] with the division of C++ (towards zero); a
    negative size cannot be allocated. The loop runs while [i < len], that
    is [(len + 1) / 2] times for a positive [len]. *)
Definition device_callback (buf : list Z) (len : Z) : option (list IQSample) :=
  if Z.quot len 2 <? 0 then None
  else callback_loop (Z.to_nat ((len + 1) / 2)) buf 0 0
         (replicate (Z.to_nat (Z.quot len 2)) (mkIQ 0 0)).

(** The body shared by the two [rx_callback]: [len = sample_count * 2] in
    [int]; the vector pushed, if any, and the value returned. [m_this] tells
    whether the static instance pointer is set. *)
Definition device_rx_callback (m_this : bool) (samples : list Z)
    (sample_count : Z) : option (option (list IQSample) * Z) :=
  let len := sample_count * 2 in
  if (len <? - 2 ^ 31) || (INT_MAX <? len) then None
  else if m_this then
    v ← device_callback samples len; Some (Some v, 0)
  else Some (None, 0).

Module AirspySource.

(** The calls made on the device handle. *)
Inductive call :=
| airspy_set_freq (f : Z)
| airspy_set_samplerate (index : Z)
| airspy_set_lna_gain (g : Z)
| airspy_set_mixer_gain (g : Z)
| airspy_set_vga_gain (g : Z)
| airspy_set_rf_bias (v : Z)
| airspy_set_lna_agc (v : Z)
| airspy_set_mixer_agc (v : Z).

(** The device: whether a call succeeds (AIRSPY_SUCCESS), given the calls
    made before it. *)
Class Device := { success : list call -> call -> bool }.

Definition m_lgains : list Z := [0; 1; 2; 3; 4; 5; 6; 7; 8; 9; 10; 11; 12; 13; 14].
Definition m_mgains : list Z := [0; 1; 2; 3; 4; 5; 6; 7; 8; 9; 10; 11; 12; 13; 14; 15].
Definition m_vgains : list Z := [0; 1; 2; 3; 4; 5; 6; 7; 8; 9; 10; 11; 12; 13; 14; 15].

Definition m_lgainsStr : string := gains_string m_lgains.
Definition m_mgainsStr : string := gains_string m_mgains.
Definition m_vgainsStr : string := gains_string m_vgains.

Section WithLibc.
Context `{Libc}.

(** The object: the members of [AirspySource], those it inherits from
    [DeviceSource] ([m_error], [m_confFreq], [m_fcPos], [m_decim]), and
    the calls made so far on [m_dev]. *)
Record t := mk {
  m_dev : bool;              (* whether the handle is non-null *)
  m_sampleRate : Z;          (* uint32_t *)
  m_frequency : Z;           (* uint32_t *)
  m_ppm : float;
  m_lnaGain : Z;
  m_mixGain : Z;
  m_vgaGain : Z;
  m_biasAnt : bool;
  m_lnaAGC : bool;
  m_mixAGC : bool;
  m_srates : list Z;         (* std::vector<int> *)
  m_sratesStr : string;
  m_error : string;
  m_confFreq : Z;
  m_fcPos : Z;
  m_decim : Z;
  calls : list call
}.

Definition set_m_sampleRate (v : Z) (s : t) : t :=
  let 'mk x_m_dev _ x_m_frequency x_m_ppm x_m_lnaGain x_m_mixGain x_m_vgaGain x_m_biasAnt x_m_lnaAGC x_m_mixAGC x_m_srates x_m_sratesStr x_m_error x_m_confFreq x_m_fcPos x_m_decim x_calls := s in
  mk x_m_dev v x_m_frequency x_m_ppm x_m_lnaGain x_m_mixGain x_m_vgaGain x_m_biasAnt x_m_lnaAGC x_m_mixAGC x_m_srates x_m_sratesStr x_m_error x_m_confFreq x_m_fcPos x_m_decim x_calls.

Definition set_m_frequency (v : Z) (s : t) : t :=
  let 'mk x_m_dev x_m_sampleRate _ x_m_ppm x_m_lnaGain x_m_mixGain x_m_vgaGain x_m_biasAnt x_m_lnaAGC x_m_mixAGC x_m_srates x_m_sratesStr x_m_error x_m_confFreq x_m_fcPos x_m_decim x_calls := s in
  mk x_m_dev x_m_sampleRate v x_m_ppm x_m_lnaGain x_m_mixGain x_m_vgaGain x_m_biasAnt x_m_lnaAGC x_m_mixAGC x_m_srates x_m_sratesStr x_m_error x_m_confFreq x_m_fcPos x_m_decim x_calls.

Definition set_m_ppm (v : float) (s : t) : t :=
  let 'mk x_m_dev x_m_sampleRate x_m_frequency _ x_m_lnaGain x_m_mixGain x_m_vgaGain x_m_biasAnt x_m_lnaAGC x_m_mixAGC x_m_srates x_m_sratesStr x_m_error x_m_confFreq x_m_fcPos x_m_decim x_calls := s in
  mk x_m_dev x_m_sampleRate x_m_frequency v x_m_lnaGain x_m_mixGain x_m_vgaGain x_m_biasAnt x_m_lnaAGC x_m_mixAGC x_m_srates x_m_sratesStr x_m_error x_m_confFreq x_m_fcPos x_m_decim x_calls.

Definition set_m_lnaGain (v : Z) (s : t) : t :=
  let 'mk x_m_dev x_m_sampleRate x_m_frequency x_m_ppm _ x_m_mixGain x_m_vgaGain x_m_biasAnt x_m_lnaAGC x_m_mixAGC x_m_srates x_m_sratesStr x_m_error x_m_confFreq x_m_fcPos x_m_decim x_calls := s in
  mk x_m_dev x_m_sampleRate x_m_frequency x_m_ppm v x_m_mixGain x_m_vgaGain x_m_biasAnt x_m_lnaAGC x_m_mixAGC x_m_srates x_m_sratesStr x_m_error x_m_confFreq x_m_fcPos x_m_decim x_calls.

Definition set_m_mixGain (v : Z) (s : t) : t :=
  let 'mk x_m_dev x_m_sampleRate x_m_frequency x_m_ppm x_m_lnaGain _ x_m_vgaGain x_m_biasAnt x_m_lnaAGC x_m_mixAGC x_m_srates x_m_sratesStr x_m_error x_m_confFreq x_m_fcPos x_m_decim x_calls := s in
  mk x_m_dev x_m_sampleRate x_m_frequency x_m_ppm x_m_lnaGain v x_m_vgaGain x_m_biasAnt x_m_lnaAGC x_m_mixAGC x_m_srates x_m_sratesStr x_m_error x_m_confFreq x_m_fcPos x_m_decim x_calls.

Definition set_m_vgaGain (v : Z) (s : t) : t :=
  let 'mk x_m_dev x_m_sampleRate x_m_frequency x_m_ppm x_m_lnaGain x_m_mixGain _ x_m_biasAnt x_m_lnaAGC x_m_mixAGC x_m_srates x_m_sratesStr x_m_error x_m_confFreq x_m_fcPos x_m_decim x_calls := s in
  mk x_m_dev x_m_sampleRate x_m_frequency x_m_ppm x_m_lnaGain x_m_mixGain v x_m_biasAnt x_m_lnaAGC x_m_mixAGC x_m_srates x_m_sratesStr x_m_error x_m_confFreq x_m_fcPos x_m_decim x_calls.

Definition set_m_biasAnt (v : bool) (s : t) : t :=
  let 'mk x_m_dev x_m_sampleRate x_m_frequency x_m_ppm x_m_lnaGain x_m_mixGain x_m_vgaGain _ x_m_lnaAGC x_m_mixAGC x_m_srates x_m_sratesStr x_m_error x_m_confFreq x_m_fcPos x_m_decim x_calls := s in
  mk x_m_dev x_m_sampleRate x_m_frequency x_m_ppm x_m_lnaGain x_m_mixGain x_m_vgaGain v x_m_lnaAGC x_m_mixAGC x_m_srates x_m_sratesStr x_m_error x_m_confFreq x_m_fcPos x_m_decim x_calls.

Definition set_m_lnaAGC (v : bool) (s : t) : t :=
  let 'mk x_m_dev x_m_sampleRate x_m_frequency x_m_ppm x_m_lnaGain x_m_mixGain x_m_vgaGain x_m_biasAnt _ x_m_mixAGC x_m_srates x_m_sratesStr x_m_error x_m_confFreq x_m_fcPos x_m_decim x_calls := s in
  mk x_m_dev x_m_sampleRate x_m_frequency x_m_ppm x_m_lnaGain x_m_mixGain x_m_vgaGain x_m_biasAnt v x_m_mixAGC x_m_srates x_m_sratesStr x_m_error x_m_confFreq x_m_fcPos x_m_decim x_calls.

Definition set_m_mixAGC (v : bool) (s : t) : t :=
  let 'mk x_m_dev x_m_sampleRate x_m_frequency x_m_ppm x_m_lnaGain x_m_mixGain x_m_vgaGain x_m_biasAnt x_m_lnaAGC _ x_m_srates x_m_sratesStr x_m_error x_m_confFreq x_m_fcPos x_m_decim x_calls := s in
  mk x_m_dev x_m_sampleRate x_m_frequency x_m_ppm x_m_lnaGain x_m_mixGain x_m_vgaGain x_m_biasAnt x_m_lnaAGC v x_m_srates x_m_sratesStr x_m_error x_m_confFreq x_m_fcPos x_m_decim x_calls.

Definition set_m_error (v : string) (s : t) : t :=
  let 'mk x_m_dev x_m_sampleRate x_m_frequency x_m_ppm x_m_lnaGain x_m_mixGain x_m_vgaGain x_m_biasAnt x_m_lnaAGC x_m_mixAGC x_m_srates x_m_sratesStr _ x_m_confFreq x_m_fcPos x_m_decim x_calls := s in
  mk x_m_dev x_m_sampleRate x_m_frequency x_m_ppm x_m_lnaGain x_m_mixGain x_m_vgaGain x_m_biasAnt x_m_lnaAGC x_m_mixAGC x_m_srates x_m_sratesStr v x_m_confFreq x_m_fcPos x_m_decim x_calls.

Definition set_m_confFreq (v : Z) (s : t) : t :=
  let 'mk x_m_dev x_m_sampleRate x_m_frequency x_m_ppm x_m_lnaGain x_m_mixGain x_m_vgaGain x_m_biasAnt x_m_lnaAGC x_m_mixAGC x_m_srates x_m_sratesStr x_m_error _ x_m_fcPos x_m_decim x_calls := s in
  mk x_m_dev x_m_sampleRate x_m_frequency x_m_ppm x_m_lnaGain x_m_mixGain x_m_vgaGain x_m_biasAnt x_m_lnaAGC x_m_mixAGC x_m_srates x_m_sratesStr x_m_error v x_m_fcPos x_m_decim x_calls.

Definition set_m_fcPos (v : Z) (s : t) : t :=
  let 'mk x_m_dev x_m_sampleRate x_m_frequency x_m_ppm x_m_lnaGain x_m_mixGain x_m_vgaGain x_m_biasAnt x_m_lnaAGC x_m_mixAGC x_m_srates x_m_sratesStr x_m_error x_m_confFreq _ x_m_decim x_calls := s in
  mk x_m_dev x_m_sampleRate x_m_frequency x_m_ppm x_m_lnaGain x_m_mixGain x_m_vgaGain x_m_biasAnt x_m_lnaAGC x_m_mixAGC x_m_srates x_m_sratesStr x_m_error x_m_confFreq v x_m_decim x_calls.

Definition set_m_decim (v : Z) (s : t) : t :=
  let 'mk x_m_dev x_m_sampleRate x_m_frequency x_m_ppm x_m_lnaGain x_m_mixGain x_m_vgaGain x_m_biasAnt x_m_lnaAGC x_m_mixAGC x_m_srates x_m_sratesStr x_m_error x_m_confFreq x_m_fcPos _ x_calls := s in
  mk x_m_dev x_m_sampleRate x_m_frequency x_m_ppm x_m_lnaGain x_m_mixGain x_m_vgaGain x_m_biasAnt x_m_lnaAGC x_m_mixAGC x_m_srates x_m_sratesStr x_m_error x_m_confFreq x_m_fcPos v x_calls.

Definition set_calls (v : list call) (s : t) : t :=
  let 'mk x_m_dev x_m_sampleRate x_m_frequency x_m_ppm x_m_lnaGain x_m_mixGain x_m_vgaGain x_m_biasAnt x_m_lnaAGC x_m_mixAGC x_m_srates x_m_sratesStr x_m_error x_m_confFreq x_m_fcPos x_m_decim _ := s in
  mk x_m_dev x_m_sampleRate x_m_frequency x_m_ppm x_m_lnaGain x_m_mixGain x_m_vgaGain x_m_biasAnt x_m_lnaAGC x_m_mixAGC x_m_srates x_m_sratesStr x_m_error x_m_confFreq x_m_fcPos x_m_decim v.
Definition get_sample_rate (s : t) : Z := m_sampleRate s.

Definition get_frequency (s : t) : Z := m_frequency s.

Context `{Device}.

(** One device call: recorded, and its outcome. *)
Definition invoke (c : call) (s : t) : t * bool :=
  (set_calls (calls s ++ [c]) s, success (calls s) c).

(** A block [if (changeFlags & bit) { ... }] of [configure(flags, ...)]:
    the member is assigned, the device called, and on failure the error
    text stored and [false] returned. *)
Definition setting (on : bool) (assign : t -> t) (c : t -> call)
    (err : t -> string) (s : t) : parse t t :=
  if on then
    let s1 := assign s in
    let '(s2, ok) := invoke (c s1) s1 in
    if ok then Continue s2 else Fail (set_m_error (err s2) s2)
  else Continue s.

Definition bool_of_int (v : Z) : bool := negb (v =? 0).

Definition int_of_bool (b : bool) : Z := if b then 1 else 0.

(** [AirspySource::configure(changeFlags, sampleRateIndex, frequency, ...)].
    [None]: [m_srates] indexed outside its bounds. *)
Definition configure_flags (changeFlags sampleRateIndex frequency
    bias_ant lna_gain mix_gain vga_gain lna_agc mix_agc : Z) (s : t)
  : option (t * bool) :=
  if negb (m_dev s) then Some (s, false)
  else
    match setting (has_flag changeFlags 0x1)
            (set_m_frequency (u32 frequency))
            (fun s => airspy_set_freq (m_frequency s))
            (fun s => "Could not set center frequency to "
                      +:+ pretty (m_frequency s) +:+ " Hz") s with
    | Fail f => Some (f, false)
    | Continue s1 =>
        rate ← (if has_flag changeFlags 0x2
                then (if sampleRateIndex <? 0 then None
                      else m_srates s1 !! Z.to_nat sampleRateIndex)
                else Some 0);
        let run :=
          s2 ← match setting (has_flag changeFlags 0x2) id
                        (fun _ => airspy_set_samplerate sampleRateIndex)
                        (fun _ => "Could not set center sample rate to "
                                  +:+ pretty rate +:+ " Hz") s1 with
                | Fail f => Fail f
                | Continue c =>
                    Continue (if has_flag changeFlags 0x2
                              then set_m_sampleRate (u32 rate) c else c)
                end;
          s3 ← setting (has_flag changeFlags 0x4)
                  (set_m_lnaGain lna_gain)
                  (fun s => airspy_set_lna_gain (m_lnaGain s))
                  (fun s => "Could not set LNA gain to "
                            +:+ pretty (m_lnaGain s) +:+ " dB") s2;
          s4 ← setting (has_flag changeFlags 0x8)
                  (set_m_mixGain mix_gain)
                  (fun s => airspy_set_mixer_gain (m_mixGain s))
                  (fun s => "Could not set mixer gain to "
                            +:+ pretty (m_mixGain s) +:+ " dB") s3;
          s5 ← setting (has_flag changeFlags 0x10)
                  (set_m_vgaGain vga_gain)
                  (fun s => airspy_set_vga_gain (m_vgaGain s))
                  (fun s => "Could not set VGA gain to "
                            +:+ pretty (m_vgaGain s) +:+ " dB") s4;
          s6 ← setting (has_flag changeFlags 0x20)
                  (set_m_biasAnt (bool_of_int bias_ant))
                  (fun s => airspy_set_rf_bias (int_of_bool (m_biasAnt s)))
                  (fun s => "Could not set bias antenna to "
                            +:+ pretty (int_of_bool (m_biasAnt s))) s5;
          s7 ← setting (has_flag changeFlags 0x40)
                  (set_m_lnaAGC (bool_of_int lna_agc))
                  (fun s => airspy_set_lna_agc (int_of_bool (m_lnaAGC s)))
                  (fun s => "Could not set LNA AGC to "
                            +:+ pretty (int_of_bool (m_lnaAGC s))) s6;
          setting (has_flag changeFlags 0x80)
                  (set_m_mixAGC (bool_of_int mix_agc))
                  (fun s => airspy_set_mixer_agc (int_of_bool (m_mixAGC s)))
                  (fun s => "Could not set mixer AGC to "
                            +:+ pretty (int_of_bool (m_mixAGC s))) s7 in
        match run with
        | Fail f => Some (f, false)
        | Continue c => Some (c, true)
        end
    end.

(** The local variables of [configure(pairs_type&)]. *)
Record locals := mkLocals {
  sampleRateIndex : Z;
  frequency : Z;
  lnaGain : Z;
  mixGain : Z;
  vgaGain : Z;
  antBias : Z;
  lnaAGC : Z;
  mixAGC : Z;
  fcpos : Z;
  changeFlags : Z
}.

Definition add_flag (bit : Z) (l : locals) : locals :=
  let 'mkLocals a b c d e f g h i fl := l in
  mkLocals a b c d e f g h i (Z.lor fl bit).

Definition key_freq (m : gmap string string) (sl : t * locals)
  : parse t (t * locals) :=
  let '(s, l) := sl in
  match m !! "freq" with
  | Some v =>
      let frequency := u32 (atoi v) in
      if (frequency <? 24000000) || (1800000000 <? frequency)
      then Fail (set_m_error "Invalid frequency" s)
      else
        let 'mkLocals a _ c d e f g h i fl := l in
        Continue (s, add_flag 0x1 (mkLocals a frequency c d e f g h i fl))
  | None => Continue sl
  end.

Definition key_srate (m : gmap string string) (sl : t * locals)
  : parse t (t * locals) :=
  let '(s, l) := sl in
  match m !! "srate" with
  | Some v =>
      if strcasecmp_eq v "list"
      then Fail (set_m_error ("Available sample rates (Hz): " +:+ m_sratesStr s) s)
      else
        let s1 := set_m_sampleRate (u32 (atoi v)) s in
        match find_rate (s32 (m_sampleRate s1)) (m_srates s1) 0 with
        | Some i =>
            let 'mkLocals _ b c d e f g h fc fl := l in
            let l1 := add_flag 0x2 (mkLocals i b c d e f g h fc fl) in
            Continue (s1, if negb (fc =? 2) then add_flag 0x1 l1 else l1)
        | None =>
            Fail (set_m_sampleRate 0 (set_m_error "Invalid sample rate" s1))
        end
  | None => Continue sl
  end.

(** The blocks for "lgain", "mgain" and "vgain". *)
Definition key_gain (key : string) (gains : list Z) (listed unsupported : string)
    (store : Z -> locals -> locals) (bit : Z)
    (m : gmap string string) (sl : t * locals) : parse t (t * locals) :=
  let '(s, l) := sl in
  match m !! key with
  | Some v =>
      if strcasecmp_eq v "list" then Fail (set_m_error listed s)
      else
        let g := atoi v in
        if negb (contains g gains) then Fail (set_m_error unsupported s)
        else Continue (s, add_flag bit (store g l))
  | None => Continue sl
  end.

(** The blocks for "antbias", "lagc" and "magc". *)
Definition key_switch (key : string) (store : Z -> locals -> locals) (bit : Z)
    (m : gmap string string) (sl : t * locals) : parse t (t * locals) :=
  let '(s, l) := sl in
  match m !! key with
  | Some v => Continue (s, add_flag bit (store (atoi v) l))
  | None => Continue sl
  end.

Definition key_ppm (m : gmap string string) (sl : t * locals)
  : parse t (t * locals) :=
  let '(s, l) := sl in
  match m !! "ppmp" with
  | Some v =>
      match strtod_ok v with
      | Some ppm => Continue (set_m_ppm ppm s, add_flag 0x1 l)
      | None => Continue sl
      end
  | None =>
      match m !! "ppmn" with
      | Some v =>
          match strtod_ok v with
          | Some ppm => Continue (set_m_ppm (float_opp ppm) s, add_flag 0x1 l)
          | None => Continue sl
          end
      | None => Continue sl
      end
  end.

Definition key_fcpos (m : gmap string string) (sl : t * locals)
  : parse t (t * locals) :=
  let '(s, l) := sl in
  match m !! "fcpos" with
  | Some v =>
      let p := atoi v in
      if (p <? 0) || (2 <? p)
      then Fail (set_m_error "Invalid center frequency position" s)
      else
        let 'mkLocals a b c d e f g h _ fl := l in
        Continue (set_m_fcPos p s, add_flag 0x1 (mkLocals a b c d e f g h p fl))
  | None => Continue sl
  end.

Definition key_decim (m : gmap string string) (sl : t * locals)
  : parse t (t * locals) :=
  let '(s, l) := sl in
  match m !! "decim" with
  | Some v =>
      let log2Decim := atoi v in
      if (log2Decim <? 0) || (6 <? log2Decim)
      then Fail (set_m_error "Invalid log2 decimation factor" s)
      else Continue (set_m_decim log2Decim s, l)
  | None => Continue sl
  end.

Definition store_lnaGain (g : Z) (l : locals) : locals :=
  let 'mkLocals a b _ d e f g' h i fl := l in mkLocals a b g d e f g' h i fl.
Definition store_mixGain (g : Z) (l : locals) : locals :=
  let 'mkLocals a b c _ e f g' h i fl := l in mkLocals a b c g e f g' h i fl.
Definition store_vgaGain (g : Z) (l : locals) : locals :=
  let 'mkLocals a b c d _ f g' h i fl := l in mkLocals a b c d g f g' h i fl.
Definition store_antBias (v : Z) (l : locals) : locals :=
  let 'mkLocals a b c d e _ g' h i fl := l in mkLocals a b c d e v g' h i fl.
Definition store_lnaAGC (v : Z) (l : locals) : locals :=
  let 'mkLocals a b c d e f _ h i fl := l in mkLocals a b c d e f v h i fl.
Definition store_mixAGC (v : Z) (l : locals) : locals :=
  let 'mkLocals a b c d e f g' _ i fl := l in mkLocals a b c d e f g' v i fl.

(** The part of [configure(pairs_type&)] that reads the map (lines
    422-638). *)
Definition read_keys (m : gmap string string) (s : t) : parse t (t * locals) :=
  let l0 := mkLocals 0 (m_confFreq s) 8 8 0 0 0 0 2 0 in
  sl ← key_freq m (s, l0);
  sl ← key_srate m sl;
  sl ← key_gain "lgain" m_lgains
          ("Available LNA gains (dB): " +:+ m_lgainsStr)
          ("LNA gain not supported. Available gains (dB): " +:+ m_lgainsStr)
          store_lnaGain 0x4 m sl;
  sl ← key_gain "mgain" m_mgains
          ("Available mixer gains (dB): " +:+ m_mgainsStr)
          ("Mixer gain not supported. Available gains (dB): " +:+ m_mgainsStr)
          store_mixGain 0x8 m sl;
  sl ← key_gain "vgain" m_vgains
          ("Available VGA gains (dB): " +:+ m_vgainsStr)
          ("VGA gain not supported. Available gains (dB): " +:+ m_vgainsStr)
          store_vgaGain 0x10 m sl;
  sl ← key_switch "antbias" store_antBias 0x20 m sl;
  sl ← key_switch "lagc" store_lnaAGC 0x40 m sl;
  sl ← key_switch "magc" store_mixAGC 0x80 m sl;
  sl ← key_ppm m sl;
  sl ← key_fcpos m sl;
  key_decim m sl.

(** [AirspySource::configure(parsekv::pairs_type& m)]: the new object and
    the value returned. *)
Definition configure (m : gmap string string) (s : t) : option (t * bool) :=
  match read_keys m s with
  | Fail f => Some (f, false)
  | Continue (s1, l) =>
      let s2 := set_m_confFreq (frequency l) s1 in
      quarter ← (if m_fcPos s2 =? 0
                 then m_srates s2 !! Z.to_nat (sampleRateIndex l)
                 else if m_fcPos s2 =? 1
                 then Z.opp <$> m_srates s2 !! Z.to_nat (sampleRateIndex l)
                 else Some 0);
      configure_flags (changeFlags l) (sampleRateIndex l)
        (tuner_freq (frequency l) quarter (m_ppm s2))
        (antBias l) (lnaGain l) (mixGain l) (vgaGain l) (lnaAGC l) (mixAGC l) s2
  end.

(** Whether each of the calls [new], made in this order after the calls
    [hist], was accepted by the device. *)
Fixpoint all_succeeded (hist new : list call) : bool :=
  match new with
  | [] => true
  | c :: r => success hist c && all_succeeded (hist ++ [c]) r
  end.

End WithLibc.

(** [AirspySource::callback]. *)
Definition callback (buf : list Z) (len : Z) : option (list IQSample) :=
  device_callback buf len.

(** [AirspySource::rx_callback]. *)
Definition rx_callback (m_this : bool) (samples : list Z) (sample_count : Z)
  : option (option (list IQSample) * Z) :=
  device_rx_callback m_this samples sample_count.

End AirspySource.

Module AirspyHFSource.

Inductive call :=
| airspyhf_set_freq (f : Z)
| airspyhf_set_samplerate (rate : Z).

(** Whether a call succeeds (AIRSPYHF_SUCCESS), given the calls before it. *)
Class Device := { success : list call -> call -> bool }.

Section WithLibc.
Context `{Libc}.

Record t := mk {
  m_dev : bool;
  m_sampleRate : Z;          (* uint32_t *)
  m_frequency : Z;           (* uint32_t *)
  m_ppm : float;
  m_hfAGC : bool;
  m_hfATT : bool;
  m_hfLNA : bool;
  m_srates : list Z;         (* std::vector<int> *)
  m_sratesStr : string;
  m_error : string;
  m_confFreq : Z;
  m_decim : Z;
  calls : list call
}.

Definition set_m_sampleRate (v : Z) (s : t) : t :=
  let 'mk x_m_dev _ x_m_frequency x_m_ppm x_m_hfAGC x_m_hfATT x_m_hfLNA x_m_srates x_m_sratesStr x_m_error x_m_confFreq x_m_decim x_calls := s in
  mk x_m_dev v x_m_frequency x_m_ppm x_m_hfAGC x_m_hfATT x_m_hfLNA x_m_srates x_m_sratesStr x_m_error x_m_confFreq x_m_decim x_calls.

Definition set_m_frequency (v : Z) (s : t) : t :=
  let 'mk x_m_dev x_m_sampleRate _ x_m_ppm x_m_hfAGC x_m_hfATT x_m_hfLNA x_m_srates x_m_sratesStr x_m_error x_m_confFreq x_m_decim x_calls := s in
  mk x_m_dev x_m_sampleRate v x_m_ppm x_m_hfAGC x_m_hfATT x_m_hfLNA x_m_srates x_m_sratesStr x_m_error x_m_confFreq x_m_decim x_calls.

Definition set_m_ppm (v : float) (s : t) : t :=
  let 'mk x_m_dev x_m_sampleRate x_m_frequency _ x_m_hfAGC x_m_hfATT x_m_hfLNA x_m_srates x_m_sratesStr x_m_error x_m_confFreq x_m_decim x_calls := s in
  mk x_m_dev x_m_sampleRate x_m_frequency v x_m_hfAGC x_m_hfATT x_m_hfLNA x_m_srates x_m_sratesStr x_m_error x_m_confFreq x_m_decim x_calls.

Definition set_m_error (v : string) (s : t) : t :=
  let 'mk x_m_dev x_m_sampleRate x_m_frequency x_m_ppm x_m_hfAGC x_m_hfATT x_m_hfLNA x_m_srates x_m_sratesStr _ x_m_confFreq x_m_decim x_calls := s in
  mk x_m_dev x_m_sampleRate x_m_frequency x_m_ppm x_m_hfAGC x_m_hfATT x_m_hfLNA x_m_srates x_m_sratesStr v x_m_confFreq x_m_decim x_calls.

Definition set_m_confFreq (v : Z) (s : t) : t :=
  let 'mk x_m_dev x_m_sampleRate x_m_frequency x_m_ppm x_m_hfAGC x_m_hfATT x_m_hfLNA x_m_srates x_m_sratesStr x_m_error _ x_m_decim x_calls := s in
  mk x_m_dev x_m_sampleRate x_m_frequency x_m_ppm x_m_hfAGC x_m_hfATT x_m_hfLNA x_m_srates x_m_sratesStr x_m_error v x_m_decim x_calls.

Definition set_m_decim (v : Z) (s : t) : t :=
  let 'mk x_m_dev x_m_sampleRate x_m_frequency x_m_ppm x_m_hfAGC x_m_hfATT x_m_hfLNA x_m_srates x_m_sratesStr x_m_error x_m_confFreq _ x_calls := s in
  mk x_m_dev x_m_sampleRate x_m_frequency x_m_ppm x_m_hfAGC x_m_hfATT x_m_hfLNA x_m_srates x_m_sratesStr x_m_error x_m_confFreq v x_calls.

Definition set_calls (v : list call) (s : t) : t :=
  let 'mk x_m_dev x_m_sampleRate x_m_frequency x_m_ppm x_m_hfAGC x_m_hfATT x_m_hfLNA x_m_srates x_m_sratesStr x_m_error x_m_confFreq x_m_decim _ := s in
  mk x_m_dev x_m_sampleRate x_m_frequency x_m_ppm x_m_hfAGC x_m_hfATT x_m_hfLNA x_m_srates x_m_sratesStr x_m_error x_m_confFreq x_m_decim v.
Definition get_sample_rate (s : t) : Z := m_sampleRate s.

Definition get_frequency (s : t) : Z := m_frequency s.

Context `{Device}.

Definition invoke (c : call) (s : t) : t * bool :=
  (set_calls (calls s ++ [c]) s, success (calls s) c).

(** [AirspyHFSource::configure(changeFlags, sampleRateIndex, frequency,
    hf_agc, hf_att, hf_lna)]; the blocks for the last three are commented
    out in the source. *)
Definition configure_flags (changeFlags sampleRateIndex frequency
    hf_agc hf_att hf_lna : Z) (s : t) : option (t * bool) :=
  if negb (m_dev s) then Some (s, false)
  else
    let freq_block : parse t t :=
      if has_flag changeFlags 0x1 then
        let s0 := set_m_frequency (u32 frequency) s in
        let '(s', ok) := invoke (airspyhf_set_freq (m_frequency s0)) s0 in
        if ok then Continue s'
        else Fail (set_m_error ("Could not set center frequency to "
                                +:+ pretty (m_frequency s') +:+ " Hz") s')
      else Continue s in
    match freq_block with
    | Fail f => Some (f, false)
    | Continue s1 =>
        if has_flag changeFlags 0x2 then
          rate ← (if sampleRateIndex <? 0 then None
                  else m_srates s1 !! Z.to_nat sampleRateIndex);
          let '(s', ok) := invoke (airspyhf_set_samplerate rate) s1 in
          if ok then Some (set_m_sampleRate (u32 rate) s', true)
          else Some (set_m_error ("Could not set center sample rate to "
                                  +:+ pretty rate +:+ " Hz") s', false)
        else Some (s1, true)
    end.

Record locals := mkLocals {
  sampleRateIndex : Z;
  frequency : Z;
  changeFlags : Z
}.

Definition add_flag (bit : Z) (l : locals) : locals :=
  mkLocals (sampleRateIndex l) (frequency l) (Z.lor (changeFlags l) bit).

Definition key_freq (m : gmap string string) (sl : t * locals)
  : parse t (t * locals) :=
  let '(s, l) := sl in
  match m !! "freq" with
  | Some v =>
      let frequency := u32 (atoi v) in
      if (frequency <? 24000000) || (1800000000 <? frequency)
      then Fail (set_m_error "Invalid frequency" s)
      else Continue (s, add_flag 0x1 (mkLocals (sampleRateIndex l) frequency (changeFlags l)))
  | None => Continue sl
  end.

Definition key_srate (m : gmap string string) (sl : t * locals)
  : parse t (t * locals) :=
  let '(s, l) := sl in
  match m !! "srate" with
  | Some v =>
      if strcasecmp_eq v "list"
      then Fail (set_m_error ("Available sample rates (Hz): " +:+ m_sratesStr s) s)
      else
        let s1 := set_m_sampleRate (u32 (atoi v)) s in
        match find_rate (s32 (m_sampleRate s1)) (m_srates s1) 0 with
        | Some i =>
            Continue (s1, add_flag 0x2 (mkLocals i (frequency l) (changeFlags l)))
        | None =>
            Fail (set_m_sampleRate 0 (set_m_error "Invalid sample rate" s1))
        end
  | None => Continue sl
  end.

Definition key_ppm (m : gmap string string) (sl : t * locals)
  : parse t (t * locals) :=
  let '(s, l) := sl in
  match m !! "ppmp" with
  | Some v =>
      match strtod_ok v with
      | Some ppm => Continue (set_m_ppm ppm s, add_flag 0x1 l)
      | None => Continue sl
      end
  | None =>
      match m !! "ppmn" with
      | Some v =>
          match strtod_ok v with
          | Some ppm => Continue (set_m_ppm (float_opp ppm) s, add_flag 0x1 l)
          | None => Continue sl
          end
      | None => Continue sl
      end
  end.

Definition key_decim (m : gmap string string) (sl : t * locals)
  : parse t (t * locals) :=
  let '(s, l) := sl in
  match m !! "decim" with
  | Some v =>
      let log2Decim := atoi v in
      if (log2Decim <? 0) || (6 <? log2Decim)
      then Fail (set_m_error "Invalid log2 decimation factor" s)
      else Continue (set_m_decim log2Decim s, l)
  | None => Continue sl
  end.

(** The part of [configure(pairs_type&)] that reads the map (lines
    280-400). *)
Definition read_keys (m : gmap string string) (s : t) : parse t (t * locals) :=
  let l0 := mkLocals 0 (m_confFreq s) 0 in
  sl ← key_freq m (s, l0);
  sl ← key_srate m sl;
  sl ← key_ppm m sl;
  key_decim m sl.

(** [AirspyHFSource::configure(parsekv::pairs_type& m)]. *)
Definition configure (m : gmap string string) (s : t) : option (t * bool) :=
  match read_keys m s with
  | Fail f => Some (f, false)
  | Continue (s1, l) =>
      let s2 := set_m_confFreq (frequency l) s1 in
      configure_flags (changeFlags l) (sampleRateIndex l)
        (tuner_freq (frequency l) 0 (m_ppm s2)) 0 0 0 s2
  end.

(** [operator bool() const { return m_dev && m_error.empty(); }]
    (AirspyHFSource.h). *)
Definition operator_bool (s : t) : bool :=
  m_dev s && String.eqb (m_error s) "".

End WithLibc.

(** [AirspyHFSource::callback]. *)
Definition callback (buf : list Z) (len : Z) : option (list IQSample) :=
  device_callback buf len.

(** [AirspyHFSource::rx_callback]. *)
Definition rx_callback (m_this : bool) (samples : list Z) (sample_count : Z)
  : option (option (list IQSample) * Z) :=
  device_rx_callback m_this samples sample_count.

End AirspyHFSource.

(** ** Reference instances of the collaborators, for closed examples *)

(** A bitwise CRC-64 (polynomial 0x42F0E1EBA9EA3693, most significant bit
    first, zero initial value). *)
Definition crc64_poly : Z := 0x42F0E1EBA9EA3693.

Definition crc64_shift (crc : Z) : Z :=
  if Z.testbit crc 63
  then Z.lxor (u64 (Z.shiftl crc 1)) crc64_poly
  else u64 (Z.shiftl crc 1).

Definition crc64_byte (crc b : Z) : Z :=
  Nat.iter 8 crc64_shift (Z.lxor crc (Z.shiftl (u8 b) 56)).

Definition crc64_ref : CRC64 :=
  {| calculate_crc := fun bs => fold_left crc64_byte bs 0 |}.

(** The bound of lz4.h:
    [isize > LZ4_MAX_INPUT_SIZE ? 0 : isize + isize/255 + 16]. *)
Definition lz4_ref : LZ4 :=
  {| LZ4_compressBound := fun isize =>
       if 0x7E000000 <? u32 isize then 0 else isize + isize / 255 + 16 |}.

(** Equality of the fields marked "critical data" in the header. *)
Definition meta_eq_ref : MetaDataEq :=
  {| MetaData_eqb := fun a b =>
       (MetaData.m_centerFrequency a =? MetaData.m_centerFrequency b)
       && (MetaData.m_sampleRate a =? MetaData.m_sampleRate b)
       && (MetaData.m_sampleBytes a =? MetaData.m_sampleBytes b)
       && (MetaData.m_sampleBits a =? MetaData.m_sampleBits b)
       && (MetaData.m_blockSize a =? MetaData.m_blockSize b)
       && (MetaData.m_nbSamples a =? MetaData.m_nbSamples b) |}.

(** No payload transform is defined; a datagram whose header announces one
    cannot be decoded. *)
Definition codec_ref : Codec :=
  {| inverse_transform := fun ind d => if ind =? 0 then Some d else None;
     inverse_transform_plain := fun d => eq_refl |}.

(** An integer rendering of the C library: [atoi] reads an optional sign
    and the decimal digits that follow; rates in parts per million are whole
    numbers. *)
Definition is_digit (a : ascii) : bool :=
  let n := nat_of_ascii a in Nat.leb 48 n && Nat.leb n 57.

Fixpoint digits_value (s : string) (acc : Z) : Z :=
  match s with
  | EmptyString => acc
  | String a r =>
      if is_digit a
      then digits_value r (10 * acc + Z.of_nat (nat_of_ascii a - 48))
      else acc
  end.

Definition atoi_ref (s : string) : Z :=
  s32 (match s with
       | String "-"%char r => - digits_value r 0
       | String "+"%char r => digits_value r 0
       | _ => digits_value s 0
       end).

Fixpoint all_digits (s : string) : bool :=
  match s with
  | EmptyString => true
  | String a r => is_digit a && all_digits r
  end.

Definition atoi_ref_int (s : string) : - 2 ^ 31 <= atoi_ref s <= INT_MAX.
Proof.
  unfold atoi_ref, s32, INT_MAX.
  match goal with |- context [?x mod 2 ^ 32] =>
    pose proof (Z.mod_pos_bound x (2 ^ 32) ltac:(lia)) end.
  lia.
Qed.

Definition libc_ref : Libc :=
  {| atoi := atoi_ref;
     atoi_int := atoi_ref_int;
     float := Z;
     float_zero := 0;
     float_opp := Z.opp;
     strtod_ok := fun s =>
       if all_digits s then Some (digits_value s 0) else None;
     tuner_freq := fun f q ppm =>
       let t := f + q / 4 in u32 (t + t * ppm / 1000000) |}.

(** Devices that accept every call. *)
Definition airspy_ref : AirspySource.Device :=
  {| AirspySource.success := fun _ _ => true |}.

Definition airspyhf_ref : AirspyHFSource.Device :=
  {| AirspyHFSource.success := fun _ _ => true |}.

(** ** Conditions under which [UDPSink::write] is defined *)

(** The sink carries 16-bit components, as [IQSample] has them; the datagram
    size leaves room for the header, fits the header's 16-bit field and the
    [int] passed to the socket, and is a whole number of samples; the two
    buffers are the arrays the constructor allocated. *)
Definition well_configured (st : UDPSink.t) : Prop :=
  UDPSink.m_sampleBytes st = 2
  /\ MetaData.sizeof <= UDPSink.m_udpSize st <= 65535
  /\ UDPSink.m_udpSize st mod 4 = 0
  /\ Z.of_nat (length (UDPSink.m_bufMeta st)) = UDPSink.m_udpSize st
  /\ Z.of_nat (length (UDPSink.m_buf st)) = UDPSink.m_udpSize st.

(** The sizing of the LZ4 buffer is defined: compression is off, or the
    frame size is the one of the previous call, or the frame has a non-zero
    byte count (no division by zero) and the array to delete has not been
    deleted already. *)
Definition lz4_defined (st : UDPSink.t) (samples_in : list IQSample) : Prop :=
  UDPSink.m_lz4MinInputSize st <= 0
  \/ u32 (Z.of_nat (length samples_in)) = UDPSink.m_nbSamples st
  \/ (u32 (u32 (Z.of_nat (length samples_in)) * 2 * UDPSink.m_sampleBytes st) <> 0
      /\ UDPSink.dangling st = false).

(** The header of a frame, read back from the first datagram sent. *)
Definition sent_header (datagrams : list (list Z)) : MetaData.t :=
  MetaData.of_bytes (hd [] datagrams).

(** Every field of a header holds a value of its C++ type. *)
Definition header_in_range (m : MetaData.t) : Prop :=
  0 <= MetaData.m_centerFrequency m < 2 ^ 64
  /\ 0 <= MetaData.m_sampleRate m < 2 ^ 32
  /\ 0 <= MetaData.m_sampleBytes m < 2 ^ 8
  /\ 0 <= MetaData.m_sampleBits m < 2 ^ 8
  /\ 0 <= MetaData.m_blockSize m < 2 ^ 16
  /\ 0 <= MetaData.m_nbSamples m < 2 ^ 32
  /\ 0 <= MetaData.m_nbBlocks m < 2 ^ 16
  /\ 0 <= MetaData.m_remainderSamples m < 2 ^ 16
  /\ 0 <= MetaData.m_nbCompleteBlocks m < 2 ^ 16
  /\ 0 <= MetaData.m_tv_sec m < 2 ^ 32
  /\ 0 <= MetaData.m_tv_usec m < 2 ^ 32
  /\ 0 <= MetaData.m_crc m < 2 ^ 64.

(** The header [UDPSink::write] builds for a vector of [size] elements. *)
Definition header_of `{CRC64} (env : UDPSink.Env) (st : UDPSink.t) (size : Z)
  : MetaData.t :=
  let m := UDPSink.fill_meta env st size in
  MetaData.set_crc m (u64 (calculate_crc (MetaData.leading_bytes m))).

(** The [k] samples of a vector that follow its first [i]. *)
Definition slice (v : list IQSample) (i k : Z) : list IQSample :=
  take (Z.to_nat k) (drop (Z.to_nat i) v).

(** ** The sink as its constructor leaves it *)

(** The sample width is the one the constructor sets (one byte per
    component) and LZ4 sizing is off; the datagram size and the two arrays
    are as for a well configured sink. *)
Definition as_constructed (st : UDPSink.t) : Prop :=
  UDPSink.m_sampleBytes st = 1
  /\ UDPSink.m_lz4MinInputSize st = 0
  /\ MetaData.sizeof <= UDPSink.m_udpSize st <= 65535
  /\ UDPSink.m_udpSize st mod 4 = 0
  /\ Z.of_nat (length (UDPSink.m_bufMeta st)) = UDPSink.m_udpSize st
  /\ Z.of_nat (length (UDPSink.m_buf st)) = UDPSink.m_udpSize st.

(** ** What reading the configuration map keeps *)

(** [s'] has the device handle, the calls made, the error text and the
    sample rates of [s]. *)
Definition airspy_same `{Libc} (s s' : AirspySource.t) : Prop :=
  AirspySource.calls s' = AirspySource.calls s
  /\ AirspySource.m_error s' = AirspySource.m_error s
  /\ AirspySource.m_dev s' = AirspySource.m_dev s
  /\ AirspySource.m_srates s' = AirspySource.m_srates s.

(** The outcome [r] of reading keys from the object [s]: a refusal has set
    an error text and called nothing; otherwise nothing but settings
    changed. *)
Definition airspy_parsed `{Libc} (s : AirspySource.t)
    (r : parse AirspySource.t (AirspySource.t * AirspySource.locals)) : Prop :=
  match r with
  | Fail f =>
      AirspySource.calls f = AirspySource.calls s
      /\ AirspySource.m_dev f = AirspySource.m_dev s
      /\ AirspySource.m_error f <> ""%string
  | Continue (s', _) => airspy_same s s'
  end.

Definition airspyhf_same `{Libc} (s s' : AirspyHFSource.t) : Prop :=
  AirspyHFSource.calls s' = AirspyHFSource.calls s
  /\ AirspyHFSource.m_error s' = AirspyHFSource.m_error s
  /\ AirspyHFSource.m_dev s' = AirspyHFSource.m_dev s
  /\ AirspyHFSource.m_srates s' = AirspyHFSource.m_srates s.

Definition airspyhf_parsed `{Libc} (s : AirspyHFSource.t)
    (r : parse AirspyHFSource.t (AirspyHFSource.t * AirspyHFSource.locals)) : Prop :=
  match r with
  | Fail f =>
      AirspyHFSource.calls f = AirspyHFSource.calls s
      /\ AirspyHFSource.m_dev f = AirspyHFSource.m_dev s
      /\ AirspyHFSource.m_error f <> ""%string
  | Continue (s', _) => airspyhf_same s s'
  end.

(** The outcome [r] of a run of device settings started on [s]: either
    every call made was accepted and the error text is as before, or the
    calls made were accepted up to the last one, which was refused, and an
    error text is set. *)
Definition airspy_traced `{Libc} `{AirspySource.Device} (s : AirspySource.t)
    (r : parse AirspySource.t AirspySource.t) : Prop :=
  match r with
  | Continue s' =>
      exists new,
        AirspySource.calls s' = AirspySource.calls s ++ new
        /\ AirspySource.all_succeeded (AirspySource.calls s) new = true
        /\ AirspySource.m_error s' = AirspySource.m_error s
        /\ AirspySource.m_srates s' = AirspySource.m_srates s
  | Fail f =>
      exists done c,
        AirspySource.calls f = AirspySource.calls s ++ done ++ [c]
        /\ AirspySource.all_succeeded (AirspySource.calls s) done = true
        /\ AirspySource.success (AirspySource.calls s ++ done) c = false
        /\ AirspySource.m_error f <> ""%string
  end.

(** A value of the map that [AirspySource::configure] refuses, whatever
    the device: a gain that is not in its list (or the word "list"), a
    centre frequency position outside 0..2, a decimation outside 0..6. *)
Definition airspy_refused_value `{Libc} (m : gmap string string) : Prop :=
  (exists v, m !! "lgain"%string = Some v
             /\ (strcasecmp_eq v "list" = true
                 \/ ~ In (atoi v) AirspySource.m_lgains))
  \/ (exists v, m !! "mgain"%string = Some v
                /\ (strcasecmp_eq v "list" = true
                    \/ ~ In (atoi v) AirspySource.m_mgains))
  \/ (exists v, m !! "vgain"%string = Some v
                /\ (strcasecmp_eq v "list" = true
                    \/ ~ In (atoi v) AirspySource.m_vgains))
  \/ (exists v, m !! "fcpos"%string = Some v /\ (atoi v < 0 \/ 2 < atoi v))
  \/ (exists v, m !! "decim"%string = Some v /\ (atoi v < 0 \/ 6 < atoi v)).

(** Whether a call retunes the device. *)
Definition airspy_is_set_freq (c : AirspySource.call) : bool :=
  match c with
  | AirspySource.airspy_set_freq _ => true
  | _ => false
  end.

(** [s'] was reached from [s] without retuning: the frequency member is
    the same and no call made since sets the frequency. *)
Definition airspy_quiet `{Libc} (s s' : AirspySource.t) : Prop :=
  AirspySource.m_frequency s' = AirspySource.m_frequency s
  /\ exists made,
       AirspySource.calls s' = AirspySource.calls s ++ made
       /\ Forall (fun c => airspy_is_set_freq c = false) made.

(** The object a run ended on. *)
Definition parse_state {S} (r : parse S S) : S :=
  match r with
  | Fail f => f
  | Continue c => c
  end.

(** The outcome [r] of reading keys from [s] when no key read so far asked
    for a retune: flag 0x1 is unset, the local [fcpos] still has its
    initial value 2, and the frequency member is the one of [s]. *)
Definition airspy_untuned `{Libc} (s : AirspySource.t)
    (r : parse AirspySource.t (AirspySource.t * AirspySource.locals)) : Prop :=
  match r with
  | Fail f => AirspySource.m_frequency f = AirspySource.m_frequency s
  | Continue (s', l) =>
      has_flag (AirspySource.changeFlags l) 1 = false
      /\ AirspySource.fcpos l = 2
      /\ AirspySource.m_frequency s' = AirspySource.m_frequency s
  end.

(** The outcome [r] of reading keys once "srate" has named the listed
    rate [R]: the sample rate member is [R], and the local index points at
    that rate in the list. *)
Definition airspy_rated `{Libc} (R : Z)
    (r : parse AirspySource.t (AirspySource.t * AirspySource.locals)) : Prop :=
  match r with
  | Fail f => AirspySource.m_sampleRate f = R
  | Continue (s', l) =>
      AirspySource.m_sampleRate s' = R
      /\ 0 <= AirspySource.sampleRateIndex l
      /\ AirspySource.m_srates s' !! Z.to_nat (AirspySource.sampleRateIndex l)
         = Some (s32 R)
  end.

Definition airspyhf_rated `{Libc} (R : Z)
    (r : parse AirspyHFSource.t (AirspyHFSource.t * AirspyHFSource.locals)) : Prop :=
  match r with
  | Fail f => AirspyHFSource.m_sampleRate f = R
  | Continue (s', l) =>
      AirspyHFSource.m_sampleRate s' = R
      /\ 0 <= AirspyHFSource.sampleRateIndex l
      /\ AirspyHFSource.m_srates s' !! Z.to_nat (AirspyHFSource.sampleRateIndex l)
         = Some (s32 R)
  end.

(** The consecutive pairs of a buffer of shorts. *)
Fixpoint pairs (buf : list Z) : list IQSample :=
  match buf with
  | re :: im :: rest => mkIQ re im :: pairs rest
  | _ => []
  end.

(** ** Inputs of the closed examples *)

(** A sink for 1024-byte datagrams and 16-bit components, its two arrays
    zeroed. *)
Definition sink1024 : UDPSink.t :=
  UDPSink.mk 1024 100000000 48000 2 16 0 0 0 0 false MetaData.init
    (repeat 0 1024%nat) (repeat 0 1024%nat).

(** A sink for 44-byte datagrams (11 samples each). *)
Definition sink44 : UDPSink.t :=
  UDPSink.mk 44 100000000 48000 2 16 0 0 0 0 false MetaData.init
    (repeat 0 44%nat) (repeat 0 44%nat).

Definition env0 : UDPSink.Env := UDPSink.mkEnv 1446000000 250000 4096.

(** The samples (1, -1), (2, -2), ..., (n, -n). *)
Definition ramp (n : nat) : list IQSample :=
  map (fun k => mkIQ (Z.of_nat k) (- Z.of_nat k)) (seq 1 n).

Definition write_ref := @UDPSink.write crc64_ref lz4_ref meta_eq_ref.

Definition feed_ref := @SDRdaemonBuffer.feed crc64_ref codec_ref.

(** The 44-byte sink with LZ4 sizing switched on, and a later call's
    environment. *)
Definition sink44_lz4 : UDPSink.t :=
  default sink44 (UDPSink.setLZ4MinInputSize sink44 1000).

Definition env1 : UDPSink.Env := UDPSink.mkEnv 1446000001 0 8192.

(** Configuration maps. *)
Definition cfg_low_freq : gmap string string :=
  {[ "freq"%string := "1000"%string ]}.

Definition cfg_unknown_rate : gmap string string :=
  {[ "srate"%string := "123"%string ]}.

Definition cfg_low_freq_unknown_rate : gmap string string :=
  <[ "freq"%string := "1000"%string ]> cfg_unknown_rate.

Definition cfg_rate_list : gmap string string :=
  {[ "srate"%string := "List"%string ]}.

(** An Airspy at its constructor's settings, with the sample rates of an
    Airspy R2. *)
Definition airspy0 : @AirspySource.t libc_ref :=
  @AirspySource.mk libc_ref true 10000000 100000000 0 8 8 0 false false false
    [10000000; 2500000] "10000000 2500000 " "" 100000000 2 0 [].

Definition airspyhf0 : @AirspyHFSource.t libc_ref :=
  @AirspyHFSource.mk libc_ref true 768000 10000000 0 false false false
    [768000] "768000 " "" 10000000 0 [].

(** The 44-byte sink with LZ4 sizing on after a frame of 3 samples (its
    buffer is allocated), and the same after [setLZ4MinInputSize(0)] and
    [setLZ4MinInputSize(1000)]: the pointer is kept, the array is
    deleted. *)
Definition sink44_lz4_after3 : UDPSink.t :=
  match write_ref env0 sink44_lz4 (ramp 3) with
  | Some (st, _) => st
  | None => sink44_lz4
  end.

Definition sink44_lz4_dangling : UDPSink.t :=
  default sink44_lz4_after3
    (st ← UDPSink.setLZ4MinInputSize sink44_lz4_after3 0;
     UDPSink.setLZ4MinInputSize st 1000).

(** A sink as the constructor leaves it, for 44-byte datagrams. *)
Definition sink44_constructed : UDPSink.t :=
  UDPSink.init 44 (repeat 0 44%nat) (repeat 0 44%nat).

(** An Airspy whose LNA gain cannot be set. *)
Definition airspy_no_lna : AirspySource.Device :=
  {| AirspySource.success := fun _ c =>
       match c with
       | AirspySource.airspy_set_lna_gain _ => false
       | _ => true
       end |}.

(** The Airspy with its centre frequency position set to 0. *)
Definition airspy_infradyne : @AirspySource.t libc_ref :=
  @AirspySource.set_m_fcPos libc_ref 0 airspy0.

Definition cfg_lgain_5 : gmap string string :=
  {[ "lgain"%string := "5"%string ]}.

Definition cfg_lgain_99 : gmap string string :=
  {[ "lgain"%string := "99"%string ]}.

Definition cfg_rate_2500000 : gmap string string :=
  {[ "srate"%string := "2500000"%string ]}.

Definition cfg_ppmp_5 : gmap string string :=
  {[ "ppmp"%string := "5"%string ]}.

(** A transfer buffer of five shorts. *)
Definition shorts5 : list Z := [1; -1; 2; -2; 3].

(** Devices whose sample rate cannot be set. *)
Definition airspy_fixed_rate : AirspySource.Device :=
  {| AirspySource.success := fun _ c =>
       match c with
       | AirspySource.airspy_set_samplerate _ => false
       | _ => true
       end |}.

Definition airspyhf_fixed_rate : AirspyHFSource.Device :=
  {| AirspyHFSource.success := fun _ c =>
       match c with
       | AirspyHFSource.airspyhf_set_samplerate _ => false
       | _ => true
       end |}.

Definition cfg_rate_768000 : gmap string string :=
  {[ "srate"%string := "768000"%string ]}.

(** * Properties *)

(** ** Integers and bytes *)

Lemma u16_small (v : Z) : 0 <= v < 2 ^ 16 -> u16 v = v.
Proof. intros Hv. unfold u16. apply Z.mod_small. exact Hv. Qed.

Lemma u32_small (v : Z) : 0 <= v < 2 ^ 32 -> u32 v = v.
Proof. intros Hv. unfold u32. apply Z.mod_small. exact Hv. Qed.

Lemma u16_range (v : Z) : 0 <= u16 v < 2 ^ 16.
Proof. unfold u16. apply Z.mod_pos_bound. lia. Qed.

Lemma u32_range (v : Z) : 0 <= u32 v < 2 ^ 32.
Proof. unfold u32. apply Z.mod_pos_bound. lia. Qed.

Lemma u64_range (v : Z) : 0 <= u64 v < 2 ^ 64.
Proof. unfold u64. apply Z.mod_pos_bound. lia. Qed.

Lemma u8_range (v : Z) : 0 <= u8 v < 2 ^ 8.
Proof. unfold u8. apply Z.mod_pos_bound. lia. Qed.

Lemma u16_le (v : Z) : 0 <= v -> u16 v <= v.
Proof. intros Hv. unfold u16. apply Z.mod_le; lia. Qed.

Lemma s32_small (v : Z) : - 2 ^ 31 <= v < 2 ^ 31 -> s32 v = v.
Proof. intros Hv. unfold s32. rewrite Z.mod_small; lia. Qed.

(** An [int] converted to [uint32_t] and back is unchanged. *)
Lemma s32_u32 (v : Z) : - 2 ^ 31 <= v < 2 ^ 31 -> s32 (u32 v) = v.
Proof.
  intros Hv. unfold s32, u32.
  destruct (Z.ltb_spec v 0) as [Hneg | Hpos].
  - replace (v mod 2 ^ 32) with (v + 2 ^ 32).
    + replace (v + 2 ^ 32 + 2 ^ 31) with (v + 2 ^ 31 + 1 * 2 ^ 32) by lia.
      rewrite Z.mod_add by lia. rewrite Z.mod_small; lia.
    + symmetry. replace v with (v + 2 ^ 32 + (-1) * 2 ^ 32) at 1 by lia.
      rewrite Z.mod_add by lia. apply Z.mod_small. lia.
  - rewrite (Z.mod_small v) by lia. rewrite Z.mod_small; lia.
Qed.

Lemma length_le_bytes (n : nat) (v : Z) : length (le_bytes n v) = n.
Proof. revert v. induction n as [| n IH]; intros v; simpl; [| rewrite IH]; reflexivity. Qed.

(** Reading back what was stored gives the value, cut to the field width. *)
Lemma le_value_le_bytes (n : nat) (v : Z) :
  le_value (le_bytes n v) = v mod 256 ^ Z.of_nat n.
Proof.
  revert v. induction n as [| n IH]; intros v.
  - simpl. rewrite Z.mod_1_r. reflexivity.
  - cbn [le_bytes le_value]. rewrite IH.
    rewrite Nat2Z.inj_succ, Z.pow_succ_r by lia.
    rewrite Z.rem_mul_r by lia. reflexivity.
Qed.

Lemma le_value_le_bytes_small (n : nat) (v : Z) :
  0 <= v < 256 ^ Z.of_nat n -> le_value (le_bytes n v) = v.
Proof. intros Hv. rewrite le_value_le_bytes. apply Z.mod_small. exact Hv. Qed.

Lemma read_bytes_Some (mem : list Z) (off len : Z) :
  0 <= off -> 0 <= len -> off + len <= Z.of_nat (length mem) ->
  read_bytes mem off len = Some (take (Z.to_nat len) (drop (Z.to_nat off) mem)).
Proof.
  intros H1 H2 H3. unfold read_bytes.
  destruct (Z.leb_spec 0 off); [| lia].
  destruct (Z.leb_spec 0 len); [| lia].
  destruct (Z.leb_spec (off + len) (Z.of_nat (length mem))); [| lia].
  reflexivity.
Qed.

Lemma read_bytes_length (mem : list Z) (off len : Z) (d : list Z) :
  read_bytes mem off len = Some d -> Z.of_nat (length d) = len.
Proof.
  unfold read_bytes.
  destruct (Z.leb_spec 0 off); [| discriminate].
  destruct (Z.leb_spec 0 len); [| discriminate].
  destruct (Z.leb_spec (off + len) (Z.of_nat (length mem))); [| discriminate].
  simpl. intros [= <-]. rewrite length_take, length_drop. lia.
Qed.

Lemma write_bytes_Some (mem : list Z) (off : Z) (src : list Z) :
  0 <= off -> off + Z.of_nat (length src) <= Z.of_nat (length mem) ->
  write_bytes mem off src
  = Some (take (Z.to_nat off) mem ++ src ++ drop (Z.to_nat off + length src) mem).
Proof.
  intros H1 H2. unfold write_bytes.
  destruct (Z.leb_spec 0 off); [| lia].
  destruct (Z.leb_spec (off + Z.of_nat (length src)) (Z.of_nat (length mem))); [| lia].
  reflexivity.
Qed.

Lemma write_bytes_length (mem : list Z) (off : Z) (src mem' : list Z) :
  write_bytes mem off src = Some mem' -> length mem' = length mem.
Proof.
  unfold write_bytes.
  destruct (Z.leb_spec 0 off); [| discriminate].
  destruct (Z.leb_spec (off + Z.of_nat (length src)) (Z.of_nat (length mem)));
    [| discriminate].
  simpl. intros [= <-]. rewrite !length_app, length_take, length_drop. lia.
Qed.

(** ** The image of a sample vector *)

Lemma length_IQSample_bytes (s : IQSample) : length (IQSample_bytes s) = 4%nat.
Proof. reflexivity. Qed.

Lemma length_IQ_image (v : list IQSample) :
  length (IQ_image v) = (4 * length v)%nat.
Proof.
  unfold IQ_image. induction v as [| s v IH]; [reflexivity |].
  cbn [map concat]. rewrite length_app, IH, length_IQSample_bytes.
  cbn [length]. lia.
Qed.

Lemma IQ_image_app (v w : list IQSample) :
  IQ_image (v ++ w) = IQ_image v ++ IQ_image w.
Proof. unfold IQ_image. rewrite map_app, concat_app. reflexivity. Qed.

(** Samples are stored one after the other: skipping [k] samples skips
    [4 k] bytes, and the first [k] samples are the first [4 k] bytes. *)
Lemma IQ_image_drop (k : nat) (v : list IQSample) :
  drop (4 * k) (IQ_image v) = IQ_image (drop k v).
Proof.
  rewrite <- (take_drop k v) at 1. rewrite IQ_image_app.
  destruct (Nat.le_gt_cases k (length v)) as [Hle | Hgt].
  - apply drop_app_length'. rewrite length_IQ_image, length_take. lia.
  - rewrite (drop_ge v) by lia. rewrite app_nil_r.
    apply drop_ge. rewrite length_IQ_image, length_take. lia.
Qed.

Lemma IQ_image_take (k : nat) (v : list IQSample) :
  take (4 * k) (IQ_image v) = IQ_image (take k v).
Proof.
  rewrite <- (take_drop k v) at 1. rewrite IQ_image_app.
  destruct (Nat.le_gt_cases k (length v)) as [Hle | Hgt].
  - apply take_app_length'. rewrite length_IQ_image, length_take. lia.
  - rewrite (drop_ge v) by lia. rewrite app_nil_r.
    apply take_ge. rewrite length_IQ_image, length_take. lia.
Qed.

(** ** The header record *)

Lemma length_leading_bytes (m : MetaData.t) :
  length (MetaData.leading_bytes m) = 34%nat.
Proof. reflexivity. Qed.

Lemma length_to_bytes (m : MetaData.t) : length (MetaData.to_bytes m) = 42%nat.
Proof. reflexivity. Qed.

Lemma take_leading_bytes (m : MetaData.t) (rest : list Z) :
  take 34 (MetaData.to_bytes m ++ rest) = MetaData.leading_bytes m.
Proof.
  unfold MetaData.to_bytes. rewrite <- !app_assoc.
  apply take_app_length'. reflexivity.
Qed.

Ltac field_roundtrip :=
  match goal with
  | |- MetaData.field _ _ ?n = ?v =>
      change (le_value (le_bytes n v) = v);
      apply le_value_le_bytes_small;
      let e := eval vm_compute in (256 ^ Z.of_nat n) in
      change (256 ^ Z.of_nat n) with e; lia
  end.

(** A header stored in a buffer is read back unchanged, whatever follows it
    in the buffer. *)
Lemma of_bytes_to_bytes (m : MetaData.t) (rest : list Z) :
  header_in_range m -> MetaData.of_bytes (MetaData.to_bytes m ++ rest) = m.
Proof.
  destruct m as [cf sr sb bits bs ns nb rs ncb sec usec crc].
  unfold header_in_range. cbn [MetaData.m_centerFrequency MetaData.m_sampleRate
    MetaData.m_sampleBytes MetaData.m_sampleBits MetaData.m_blockSize
    MetaData.m_nbSamples MetaData.m_nbBlocks MetaData.m_remainderSamples
    MetaData.m_nbCompleteBlocks MetaData.m_tv_sec MetaData.m_tv_usec MetaData.m_crc].
  intros (H1 & H2 & H3 & H4 & H5 & H6 & H7 & H8 & H9 & H10 & H11 & H12).
  unfold MetaData.of_bytes. f_equal; field_roundtrip.
Qed.

(** ** The sender *)

Section Sink.
Context `{CRC64} `{LZ4} `{MetaDataEq}.
Implicit Types (st : UDPSink.t) (env : UDPSink.Env).
Implicit Types (samples_in : list IQSample).

Lemma samplesPerBlock_well_configured st :
  well_configured st ->
  UDPSink.samplesPerBlock st = UDPSink.m_udpSize st / 4
  /\ 10 <= UDPSink.samplesPerBlock st <= 16383
  /\ UDPSink.m_udpSize st = 4 * UDPSink.samplesPerBlock st.
Proof.
  intros (Hb & Hu & Hm & _). change MetaData.sizeof with 42 in Hu.
  unfold UDPSink.samplesPerBlock. rewrite Hb. change (2 * 2) with 4.
  pose proof (Z.div_mod (UDPSink.m_udpSize st) 4 ltac:(lia)) as Hd.
  rewrite u16_small by lia. lia.
Qed.

Lemma header_of_in_range env st size :
  header_in_range (header_of env st size).
Proof.
  unfold header_in_range, header_of, UDPSink.fill_meta. cbn.
  repeat split;
    try apply u64_range; try apply u32_range; try apply u16_range;
    try apply u8_range; lia.
Qed.

(** The header is built in place at the start of [m_bufMeta]; the bytes
    of the buffer after it are left as they were. *)
Lemma build_meta_ok env st size :
  well_configured st ->
  UDPSink.build_meta env st size
  = Some (header_of env st size,
          MetaData.to_bytes (header_of env st size)
          ++ drop 42 (UDPSink.m_bufMeta st)).
Proof.
  intros Hwf. destruct (samplesPerBlock_well_configured st Hwf) as (_ & Hspb & _).
  destruct Hwf as (Hb & Hu & Hm & Hl1 & Hl2). change MetaData.sizeof with 42 in Hu.
  unfold UDPSink.build_meta. rewrite Hb. change (2 * 2 =? 0) with false.
  destruct (Z.eqb_spec (UDPSink.samplesPerBlock st) 0) as [Hz | _]; [lia |].
  cbv zeta.
  set (m := UDPSink.fill_meta env st size).
  rewrite write_bytes_Some by (rewrite ?length_leading_bytes; lia).
  cbn [mbind option_bind]. rewrite length_leading_bytes.
  change (Z.to_nat 0) with 0%nat. rewrite take_0. cbn [app Nat.add].
  change (MetaData.sizeof - 8) with 34.
  rewrite read_bytes_Some
    by (rewrite ?length_app, ?length_drop, ?length_leading_bytes; lia).
  cbn [mbind option_bind]. change (Z.to_nat 0) with 0%nat. rewrite drop_0.
  change (Z.to_nat 34) with 34%nat.
  rewrite (take_app_length' (MetaData.leading_bytes m)) by reflexivity.
  rewrite write_bytes_Some
    by (rewrite ?length_app, ?length_drop, ?length_leading_bytes, ?length_le_bytes; lia).
  cbn [mbind option_bind]. change (Z.to_nat 34) with 34%nat.
  rewrite (take_app_length' (MetaData.leading_bytes m)) by reflexivity.
  rewrite length_le_bytes.
  rewrite (drop_app_ge (MetaData.leading_bytes m))
    by (rewrite length_leading_bytes; lia).
  rewrite length_leading_bytes, drop_drop.
  change (34 + (34 + 8 - 34))%nat with 42%nat.
  unfold header_of. fold m. unfold MetaData.to_bytes.
  rewrite <- app_assoc. reflexivity.
Qed.

Lemma mapM_Some_fmap {A B} (f : A -> option B) (g : A -> B) (l : list A) :
  Forall (fun x => f x = Some (g x)) l -> mapM f l = Some (g <$> l).
Proof.
  intros Hall. apply mapM_Some. induction Hall as [| x l Hx _ IH]; cbn.
  - constructor.
  - constructor; assumption.
Qed.

(** The header fields of a well configured sink, without wrap-around in
    the remainder. *)
Lemma header_of_fields env st size :
  well_configured st -> 0 <= size ->
  let m := header_of env st size in
  let spb := UDPSink.samplesPerBlock st in
  MetaData.m_nbBlocks m = 1
  /\ MetaData.m_sampleBytes m = 2
  /\ MetaData.m_blockSize m = UDPSink.m_udpSize st
  /\ MetaData.m_nbSamples m = u32 size
  /\ MetaData.m_remainderSamples m = size mod spb
  /\ MetaData.m_nbCompleteBlocks m = u16 (size / spb)
  /\ MetaData.m_nbCompleteBlocks m * spb + MetaData.m_remainderSamples m <= size.
Proof.
  intros Hwf Hsize m spb.
  destruct (samplesPerBlock_well_configured st Hwf) as (_ & Hspb & _).
  destruct Hwf as (Hb & Hu & _). change MetaData.sizeof with 42 in Hu.
  fold spb in Hspb.
  pose proof (Z.mod_pos_bound size spb ltac:(lia)) as Hrem.
  pose proof (Z.div_mod size spb ltac:(lia)) as Hdm.
  assert (0 <= size / spb) as Hq by (apply Z.div_pos; lia).
  pose proof (u16_le (size / spb) Hq) as Hle.
  pose proof (u16_range (size / spb)) as Hr.
  unfold m, header_of, UDPSink.fill_meta. cbn. fold spb. rewrite Hb.
  repeat split.
  - apply u16_small. lia.
  - apply u16_small. lia.
  - rewrite (u16_small (size mod spb)) by lia. nia.
Qed.

(** Every complete block is read inside the sample vector and sent as it
    is stored. *)
Lemma send_complete_blocks_ok env st samples_in :
  well_configured st ->
  let m := header_of env st (Z.of_nat (length samples_in)) in
  let spb := UDPSink.samplesPerBlock st in
  UDPSink.send_complete_blocks st m samples_in
  = Some ((fun i => IQ_image (slice samples_in (i * spb) spb))
          <$> seqZ 0 (MetaData.m_nbCompleteBlocks m)).
Proof.
  intros Hwf m spb.
  destruct (header_of_fields env st (Z.of_nat (length samples_in)) Hwf
              ltac:(lia)) as (_ & _ & _ & _ & Hrem & Hcbc & Hsum).
  fold m spb in Hrem, Hcbc, Hsum.
  destruct (samplesPerBlock_well_configured st Hwf) as (_ & Hspb & Hudp).
  fold spb in Hspb, Hudp.
  pose proof (Z.mod_pos_bound (Z.of_nat (length samples_in)) spb ltac:(lia)) as Hr.
  pose proof (u16_range (Z.of_nat (length samples_in) / spb)) as Hc.
  unfold UDPSink.send_complete_blocks. fold spb.
  apply mapM_Some_fmap. apply Forall_seqZ. intros i Hi.
  unfold UDPSink.SendDataGram.
  rewrite s32_small by lia. rewrite u32_small by nia.
  unfold sizeof_IQSample.
  rewrite read_bytes_Some; [| nia | lia |].
  - f_equal. unfold slice.
    replace (Z.to_nat (i * spb * 4)) with (4 * Z.to_nat (i * spb))%nat by lia.
    rewrite IQ_image_drop.
    replace (Z.to_nat (UDPSink.m_udpSize st)) with (4 * Z.to_nat spb)%nat by lia.
    apply IQ_image_take.
  - rewrite length_IQ_image. nia.
Qed.

(** The remainder is copied to the start of [m_buf], and the whole of
    [m_buf] is sent: after the copied samples come the bytes the buffer
    already held. *)
Lemma send_remainder_ok env st samples_in :
  well_configured st ->
  let m := header_of env st (Z.of_nat (length samples_in)) in
  let spb := UDPSink.samplesPerBlock st in
  let rem := MetaData.m_remainderSamples m in
  let buf :=
    IQ_image (slice samples_in (MetaData.m_nbCompleteBlocks m * spb) rem)
    ++ drop (Z.to_nat (4 * rem)) (UDPSink.m_buf st) in
  UDPSink.send_remainder st m samples_in
  = Some (if 0 <? rem then (buf, [buf]) else (UDPSink.m_buf st, [])).
Proof.
  intros Hwf m spb rem buf.
  destruct (header_of_fields env st (Z.of_nat (length samples_in)) Hwf
              ltac:(lia)) as (_ & Hsb & _ & _ & Hrem & Hcbc & Hsum).
  fold m spb rem in Hsb, Hrem, Hcbc, Hsum.
  destruct (samplesPerBlock_well_configured st Hwf) as (_ & Hspb & Hudp).
  fold spb in Hspb, Hudp.
  pose proof (Z.mod_pos_bound (Z.of_nat (length samples_in)) spb ltac:(lia)) as Hr.
  pose proof (u16_range (Z.of_nat (length samples_in) / spb)) as Hc.
  rewrite <- Hrem in Hr. rewrite <- Hcbc in Hc.
  destruct Hwf as (_ & _ & _ & _ & Hlen).
  unfold UDPSink.send_remainder. fold spb rem.
  destruct (Z.ltb_spec 0 rem) as [Hpos | Hzero]; [| reflexivity].
  unfold INT_MAX.
  destruct (Z.ltb_spec (2 ^ 31 - 1) (MetaData.m_nbCompleteBlocks m * spb));
    [nia |].
  rewrite Hsb. change (Z.land 2 15) with 2. unfold sizeof_IQSample.
  assert (length (IQ_image (slice samples_in
            (MetaData.m_nbCompleteBlocks m * spb) rem)) = Z.to_nat (4 * rem))
    as Hslice.
  { rewrite length_IQ_image. unfold slice. rewrite length_take, length_drop. nia. }
  rewrite read_bytes_Some; [| nia | nia | rewrite length_IQ_image; nia].
  cbn [mbind option_bind].
  replace (Z.to_nat (MetaData.m_nbCompleteBlocks m * spb * 4))
    with (4 * Z.to_nat (MetaData.m_nbCompleteBlocks m * spb))%nat by lia.
  rewrite IQ_image_drop.
  replace (Z.to_nat (2 * rem * 2)) with (4 * Z.to_nat rem)%nat by lia.
  rewrite IQ_image_take. fold (slice samples_in (MetaData.m_nbCompleteBlocks m * spb) rem).
  rewrite write_bytes_Some by (rewrite ?Hslice; lia).
  cbn [mbind option_bind]. change (Z.to_nat 0) with 0%nat.
  rewrite take_0. cbn [app Nat.add]. rewrite Hslice. fold buf.
  unfold UDPSink.SendDataGram. rewrite s32_small by lia.
  assert (length buf = Z.to_nat (UDPSink.m_udpSize st)) as Hbuf.
  { unfold buf. rewrite length_app, Hslice, length_drop. lia. }
  rewrite read_bytes_Some by lia.
  cbn [mbind option_bind]. change (Z.to_nat 0) with 0%nat.
  rewrite drop_0, take_ge by lia. reflexivity.
Qed.

(** The LZ4 buffer: after a call [m_nbSamples] is the frame size of the
    call, and nothing moves when the frame size is the recorded one. *)
Lemma resize_lz4_nbSamples env st (m : MetaData.t) (n size ptr : Z)
    {deleted : bool} :
  UDPSink.resize_lz4 env st m = Some (n, size, ptr, deleted) ->
  n = MetaData.m_nbSamples m.
Proof.
  unfold UDPSink.resize_lz4.
  destruct (Z.eqb_spec (MetaData.m_nbSamples m) (UDPSink.m_nbSamples st)) as [He | Hne];
    cbn [negb].
  - intros [= <- _ _ _]. symmetry. exact He.
  - destruct (0 <? UDPSink.m_lz4MinInputSize st).
    + destruct (_ =? 0); [discriminate |].
      destruct (UDPSink.dangling st); [discriminate |].
      intros [= <- _ _ _]. reflexivity.
    + intros [= <- _ _ _]. reflexivity.
Qed.

Lemma resize_lz4_same env st (m : MetaData.t) :
  MetaData.m_nbSamples m = UDPSink.m_nbSamples st ->
  UDPSink.resize_lz4 env st m
  = Some (UDPSink.m_nbSamples st, UDPSink.m_lz4BufSize st, UDPSink.m_lz4Buffer st,
          UDPSink.lz4_deleted st).
Proof.
  intros He. unfold UDPSink.resize_lz4. rewrite He, Z.eqb_refl. reflexivity.
Qed.

Lemma resize_lz4_defined env st samples_in :
  lz4_defined st samples_in ->
  is_Some (UDPSink.resize_lz4 env st
             (header_of env st (Z.of_nat (length samples_in)))).
Proof.
  intros Hdef. unfold UDPSink.resize_lz4.
  change (MetaData.m_nbSamples (header_of env st (Z.of_nat (length samples_in))))
    with (u32 (Z.of_nat (length samples_in))).
  destruct (Z.eqb_spec (u32 (Z.of_nat (length samples_in))) (UDPSink.m_nbSamples st))
    as [He | Hne]; cbn [negb]; [eexists; reflexivity |].
  destruct (Z.ltb_spec 0 (UDPSink.m_lz4MinInputSize st)) as [Hon | Hoff];
    [| eexists; reflexivity].
  destruct (Z.eqb_spec
              (u32 (u32 (Z.of_nat (length samples_in)) * 2 * UDPSink.m_sampleBytes st)) 0)
    as [Hz | Hnz].
  - destruct Hdef as [Hd | [Hd | [Hd _]]]; [lia | contradiction | contradiction].
  - destruct (UDPSink.dangling st) eqn:Hdang; [| eexists; reflexivity].
    destruct Hdef as [Hd | [Hd | [_ Hd]]]; [lia | contradiction | congruence].
Qed.

(** What one call sends, and what it leaves in the object. *)
Lemma write_ok env st samples_in :
  well_configured st -> lz4_defined st samples_in ->
  let m := header_of env st (Z.of_nat (length samples_in)) in
  let spb := UDPSink.samplesPerBlock st in
  let rem := MetaData.m_remainderSamples m in
  let buf :=
    IQ_image (slice samples_in (MetaData.m_nbCompleteBlocks m * spb) rem)
    ++ drop (Z.to_nat (4 * rem)) (UDPSink.m_buf st) in
  exists st',
    UDPSink.write env st samples_in
    = Some (st',
            (MetaData.to_bytes m ++ drop 42 (UDPSink.m_bufMeta st))
            :: ((fun i => IQ_image (slice samples_in (i * spb) spb))
                <$> seqZ 0 (MetaData.m_nbCompleteBlocks m))
            ++ (if 0 <? rem then [buf] else []))
    /\ UDPSink.m_udpSize st' = UDPSink.m_udpSize st
    /\ UDPSink.m_sampleBytes st' = UDPSink.m_sampleBytes st
    /\ UDPSink.m_nbSamples st' = MetaData.m_nbSamples m
    /\ UDPSink.m_bufMeta st'
       = MetaData.to_bytes m ++ drop 42 (UDPSink.m_bufMeta st)
    /\ UDPSink.m_buf st' = (if 0 <? rem then buf else UDPSink.m_buf st).
Proof.
  intros Hwf Hdef m spb rem buf.
  destruct (resize_lz4_defined env st samples_in Hdef) as [[[[n size] ptr] del] Hlz].
  fold m in Hlz. pose proof (resize_lz4_nbSamples _ _ _ _ _ _ Hlz) as Hn.
  unfold UDPSink.write.
  rewrite build_meta_ok by exact Hwf. fold m. cbn [mbind option_bind].
  rewrite Hlz. cbn [mbind option_bind].
  assert (UDPSink.SendDataGram st
            (MetaData.to_bytes m ++ drop 42 (UDPSink.m_bufMeta st)) 0
          = Some (MetaData.to_bytes m ++ drop 42 (UDPSink.m_bufMeta st))) as Hhdr.
  { destruct Hwf as (_ & Hu & _ & Hl & _). change MetaData.sizeof with 42 in Hu.
    unfold UDPSink.SendDataGram. rewrite s32_small by lia.
    assert (length (MetaData.to_bytes m ++ drop 42 (UDPSink.m_bufMeta st))
            = Z.to_nat (UDPSink.m_udpSize st)) as Hlen.
    { rewrite length_app, length_to_bytes, length_drop. lia. }
    rewrite read_bytes_Some by lia.
    change (Z.to_nat 0) with 0%nat. rewrite drop_0, take_ge by lia. reflexivity. }
  rewrite Hhdr. cbn [mbind option_bind].
  pose proof (send_complete_blocks_ok env st samples_in Hwf) as Hblocks.
  cbv zeta in Hblocks. fold m spb in Hblocks. rewrite Hblocks.
  cbn [mbind option_bind].
  pose proof (send_remainder_ok env st samples_in Hwf) as Hlast.
  cbv zeta in Hlast. fold m spb rem buf in Hlast. rewrite Hlast.
  destruct (0 <? rem); cbn [mbind option_bind];
    (eexists; split; [reflexivity |]); cbn; auto.
Qed.

(** Whatever the configuration, each datagram of a call that completes
    has the size passed to the socket. *)
Lemma write_sizes env st samples_in st' (datagrams : list (list Z)) :
  UDPSink.write env st samples_in = Some (st', datagrams) ->
  Forall (fun d => Z.of_nat (length d) = s32 (UDPSink.m_udpSize st)) datagrams.
Proof.
  unfold UDPSink.write. intros Hw.
  destruct (UDPSink.build_meta env st _) as [[m bufMeta] |]; [| discriminate].
  cbn [mbind option_bind] in Hw.
  destruct (UDPSink.resize_lz4 env st m) as [[[[n size] ptr] del] |]; [| discriminate].
  cbn [mbind option_bind] in Hw.
  destruct (UDPSink.SendDataGram st bufMeta 0) as [hdr |] eqn:Hhdr; [| discriminate].
  cbn [mbind option_bind] in Hw.
  destruct (UDPSink.send_complete_blocks st m samples_in) as [blocks |] eqn:Hb;
    [| discriminate].
  cbn [mbind option_bind] in Hw.
  destruct (UDPSink.send_remainder st m samples_in) as [[buf last] |] eqn:Hl;
    [| discriminate].
  cbn [mbind option_bind] in Hw. injection Hw as _ <-.
  constructor; [eapply read_bytes_length; exact Hhdr |].
  apply Forall_app. split.
  - unfold UDPSink.send_complete_blocks in Hb. apply mapM_Some_1 in Hb.
    clear -Hb. induction Hb as [| i d l k Hd _ IH]; constructor.
    + eapply read_bytes_length. exact Hd.
    + exact IH.
  - unfold UDPSink.send_remainder in Hl.
    destruct (0 <? MetaData.m_remainderSamples m).
    + destruct (INT_MAX <? _); [discriminate |].
      destruct (read_bytes (IQ_image samples_in) _ _) as [src |]; [| discriminate].
      cbn [mbind option_bind] in Hl.
      destruct (write_bytes (UDPSink.m_buf st) 0 src) as [b |]; [| discriminate].
      cbn [mbind option_bind] in Hl.
      destruct (UDPSink.SendDataGram st b 0) as [dg |] eqn:Hdg; [| discriminate].
      cbn [mbind option_bind] in Hl. injection Hl as _ <-.
      constructor; [| constructor]. eapply read_bytes_length. exact Hdg.
    + injection Hl as _ <-. constructor.
Qed.

Lemma sent_header_ok env st size (rest : list Z) (payload : list (list Z)) :
  sent_header ((MetaData.to_bytes (header_of env st size) ++ rest) :: payload)
  = header_of env st size.
Proof.
  unfold sent_header. cbn [hd].
  apply of_bytes_to_bytes, header_of_in_range.
Qed.

Lemma build_meta_nbSamples env st size (m : MetaData.t) (buf : list Z) :
  UDPSink.build_meta env st size = Some (m, buf) ->
  MetaData.m_nbSamples m = u32 size.
Proof.
  unfold UDPSink.build_meta.
  destruct (2 * UDPSink.m_sampleBytes st =? 0); [discriminate |].
  destruct (UDPSink.samplesPerBlock st =? 0); [discriminate |].
  cbv zeta.
  destruct (write_bytes (UDPSink.m_bufMeta st) 0 _) as [b1 |]; [| discriminate].
  cbn [mbind option_bind].
  destruct (read_bytes b1 0 _) as [pre |]; [| discriminate].
  cbn [mbind option_bind].
  destruct (write_bytes b1 _ _) as [b2 |]; [| discriminate].
  cbn [mbind option_bind]. intros [= <- _]. reflexivity.
Qed.

(** The LZ4 members after a call: [m_nbSamples] records the frame size,
    and the buffer is untouched when the frame size was already the
    recorded one. *)
Lemma write_lz4 env st samples_in st' (datagrams : list (list Z)) :
  UDPSink.write env st samples_in = Some (st', datagrams) ->
  UDPSink.m_nbSamples st' = u32 (Z.of_nat (length samples_in))
  /\ (u32 (Z.of_nat (length samples_in)) = UDPSink.m_nbSamples st ->
      UDPSink.m_lz4Buffer st' = UDPSink.m_lz4Buffer st
      /\ UDPSink.m_lz4BufSize st' = UDPSink.m_lz4BufSize st).
Proof.
  unfold UDPSink.write. intros Hw.
  destruct (UDPSink.build_meta env st _) as [[m bufMeta] |] eqn:Hm; [| discriminate].
  apply build_meta_nbSamples in Hm.
  cbn [mbind option_bind] in Hw.
  destruct (UDPSink.resize_lz4 env st m) as [[[[n size] ptr] del] |] eqn:Hlz;
    [| discriminate].
  cbn [mbind option_bind] in Hw.
  destruct (UDPSink.SendDataGram st bufMeta 0) as [hdr |]; [| discriminate].
  cbn [mbind option_bind] in Hw.
  destruct (UDPSink.send_complete_blocks st m samples_in) as [blocks |];
    [| discriminate].
  cbn [mbind option_bind] in Hw.
  destruct (UDPSink.send_remainder st m samples_in) as [[buf last] |];
    [| discriminate].
  cbn [mbind option_bind] in Hw. injection Hw as <- _. cbn.
  split.
  - rewrite (resize_lz4_nbSamples _ _ _ _ _ _ Hlz). exact Hm.
  - intros Hsame. rewrite resize_lz4_same in Hlz by congruence.
    injection Hlz as _ <- <-. split; reflexivity.
Qed.

(** A call changes neither the configuration nor the size of the two
    arrays: a well configured sink stays so from call to call. *)
Lemma write_preserves_configuration env st samples_in st'
    (datagrams : list (list Z)) :
  UDPSink.write env st samples_in = Some (st', datagrams) ->
  UDPSink.m_udpSize st' = UDPSink.m_udpSize st
  /\ UDPSink.m_sampleBytes st' = UDPSink.m_sampleBytes st
  /\ UDPSink.m_lz4MinInputSize st' = UDPSink.m_lz4MinInputSize st
  /\ length (UDPSink.m_bufMeta st') = length (UDPSink.m_bufMeta st)
  /\ length (UDPSink.m_buf st') = length (UDPSink.m_buf st).
Proof.
  unfold UDPSink.write. intros Hw.
  destruct (UDPSink.build_meta env st _) as [[m bufMeta] |] eqn:Hm; [| discriminate].
  cbn [mbind option_bind] in Hw.
  destruct (UDPSink.resize_lz4 env st m) as [[[[n size] ptr] del] |]; [| discriminate].
  cbn [mbind option_bind] in Hw.
  destruct (UDPSink.SendDataGram st bufMeta 0) as [hdr |]; [| discriminate].
  cbn [mbind option_bind] in Hw.
  destruct (UDPSink.send_complete_blocks st m samples_in) as [blocks |];
    [| discriminate].
  cbn [mbind option_bind] in Hw.
  destruct (UDPSink.send_remainder st m samples_in) as [[buf last] |] eqn:Hl;
    [| discriminate].
  cbn [mbind option_bind] in Hw. injection Hw as <- _. cbn.
  split; [reflexivity |]. split; [reflexivity |]. split; [reflexivity |]. split.
  - unfold UDPSink.build_meta in Hm.
    destruct (2 * UDPSink.m_sampleBytes st =? 0); [discriminate |].
    destruct (UDPSink.samplesPerBlock st =? 0); [discriminate |].
    cbv zeta in Hm.
    destruct (write_bytes (UDPSink.m_bufMeta st) 0 _) as [b1 |] eqn:Hb1; [| discriminate].
    cbn [mbind option_bind] in Hm.
    destruct (read_bytes b1 0 _) as [pre |]; [| discriminate].
    cbn [mbind option_bind] in Hm.
    destruct (write_bytes b1 _ _) as [b2 |] eqn:Hb2; [| discriminate].
    cbn [mbind option_bind] in Hm. injection Hm as _ <-.
    apply write_bytes_length in Hb1, Hb2. congruence.
  - unfold UDPSink.send_remainder in Hl.
    destruct (0 <? MetaData.m_remainderSamples m).
    + destruct (INT_MAX <? _); [discriminate |].
      destruct (read_bytes (IQ_image samples_in) _ _) as [src |]; [| discriminate].
      cbn [mbind option_bind] in Hl.
      destruct (write_bytes (UDPSink.m_buf st) 0 src) as [b |] eqn:Hb; [| discriminate].
      cbn [mbind option_bind] in Hl.
      destruct (UDPSink.SendDataGram st b 0) as [dg |]; [| discriminate].
      cbn [mbind option_bind] in Hl. injection Hl as <- _.
      eapply write_bytes_length. exact Hb.
    + injection Hl as <- _. reflexivity.
Qed.

Lemma write_preserves_well_configured env st samples_in st'
    (datagrams : list (list Z)) :
  well_configured st ->
  UDPSink.write env st samples_in = Some (st', datagrams) ->
  well_configured st'.
Proof.
  intros (Hb & Hu & Hm & Hl1 & Hl2) Hw.
  destruct (write_preserves_configuration _ _ _ _ _ Hw) as (E1 & E2 & _ & E4 & E5).
  unfold well_configured. rewrite E1, E2, E4, E5. auto.
Qed.



(** The complete blocks, end to end, are the start of the vector. *)
Lemma concat_blocks samples_in (spb : Z) (k : nat) :
  0 <= spb ->
  concat ((fun i => IQ_image (slice samples_in (i * spb) spb))
          <$> seqZ 0 (Z.of_nat k))
  = IQ_image (take (k * Z.to_nat spb) samples_in).
Proof.
  intros Hspb. induction k as [| k IH].
  - reflexivity.
  - rewrite seqZ_S, fmap_app, concat_app, IH. cbn [fmap list_fmap concat].
    rewrite app_nil_r, <- IQ_image_app. f_equal.
    unfold slice.
    replace (Z.to_nat ((0 + Z.of_nat k) * spb)) with (k * Z.to_nat spb)%nat by nia.
    rewrite take_take_drop. f_equal. lia.
Qed.


(** C1 (amended). The header of every frame announces one block
    ([m_nbBlocks], the number of hardware blocks in the frame), whatever
    the number of datagrams; the number of complete datagrams is the
    quotient of the frame size by [samplesPerBlock], cut to 16 bits, and
    [m_remainderSamples] is the remainder of that division. *)
Theorem write_header_block_counts env st samples_in :
  well_configured st -> lz4_defined st samples_in ->
  exists st' datagrams,
    UDPSink.write env st samples_in = Some (st', datagrams)
    /\ MetaData.m_nbBlocks (sent_header datagrams) = 1
    /\ MetaData.m_nbCompleteBlocks (sent_header datagrams)
       = u16 (Z.of_nat (length samples_in) / UDPSink.samplesPerBlock st)
    /\ MetaData.m_remainderSamples (sent_header datagrams)
       = Z.of_nat (length samples_in) mod UDPSink.samplesPerBlock st.
Proof.
  intros Hwf Hdef.
  destruct (write_ok env st samples_in Hwf Hdef) as (st' & Hw & _).
  eexists st', _. split; [exact Hw |].
  rewrite sent_header_ok.
  destruct (header_of_fields env st (Z.of_nat (length samples_in)) Hwf
              ltac:(lia)) as (Hnb & _ & _ & _ & Hrem & Hcbc & _).
  auto.
Qed.

(** C2 (amended). On a sink with 2-byte components on which the call is
    defined, and for a vector of fewer than 65536 complete blocks, one call
    sends the header datagram first (the record of the frame, with a
    checksum that matches), then one datagram for each of the
    [n / samplesPerBlock] complete blocks of the vector, the [i]-th holding
    the [samplesPerBlock] samples from position [i * samplesPerBlock], then
    one more datagram exactly when [n mod samplesPerBlock] is positive,
    which starts with the samples after the complete blocks:
    [1 + n / samplesPerBlock + (1 if n mod samplesPerBlock > 0)] datagrams,
    whose payload is the whole vector, each sample once and in order. The
    two counts are the ones the header announces. *)
Theorem write_datagram_order env st samples_in :
  well_configured st -> lz4_defined st samples_in ->
  Z.of_nat (length samples_in) / UDPSink.samplesPerBlock st < 2 ^ 16 ->
  let n := Z.of_nat (length samples_in) in
  let spb := UDPSink.samplesPerBlock st in
  exists st' hdr blocks last,
    UDPSink.write env st samples_in = Some (st', hdr :: blocks ++ last)
    /\ MetaData.m_crc (MetaData.of_bytes hdr)
       = u64 (calculate_crc (take (Z.to_nat (MetaData.sizeof - 8)) hdr))
    /\ MetaData.m_nbSamples (MetaData.of_bytes hdr) = u32 n
    /\ MetaData.m_nbCompleteBlocks (MetaData.of_bytes hdr) = n / spb
    /\ MetaData.m_remainderSamples (MetaData.of_bytes hdr) = n mod spb
    /\ Z.of_nat (length blocks) = n / spb
    /\ (forall i, 0 <= i < n / spb ->
        blocks !! Z.to_nat i = Some (IQ_image (slice samples_in (i * spb) spb))
        /\ Z.of_nat (length (slice samples_in (i * spb) spb)) = spb)
    /\ (0 < n mod spb <->
        exists d, last = [d]
          /\ take (Z.to_nat (sizeof_IQSample * (n mod spb))) d
             = IQ_image (slice samples_in (n / spb * spb) (n mod spb))
          /\ Z.of_nat (length (slice samples_in (n / spb * spb) (n mod spb)))
             = n mod spb)
    /\ (n mod spb = 0 <-> last = [])
    /\ Z.of_nat (length (hdr :: blocks ++ last))
       = 1 + n / spb + (if 0 <? n mod spb then 1 else 0)
    /\ concat blocks
       ++ take (Z.to_nat (sizeof_IQSample * (n mod spb))) (concat last)
       = IQ_image samples_in.
Proof.
  intros Hwf Hdef Hfew n spb.
  destruct (write_ok env st samples_in Hwf Hdef) as (st' & Hw & _).
  cbv zeta in Hw. eexists st', _, _, _. split; [exact Hw |].
  pose proof (sent_header_ok env st (Z.of_nat (length samples_in))
                (drop 42 (UDPSink.m_bufMeta st)) []) as Hhdr.
  unfold sent_header in Hhdr. cbn [hd] in Hhdr. rewrite Hhdr.
  fold n spb in Hw, Hfew |- *.
  set (m := header_of env st n) in *.
  destruct (header_of_fields env st n Hwf ltac:(lia))
    as (_ & _ & _ & _ & Hrem & Hcbc & _).
  fold m spb in Hrem, Hcbc.
  destruct (samplesPerBlock_well_configured st Hwf) as (_ & Hspb & _).
  fold spb in Hspb.
  assert (0 <= n / spb) as Hq by (apply Z.div_pos; lia).
  pose proof (Z.div_mod n spb ltac:(lia)) as Hdm.
  pose proof (Z.mod_pos_bound n spb ltac:(lia)) as Hr.
  rewrite u16_small in Hcbc by lia.
  rewrite Hcbc, Hrem.
  assert (length (IQ_image (slice samples_in (n / spb * spb) (n mod spb)))
          = Z.to_nat (4 * (n mod spb))) as Hslice.
  { rewrite length_IQ_image. unfold slice. rewrite length_take, length_drop. nia. }
  split.
  { change (Z.to_nat (MetaData.sizeof - 8)) with 34%nat.
    unfold m at 2. rewrite take_leading_bytes. reflexivity. }
  split; [reflexivity |].
  split; [reflexivity |].
  split; [reflexivity |].
  split; [rewrite length_fmap, length_seqZ; lia |].
  split.
  { intros i Hi. split.
    - rewrite list_lookup_fmap, lookup_seqZ_lt by lia. cbn.
      rewrite Z2Nat.id by lia. reflexivity.
    - unfold slice. rewrite length_take, length_drop. nia. }
  split.
  { split.
    - intros Hpos. destruct (Z.ltb_spec 0 (n mod spb)); [| lia].
      eexists. split; [reflexivity |]. split.
      + apply take_app_length'. symmetry.
        etransitivity; [exact Hslice |]. reflexivity.
      + unfold slice. rewrite length_take, length_drop. nia.
    - intros (d & Hd & _).
      destruct (Z.ltb_spec 0 (n mod spb)); [assumption | discriminate]. }
  split.
  { split.
    - intros Hz. destruct (Z.ltb_spec 0 (n mod spb)); [lia | reflexivity].
    - destruct (Z.ltb_spec 0 (n mod spb)); [discriminate | lia]. }
  split.
  { cbn [length]. rewrite length_app, length_fmap, length_seqZ.
    destruct (0 <? n mod spb); cbn [length]; lia. }
  rewrite <- (Z2Nat.id (n / spb)) at 1 by lia.
  rewrite concat_blocks by lia.
  assert (take (Z.to_nat (n / spb) * Z.to_nat spb) samples_in
          ++ slice samples_in (n / spb * spb) (n mod spb) = samples_in) as Hall.
  { unfold slice.
    replace (Z.to_nat (n / spb * spb)) with (Z.to_nat (n / spb) * Z.to_nat spb)%nat
      by nia.
    rewrite (take_ge (drop _ _)) by (rewrite length_drop; nia).
    apply take_drop. }
  destruct (Z.ltb_spec 0 (n mod spb)) as [Hpos | Hzero].
  - cbn [concat]. rewrite app_nil_r.
    rewrite take_app_length'.
    + rewrite <- IQ_image_app, Hall. reflexivity.
    + rewrite length_IQ_image. unfold slice, sizeof_IQSample.
      rewrite length_take, length_drop. nia.
  - cbn [concat]. rewrite take_nil, app_nil_r.
    rewrite <- Hall at 2.
    replace (n mod spb) with 0 by lia. unfold slice.
    change (Z.to_nat 0) with 0%nat. rewrite take_0, app_nil_r. reflexivity.
Qed.


(** C5 (amended). For a frame of fewer than 65536 complete blocks, the
    header satisfies [m_nbSamples = m_nbCompleteBlocks * samplesPerBlock +
    m_remainderSamples], with [samplesPerBlock = m_blockSize / (2 *
    bytesPerComponent)] and [bytesPerComponent] the low nibble of
    [m_sampleBytes], and [m_nbSamples] is the size of the vector. *)
Theorem write_header_sample_count env st samples_in :
  well_configured st -> lz4_defined st samples_in ->
  Z.of_nat (length samples_in) / UDPSink.samplesPerBlock st < 2 ^ 16 ->
  exists st' datagrams,
    UDPSink.write env st samples_in = Some (st', datagrams)
    /\ let m := sent_header datagrams in
       let bytesPerComponent := Z.land (MetaData.m_sampleBytes m) 15 in
       let samplesPerBlock := MetaData.m_blockSize m / (2 * bytesPerComponent) in
       MetaData.m_nbSamples m = Z.of_nat (length samples_in)
       /\ MetaData.m_nbSamples m
          = MetaData.m_nbCompleteBlocks m * samplesPerBlock
            + MetaData.m_remainderSamples m.
Proof.
  intros Hwf Hdef Hfew.
  destruct (write_ok env st samples_in Hwf Hdef) as (st' & Hw & _).
  eexists st', _. split; [exact Hw |].
  rewrite sent_header_ok. cbv zeta.
  destruct (header_of_fields env st (Z.of_nat (length samples_in)) Hwf
              ltac:(lia)) as (_ & Hsb & Hbs & Hns & Hrem & Hcbc & _).
  destruct (samplesPerBlock_well_configured st Hwf) as (Hdiv & Hspb & _).
  rewrite Hsb, Hbs, Hns, Hrem, Hcbc. change (2 * Z.land 2 15) with 4.
  rewrite <- Hdiv.
  set (spb := UDPSink.samplesPerBlock st) in *.
  set (n := Z.of_nat (length samples_in)) in *.
  assert (0 <= n / spb) as Hq by (apply Z.div_pos; lia).
  pose proof (Z.div_mod n spb ltac:(lia)) as Hdm.
  pose proof (Z.mod_pos_bound n spb ltac:(lia)) as Hr.
  rewrite (u16_small (n / spb)) by lia.
  rewrite u32_small by nia. lia.
Qed.

(** C6. The last field of the header sent holds the CRC of the bytes of
    the fields before it: the first [sizeof(MetaData) - 8] bytes of the
    header datagram. *)
Theorem write_header_checksum env st samples_in :
  well_configured st -> lz4_defined st samples_in ->
  exists st' hdr payload,
    UDPSink.write env st samples_in = Some (st', hdr :: payload)
    /\ let m := MetaData.of_bytes hdr in
       let covered := take (Z.to_nat (MetaData.sizeof - 8)) hdr in
       take (Z.to_nat MetaData.sizeof) hdr = MetaData.to_bytes m
       /\ covered = MetaData.leading_bytes m
       /\ MetaData.m_crc m = u64 (calculate_crc covered).
Proof.
  intros Hwf Hdef.
  destruct (write_ok env st samples_in Hwf Hdef) as (st' & Hw & _).
  eexists st', _, _. split; [exact Hw |]. cbv zeta.
  rewrite of_bytes_to_bytes by apply header_of_in_range.
  change (Z.to_nat MetaData.sizeof) with 42%nat.
  change (Z.to_nat (MetaData.sizeof - 8)) with 34%nat.
  rewrite take_leading_bytes.
  split; [apply take_app_length'; reflexivity |].
  split; reflexivity.
Qed.

(** C7. Every datagram of a call, header or payload, is [m_udpSize]
    bytes long. *)
Theorem write_datagram_size env st samples_in :
  well_configured st -> lz4_defined st samples_in ->
  exists st' datagrams,
    UDPSink.write env st samples_in = Some (st', datagrams)
    /\ Forall (fun d => Z.of_nat (length d) = UDPSink.m_udpSize st) datagrams.
Proof.
  intros Hwf Hdef.
  destruct (write_ok env st samples_in Hwf Hdef) as (st' & Hw & _).
  eexists st', _. split; [exact Hw |].
  pose proof (write_sizes _ _ _ _ _ Hw) as Hsz.
  destruct Hwf as (_ & Hu & _). change MetaData.sizeof with 42 in Hu.
  rewrite s32_small in Hsz by lia. exact Hsz.
Qed.

(** C8. Of two consecutive calls, the second leaves [m_lz4Buffer] and
    [m_lz4BufSize] as they were when its vector has the size of the
    first's; it can only change them when the sizes differ. *)
Theorem write_keeps_lz4_buffer env1 env2 st st1 st2
    (samples1 samples2 : list IQSample) (d1 d2 : list (list Z)) :
  UDPSink.write env1 st samples1 = Some (st1, d1) ->
  UDPSink.write env2 st1 samples2 = Some (st2, d2) ->
  (length samples2 = length samples1 ->
   UDPSink.m_lz4Buffer st2 = UDPSink.m_lz4Buffer st1
   /\ UDPSink.m_lz4BufSize st2 = UDPSink.m_lz4BufSize st1)
  /\ (UDPSink.m_lz4Buffer st2 <> UDPSink.m_lz4Buffer st1
      \/ UDPSink.m_lz4BufSize st2 <> UDPSink.m_lz4BufSize st1 ->
      length samples2 <> length samples1).
Proof.
  intros Hw1 Hw2.
  destruct (write_lz4 _ _ _ _ _ Hw1) as (Hn1 & _).
  destruct (write_lz4 _ _ _ _ _ Hw2) as (_ & Hsame).
  assert (length samples2 = length samples1 ->
          UDPSink.m_lz4Buffer st2 = UDPSink.m_lz4Buffer st1
          /\ UDPSink.m_lz4BufSize st2 = UDPSink.m_lz4BufSize st1) as Hkeep.
  { intros Hlen. apply Hsame. rewrite Hn1, Hlen. reflexivity. }
  split; [exact Hkeep |].
  intros Hchg Hlen. destruct (Hkeep Hlen) as (Hb & Hs).
  destruct Hchg as [Hc | Hc]; contradiction.
Qed.

End Sink.

(** ** Sender and receiver together *)

Section RoundTrip.
Context `{CRC64} `{LZ4} `{MetaDataEq} `{Codec}.
Implicit Types (st : UDPSink.t) (env : UDPSink.Env).
Implicit Types (samples_in : list IQSample).

(** The receiver recognises the header datagram of the sender. *)
Lemma valid_header_sent env st size (rest : list Z) :
  SDRdaemonBuffer.valid_header (MetaData.to_bytes (header_of env st size) ++ rest)
  = true.
Proof.
  unfold SDRdaemonBuffer.valid_header.
  rewrite of_bytes_to_bytes by apply header_of_in_range.
  change (Z.to_nat (MetaData.sizeof - 8)) with 34%nat.
  rewrite take_leading_bytes.
  apply andb_true_intro. split.
  - apply Z.leb_le. rewrite length_app, length_to_bytes.
    change MetaData.sizeof with 42. lia.
  - apply Z.eqb_eq. reflexivity.
Qed.

(** A frame that fits one datagram is sent as the header and one payload
    datagram, which starts with the samples. *)
Lemma write_single_datagram env st samples_in :
  well_configured st -> lz4_defined st samples_in ->
  0 < Z.of_nat (length samples_in) <= UDPSink.samplesPerBlock st ->
  exists st' payload,
    UDPSink.write env st samples_in
    = Some (st',
            [MetaData.to_bytes (header_of env st (Z.of_nat (length samples_in)))
             ++ drop 42 (UDPSink.m_bufMeta st); payload])
    /\ take (4 * length samples_in) payload = IQ_image samples_in
    /\ Z.of_nat (length payload) = UDPSink.m_udpSize st.
Proof.
  intros Hwf Hdef Hn.
  destruct (write_ok env st samples_in Hwf Hdef) as (st' & Hw & _).
  cbv zeta in Hw.
  pose proof (write_sizes _ _ _ _ _ Hw) as Hsz.
  destruct (header_of_fields env st (Z.of_nat (length samples_in)) Hwf
              ltac:(lia)) as (_ & _ & _ & _ & Hrem & Hcbc & _).
  destruct (samplesPerBlock_well_configured st Hwf) as (_ & Hspb & Hudp).
  rewrite s32_small in Hsz by lia.
  set (m := header_of env st (Z.of_nat (length samples_in))) in *.
  set (spb := UDPSink.samplesPerBlock st) in *.
  destruct (Z.eq_dec (Z.of_nat (length samples_in)) spb) as [Heq | Hlt].
  - (* one complete block, no remainder *)
    rewrite Heq, Z.div_same, u16_small in Hcbc by lia.
    rewrite Heq, Z.mod_same in Hrem by lia.
    rewrite Hcbc, Hrem in Hw. cbn in Hw.
    eexists st', _. split; [exact Hw |].
    rewrite Hcbc, Hrem in Hsz. cbn in Hsz.
    apply Forall_cons in Hsz as (_ & Hsz). apply Forall_cons in Hsz as (Hsz & _).
    split; [| exact Hsz].
    unfold slice. change (Z.to_nat (0 * spb)) with 0%nat. rewrite drop_0.
    rewrite (take_ge samples_in) by lia.
    apply take_ge. rewrite length_IQ_image. lia.
  - (* no complete block, the remainder is the frame *)
    rewrite Z.div_small, u16_small in Hcbc by lia.
    rewrite Z.mod_small in Hrem by lia.
    rewrite Hcbc, Hrem in Hw. cbn [seqZ] in Hw.
    rewrite seqZ_nil in Hw by lia.
    destruct (Z.ltb_spec 0 (Z.of_nat (length samples_in))) as [_ | Hc]; [| lia].
    cbn [fmap list_fmap app] in Hw.
    eexists st', _. split; [exact Hw |].
    rewrite Hcbc, Hrem in Hsz. rewrite seqZ_nil in Hsz by lia.
    destruct (Z.ltb_spec 0 (Z.of_nat (length samples_in))) as [_ | Hc]; [| lia].
    cbn [fmap list_fmap app] in Hsz.
    apply Forall_cons in Hsz as (_ & Hsz). apply Forall_cons in Hsz as (Hsz & _).
    split; [| exact Hsz].
    unfold slice. change (Z.to_nat (0 * spb)) with 0%nat. rewrite drop_0.
    rewrite (take_ge samples_in) by lia.
    apply take_app_length'. rewrite length_IQ_image. reflexivity.
Qed.

(** C4 (amended). A non-empty frame that fits one datagram comes out
    of the receiver as one completed frame, bit-identical to the samples
    sent, provided its payload datagram does not itself pass the header
    checksum test. *)
Theorem round_trip_single_datagram env st samples_in :
  well_configured st -> lz4_defined st samples_in ->
  0 < Z.of_nat (length samples_in) <= UDPSink.samplesPerBlock st ->
  (forall st' hdr payload,
     UDPSink.write env st samples_in = Some (st', hdr :: payload) ->
     Forall (fun d => SDRdaemonBuffer.valid_header d = false) payload) ->
  exists st' datagrams,
    UDPSink.write env st samples_in = Some (st', datagrams)
    /\ snd (SDRdaemonBuffer.feed
              (SDRdaemonBuffer.init (UDPSink.m_udpSize st)) datagrams)
       = [IQ_image samples_in].
Proof.
  intros Hwf Hdef Hn Hpayload.
  destruct (write_single_datagram env st samples_in Hwf Hdef Hn)
    as (st' & payload & Hw & Htake & Hlen).
  specialize (Hpayload _ _ _ Hw).
  apply Forall_cons in Hpayload as (Hnot & _).
  eexists st', _. split; [exact Hw |].
  destruct (header_of_fields env st (Z.of_nat (length samples_in)) Hwf
              ltac:(lia)) as (Hnb & Hsb & Hbs & Hns & Hrem & Hcbc & _).
  destruct (samplesPerBlock_well_configured st Hwf) as (Hdiv & Hspb & Hudp).
  set (m := header_of env st (Z.of_nat (length samples_in))) in *.
  set (spb := UDPSink.samplesPerBlock st) in *.
  rewrite u32_small in Hns by lia.
  assert (Z.of_nat (length (MetaData.to_bytes m ++ drop 42 (UDPSink.m_bufMeta st)))
          = UDPSink.m_udpSize st) as Hhlen.
  { destruct Hwf as (_ & Hu & _ & Hl & _). change MetaData.sizeof with 42 in Hu.
    rewrite length_app, length_to_bytes, length_drop. lia. }
  cbn [SDRdaemonBuffer.feed].
  (* the header datagram *)
  unfold SDRdaemonBuffer.writeAndRead at 1.
  cbn [SDRdaemonBuffer.init SDRdaemonBuffer.m_blockSize SDRdaemonBuffer.m_state].
  rewrite Hhlen, Z.eqb_refl. cbn [negb].
  unfold m at 1. rewrite valid_header_sent. fold m.
  rewrite of_bytes_to_bytes by apply header_of_in_range.
  (* the payload datagram *)
  unfold SDRdaemonBuffer.writeAndRead.
  cbn [SDRdaemonBuffer.m_blockSize SDRdaemonBuffer.m_state].
  rewrite Hlen, Z.eqb_refl. cbn [negb]. rewrite Hnot.
  unfold SDRdaemonBuffer.samplesPerBlock, SDRdaemonBuffer.indicator_bits,
    SDRdaemonBuffer.bytesPerComponent.
  rewrite Hsb, Hnb, Hns, Hbs.
  change (Z.shiftr 2 4) with 0. change (Z.land 2 15) with 2.
  rewrite inverse_transform_plain.
  change (1 - 1 =? 0) with true. change (1 =? 1) with true.
  cbn [andb snd].
  assert ((if 0 <? MetaData.m_remainderSamples m
           then MetaData.m_remainderSamples m
           else UDPSink.m_udpSize st / (2 * 2)) = Z.of_nat (length samples_in))
    as Hcount.
  { change (2 * 2) with 4. rewrite <- Hdiv. rewrite Hrem.
    destruct (Z.eq_dec (Z.of_nat (length samples_in)) spb) as [Heq | Hne].
    - rewrite Heq, Z.mod_same by lia. reflexivity.
    - rewrite Z.mod_small by lia.
      destruct (Z.ltb_spec 0 (Z.of_nat (length samples_in))); [reflexivity | lia]. }
  rewrite Hcount.
  replace (Z.to_nat (Z.of_nat (length samples_in) * 2 * 2))
    with (4 * length samples_in)%nat by lia.
  rewrite Htake. f_equal.
  unfold SDRdaemonBuffer.copy_into.
  change (Z.to_nat 0) with 0%nat. rewrite take_0. cbn [app Nat.add].
  rewrite repeat_length.
  apply take_app_length'. rewrite length_IQ_image. reflexivity.
Qed.

End RoundTrip.

(** ** Device configuration *)

Section Configure.
Context `{Libc} `{AirspySource.Device} `{AirspyHFSource.Device}.

Lemma u32_rejected (x : Z) :
  - 2 ^ 31 <= x <= INT_MAX ->
  x < 24000000 \/ 1800000000 < x ->
  (u32 x <? 24000000) || (1800000000 <? u32 x) = true.
Proof.
  unfold INT_MAX. intros Hint Hout. apply orb_true_iff.
  destruct (Z.ltb_spec x 0) as [Hneg | Hpos].
  - right. apply Z.ltb_lt. unfold u32.
    replace x with (x + 2 ^ 32 + (-1) * 2 ^ 32) by lia.
    rewrite Z.mod_add by lia. rewrite Z.mod_small; lia.
  - rewrite u32_small by lia.
    destruct Hout; [left; apply Z.ltb_lt | right; apply Z.ltb_lt]; lia.
Qed.

Lemma u32_accepted (x : Z) :
  24000000 <= x <= 1800000000 ->
  (u32 x <? 24000000) || (1800000000 <? u32 x) = false.
Proof.
  intros Hin. rewrite u32_small by lia. apply orb_false_iff.
  split; apply Z.ltb_ge; lia.
Qed.

Lemma find_rate_None (x : Z) (l : list Z) (i : Z) :
  ~ In x l -> find_rate x l i = None.
Proof.
  revert i. induction l as [| y l IH]; intros i Hnot; [reflexivity |].
  cbn [find_rate]. destruct (Z.eqb_spec y x) as [-> | Hne].
  - exfalso. apply Hnot. left. reflexivity.
  - apply IH. intros Hin. apply Hnot. right. exact Hin.
Qed.

Lemma find_rate_Some (x : Z) (l : list Z) (i : Z) :
  In x l -> is_Some (find_rate x l i).
Proof.
  revert i. induction l as [| y l IH]; intros i Hin; [destruct Hin |].
  cbn [find_rate]. destruct (Z.eqb_spec y x) as [-> | Hne]; [eexists; reflexivity |].
  apply IH. destruct Hin as [He | Hin]; [contradiction | exact Hin].
Qed.

(** C9. A "freq" value below 24000000 or above 1800000000 makes
    [configure] return [false] at once: no device call is made, and
    [m_frequency], [m_confFreq] and [m_sampleRate] keep their values; only
    [m_error] is assigned. For the Airspy and for the Airspy HF. *)
Theorem configure_rejects_frequency (m : gmap string string) (v : string)
    (a : AirspySource.t) (h : AirspyHFSource.t) :
  m !! "freq"%string = Some v ->
  atoi v < 24000000 \/ 1800000000 < atoi v ->
  (exists a',
      AirspySource.configure m a = Some (a', false)
      /\ a' = AirspySource.set_m_error "Invalid frequency" a
      /\ AirspySource.calls a' = AirspySource.calls a
      /\ AirspySource.m_frequency a' = AirspySource.m_frequency a
      /\ AirspySource.m_confFreq a' = AirspySource.m_confFreq a
      /\ AirspySource.m_sampleRate a' = AirspySource.m_sampleRate a)
  /\ (exists h',
      AirspyHFSource.configure m h = Some (h', false)
      /\ h' = AirspyHFSource.set_m_error "Invalid frequency" h
      /\ AirspyHFSource.calls h' = AirspyHFSource.calls h
      /\ AirspyHFSource.m_frequency h' = AirspyHFSource.m_frequency h
      /\ AirspyHFSource.m_confFreq h' = AirspyHFSource.m_confFreq h
      /\ AirspyHFSource.m_sampleRate h' = AirspyHFSource.m_sampleRate h).
Proof.
  intros Hkey Hout.
  pose proof (u32_rejected (atoi v) (atoi_int v) Hout) as Hrej.
  split.
  - eexists. split.
    + unfold AirspySource.configure, AirspySource.read_keys.
      unfold AirspySource.key_freq at 1. rewrite Hkey, Hrej. reflexivity.
    + destruct a. cbn. auto.
  - eexists. split.
    + unfold AirspyHFSource.configure, AirspyHFSource.read_keys.
      unfold AirspyHFSource.key_freq at 1. rewrite Hkey, Hrej. reflexivity.
    + destruct h. cbn. auto.
Qed.

Lemma airspy_key_freq_cases (m : gmap string string) (a : AirspySource.t)
    (l : AirspySource.locals) :
  (AirspySource.key_freq m (a, l)
   = Fail (AirspySource.set_m_error "Invalid frequency" a)
   /\ exists f, m !! "freq"%string = Some f
              /\ ~ 24000000 <= atoi f <= 1800000000)
  \/ (exists l', AirspySource.key_freq m (a, l) = Continue (a, l')).
Proof.
  unfold AirspySource.key_freq.
  destruct (m !! "freq"%string) as [f |]; [| right; eexists; reflexivity].
  destruct ((u32 (atoi f) <? 24000000) || (1800000000 <? u32 (atoi f))) eqn:Hr.
  - left. split; [reflexivity |]. exists f. split; [reflexivity |].
    intros Hin. rewrite u32_accepted in Hr by exact Hin. discriminate Hr.
  - right. destruct l. eexists. reflexivity.
Qed.

Lemma airspyhf_key_freq_cases (m : gmap string string) (h : AirspyHFSource.t)
    (l : AirspyHFSource.locals) :
  (AirspyHFSource.key_freq m (h, l)
   = Fail (AirspyHFSource.set_m_error "Invalid frequency" h)
   /\ exists f, m !! "freq"%string = Some f
              /\ ~ 24000000 <= atoi f <= 1800000000)
  \/ (exists l', AirspyHFSource.key_freq m (h, l) = Continue (h, l')).
Proof.
  unfold AirspyHFSource.key_freq.
  destruct (m !! "freq"%string) as [f |]; [| right; eexists; reflexivity].
  destruct ((u32 (atoi f) <? 24000000) || (1800000000 <? u32 (atoi f))) eqn:Hr.
  - left. split; [reflexivity |]. exists f. split; [reflexivity |].
    intros Hin. rewrite u32_accepted in Hr by exact Hin. discriminate Hr.
  - right. destruct l. eexists. reflexivity.
Qed.

(** The "srate" block with a rate the device does not have: it leaves
    through one of its two [return false], and through the second, with
    [m_sampleRate] zeroed, unless the value is the word "list". *)
Lemma airspy_key_srate_unknown (m : gmap string string) (v : string)
    (a : AirspySource.t) (l : AirspySource.locals) :
  m !! "srate"%string = Some v ->
  ~ In (atoi v) (AirspySource.m_srates a) ->
  exists x',
    AirspySource.key_srate m (a, l) = Fail x'
    /\ AirspySource.calls x' = AirspySource.calls a
    /\ (strcasecmp_eq v "list" = false ->
        AirspySource.get_sample_rate x' = 0
        /\ AirspySource.m_error x' = "Invalid sample rate"%string).
Proof.
  intros Hkey Hnot. pose proof (atoi_int v) as Hint. unfold INT_MAX in Hint.
  unfold AirspySource.key_srate. rewrite Hkey.
  destruct (strcasecmp_eq v "list") eqn:Hlist.
  - eexists. split; [reflexivity |].
    split; [destruct a; reflexivity | intros Hx; discriminate Hx].
  - exists (AirspySource.set_m_sampleRate 0
              (AirspySource.set_m_error "Invalid sample rate"
                 (AirspySource.set_m_sampleRate (u32 (atoi v)) a))).
    destruct a. cbn -[s32 u32 find_rate] in Hnot |- *.
    rewrite s32_u32 by lia. rewrite find_rate_None by exact Hnot. auto.
Qed.

Lemma airspyhf_key_srate_unknown (m : gmap string string) (v : string)
    (h : AirspyHFSource.t) (l : AirspyHFSource.locals) :
  m !! "srate"%string = Some v ->
  ~ In (atoi v) (AirspyHFSource.m_srates h) ->
  exists x',
    AirspyHFSource.key_srate m (h, l) = Fail x'
    /\ AirspyHFSource.calls x' = AirspyHFSource.calls h
    /\ (strcasecmp_eq v "list" = false ->
        AirspyHFSource.get_sample_rate x' = 0
        /\ AirspyHFSource.m_error x' = "Invalid sample rate"%string).
Proof.
  intros Hkey Hnot. pose proof (atoi_int v) as Hint. unfold INT_MAX in Hint.
  unfold AirspyHFSource.key_srate. rewrite Hkey.
  destruct (strcasecmp_eq v "list") eqn:Hlist.
  - eexists. split; [reflexivity |].
    split; [destruct h; reflexivity | intros Hx; discriminate Hx].
  - exists (AirspyHFSource.set_m_sampleRate 0
              (AirspyHFSource.set_m_error "Invalid sample rate"
                 (AirspyHFSource.set_m_sampleRate (u32 (atoi v)) h))).
    destruct h. cbn -[s32 u32 find_rate] in Hnot |- *.
    rewrite s32_u32 by lia. rewrite find_rate_None by exact Hnot. auto.
Qed.

(** C10 (amended). When the "srate" value converts to a number that is
    not among the device's sample rates, [configure] returns [false] without
    calling the device; and unless the map has an out-of-range "freq" value
    or the "srate" value is the word "list" (in any letter case), it has by
    then set [m_sampleRate] to 0, so that [get_sample_rate] returns 0. For
    the Airspy and for the Airspy HF. *)
Theorem configure_unknown_rate_zeroes (m : gmap string string) (v : string)
    (a : AirspySource.t) (h : AirspyHFSource.t) :
  m !! "srate"%string = Some v ->
  ~ In (atoi v) (AirspySource.m_srates a) ->
  ~ In (atoi v) (AirspyHFSource.m_srates h) ->
  (exists x',
      AirspySource.configure m a = Some (x', false)
      /\ AirspySource.calls x' = AirspySource.calls a
      /\ ((forall f, m !! "freq"%string = Some f ->
                     24000000 <= atoi f <= 1800000000) ->
          strcasecmp_eq v "list" = false ->
          AirspySource.get_sample_rate x' = 0
          /\ AirspySource.m_error x' = "Invalid sample rate"%string))
  /\ (exists x',
      AirspyHFSource.configure m h = Some (x', false)
      /\ AirspyHFSource.calls x' = AirspyHFSource.calls h
      /\ ((forall f, m !! "freq"%string = Some f ->
                     24000000 <= atoi f <= 1800000000) ->
          strcasecmp_eq v "list" = false ->
          AirspyHFSource.get_sample_rate x' = 0
          /\ AirspyHFSource.m_error x' = "Invalid sample rate"%string)).
Proof.
  intros Hkey Ha Hh. split.
  - destruct (airspy_key_freq_cases m a 
                (AirspySource.mkLocals 0 (AirspySource.m_confFreq a) 8 8 0 0 0 0 2 0))
      as [(Hk & f & Hf & Hout) | (l' & Hk)].
    + exists (AirspySource.set_m_error "Invalid frequency" a).
      split; [| split].
      * unfold AirspySource.configure, AirspySource.read_keys.
        rewrite Hk. reflexivity.
      * destruct a. reflexivity.
      * intros Hfreq _. exfalso. apply Hout, Hfreq, Hf.
    + destruct (airspy_key_srate_unknown m v a l' Hkey Ha) as (x' & Hs & Hc & Hz).
      exists x'. split; [| split].
      * unfold AirspySource.configure, AirspySource.read_keys.
        rewrite Hk. cbn [mbind parse_mbind parse_bind]. rewrite Hs. reflexivity.
      * exact Hc.
      * intros _ Hlist. exact (Hz Hlist).
  - destruct (airspyhf_key_freq_cases m h 
                (AirspyHFSource.mkLocals 0 (AirspyHFSource.m_confFreq h) 0))
      as [(Hk & f & Hf & Hout) | (l' & Hk)].
    + exists (AirspyHFSource.set_m_error "Invalid frequency" h).
      split; [| split].
      * unfold AirspyHFSource.configure, AirspyHFSource.read_keys.
        rewrite Hk. reflexivity.
      * destruct h. reflexivity.
      * intros Hfreq _. exfalso. apply Hout, Hfreq, Hf.
    + destruct (airspyhf_key_srate_unknown m v h l' Hkey Hh) as (x' & Hs & Hc & Hz).
      exists x'. split; [| split].
      * unfold AirspyHFSource.configure, AirspyHFSource.read_keys.
        rewrite Hk. cbn [mbind parse_mbind parse_bind]. rewrite Hs. reflexivity.
      * exact Hc.
      * intros _ Hlist. exact (Hz Hlist).
Qed.

End Configure.

(** ** Closed instances *)

(** A computed run that returns a pair and satisfies [P] exhibits the
    result. *)
Lemma run_result {A B} (r : option (A * B)) (P : A -> B -> Prop) :
  match r with Some (a, b) => P a b | None => False end ->
  exists a b, r = Some (a, b) /\ P a b.
Proof.
  destruct r as [[a b] |]; [| intros []].
  intros HP. exists a, b. split; [reflexivity | exact HP].
Defined.

(** The same for a [configure] that returns [false]. *)
Lemma run_refused {A} (r : option (A * bool)) (P : A -> Prop) :
  match r with Some (a, false) => P a | _ => False end ->
  exists a, r = Some (a, false) /\ P a.
Proof.
  destruct r as [[a []] |]; try (intros []).
  intros HP. exists a. split; [reflexivity | exact HP].
Defined.

Ltac by_computation :=
  repeat match goal with
         | |- _ /\ _ => split
         | |- _ <= _ <= _ => split
         end;
  first [ vm_compute; reflexivity
        | vm_compute; intro; discriminate ].

Lemma sink1024_well_configured : well_configured sink1024.
Proof. unfold well_configured. by_computation. Defined.

Lemma sink44_well_configured : well_configured sink44.
Proof. unfold well_configured. by_computation. Defined.

Lemma sink44_as_constructed : as_constructed sink44_constructed.
Proof. unfold as_constructed. by_computation. Defined.

Lemma lz4_off_defined (st : UDPSink.t) (samples_in : list IQSample) :
  UDPSink.m_lz4MinInputSize st = 0 -> lz4_defined st samples_in.
Proof. intros Hoff. left. rewrite Hoff. apply Z.le_refl. Defined.

(** C1, witness: Scenario A, 2000 samples in 1024-byte datagrams. The
    header announces 1 block, 7 complete blocks and 208 remaining samples. *)
Lemma write_header_block_counts_scenario_A :
  well_configured sink1024 /\ lz4_defined sink1024 (ramp 2000)
  /\ exists st' datagrams,
      write_ref env0 sink1024 (ramp 2000) = Some (st', datagrams)
      /\ MetaData.m_nbBlocks (sent_header datagrams) = 1
      /\ MetaData.m_nbCompleteBlocks (sent_header datagrams)
         = u16 (Z.of_nat (length (ramp 2000)) / UDPSink.samplesPerBlock sink1024)
      /\ MetaData.m_remainderSamples (sent_header datagrams)
         = Z.of_nat (length (ramp 2000)) mod UDPSink.samplesPerBlock sink1024.
Proof.
  split; [exact sink1024_well_configured |].
  split; [apply lz4_off_defined; reflexivity |].
  exact (@write_header_block_counts crc64_ref lz4_ref meta_eq_ref
           env0 sink1024 (ramp 2000) sink1024_well_configured
           (lz4_off_defined sink1024 (ramp 2000) eq_refl)).
Defined.

(** C1, counterexample: in Scenario A the header has 7 complete blocks and
    208 remaining samples, and its block count is 1, not 8. *)
Lemma scenario_A_block_count_is_one :
  exists st' datagrams,
    write_ref env0 sink1024 (ramp 2000) = Some (st', datagrams)
    /\ let m := sent_header datagrams in
       MetaData.m_blockSize m = 1024
       /\ Z.land (MetaData.m_sampleBytes m) 15 = 2
       /\ MetaData.m_nbSamples m = 2000
       /\ MetaData.m_nbCompleteBlocks m = 7
       /\ MetaData.m_remainderSamples m = 208
       /\ MetaData.m_nbBlocks m = 1
       /\ MetaData.m_nbBlocks m
          <> MetaData.m_nbCompleteBlocks m
             + (if 0 <? MetaData.m_remainderSamples m then 1 else 0)
       /\ MetaData.m_nbBlocks m <> 8.
Proof.
  apply run_result. vm_compute.
  repeat split; try reflexivity; intro; discriminate.
Qed.

Lemma scenario_A_few_blocks :
  Z.of_nat (length (ramp 2000)) / UDPSink.samplesPerBlock sink1024 < 2 ^ 16.
Proof. vm_compute. reflexivity. Defined.

(** C2, witness: the order of the datagrams of Scenario A. *)
Lemma write_datagram_order_scenario_A :
  well_configured sink1024 /\ lz4_defined sink1024 (ramp 2000)
  /\ Z.of_nat (length (ramp 2000)) / UDPSink.samplesPerBlock sink1024 < 2 ^ 16
  /\ let n := Z.of_nat (length (ramp 2000)) in
     let spb := UDPSink.samplesPerBlock sink1024 in
     exists st' hdr blocks last,
       write_ref env0 sink1024 (ramp 2000) = Some (st', hdr :: blocks ++ last)
       /\ MetaData.m_crc (MetaData.of_bytes hdr)
          = u64 (@calculate_crc crc64_ref
                   (take (Z.to_nat (MetaData.sizeof - 8)) hdr))
       /\ MetaData.m_nbSamples (MetaData.of_bytes hdr) = u32 n
       /\ MetaData.m_nbCompleteBlocks (MetaData.of_bytes hdr) = n / spb
       /\ MetaData.m_remainderSamples (MetaData.of_bytes hdr) = n mod spb
       /\ Z.of_nat (length blocks) = n / spb
       /\ (forall i, 0 <= i < n / spb ->
           blocks !! Z.to_nat i
           = Some (IQ_image (slice (ramp 2000) (i * spb) spb))
           /\ Z.of_nat (length (slice (ramp 2000) (i * spb) spb)) = spb)
       /\ (0 < n mod spb <->
           exists d, last = [d]
             /\ take (Z.to_nat (sizeof_IQSample * (n mod spb))) d
                = IQ_image (slice (ramp 2000) (n / spb * spb) (n mod spb))
             /\ Z.of_nat (length (slice (ramp 2000) (n / spb * spb) (n mod spb)))
                = n mod spb)
       /\ (n mod spb = 0 <-> last = [])
       /\ Z.of_nat (length (hdr :: blocks ++ last))
          = 1 + n / spb + (if 0 <? n mod spb then 1 else 0)
       /\ concat blocks
          ++ take (Z.to_nat (sizeof_IQSample * (n mod spb))) (concat last)
          = IQ_image (ramp 2000).
Proof.
  split; [exact sink1024_well_configured |].
  split; [apply lz4_off_defined; reflexivity |].
  split; [exact scenario_A_few_blocks |].
  exact (@write_datagram_order crc64_ref lz4_ref meta_eq_ref
           env0 sink1024 (ramp 2000) sink1024_well_configured
           (lz4_off_defined sink1024 (ramp 2000) eq_refl)
           scenario_A_few_blocks).
Defined.

(** C2, counterexample: 25 samples through the 44-byte sink as the
    constructor leaves it (one byte per component). The header announces
    one complete block and the sink counts 22 samples to a block, but the
    block datagram holds the first 11 samples only; none of the bytes 12 to
    22 (the low bytes of the real parts of samples 12 to 22) occurs in a
    payload datagram. And on a sink with 2-byte components and LZ4 sizing
    on, an empty vector after a frame of 3 samples sends nothing, not even
    the header: the call divides by zero. *)
Lemma block_datagram_holds_half_a_block :
  well_configured sink44_lz4_after3
  /\ write_ref env1 sink44_lz4_after3 [] = None
  /\ as_constructed sink44_constructed
  /\ UDPSink.samplesPerBlock sink44_constructed = 22
  /\ exists st' datagrams,
       write_ref env0 sink44_constructed (ramp 25) = Some (st', datagrams)
       /\ MetaData.m_nbCompleteBlocks (sent_header datagrams) = 1
       /\ MetaData.m_remainderSamples (sent_header datagrams) = 3
       /\ length datagrams = 3%nat
       /\ datagrams !! 1%nat = Some (IQ_image (slice (ramp 25) 0 11))
       /\ datagrams !! 1%nat <> Some (IQ_image (slice (ramp 25) 0 22))
       /\ forallb (fun k => forallb (fun d => negb (contains k d)) (tail datagrams))
                  (seqZ 12 11) = true.
Proof.
  split; [unfold well_configured; by_computation |].
  split; [vm_compute; reflexivity |].
  split; [exact sink44_as_constructed |].
  split; [vm_compute; reflexivity |].
  apply run_result. vm_compute.
  repeat split; try reflexivity. intro Heq. discriminate Heq.
Qed.

(** Scenario A sends 9 datagrams: the header and 8 of payload. *)
Example scenario_A_datagram_count :
  exists st' datagrams,
    write_ref env0 sink1024 (ramp 2000) = Some (st', datagrams)
    /\ length datagrams = 9%nat.
Proof. apply run_result. vm_compute. reflexivity. Qed.


(** The two runs: in Scenario A the last datagram starts with the 208
    remaining samples (832 bytes); on the constructor's sink it starts with
    6 of the 12 bytes of the 3 remaining samples. *)
Example remainder_datagrams_of_both_widths :
  (exists st' datagrams,
     write_ref env0 sink1024 (ramp 2000) = Some (st', datagrams)
     /\ option_map (take 832) (last datagrams)
        = Some (IQ_image (slice (ramp 2000) 1792 208)))
  /\ (exists st' datagrams,
        write_ref env0 sink44_constructed (ramp 25) = Some (st', datagrams)
        /\ option_map (take 12) (last datagrams)
           = Some (take 6 (IQ_image (slice (ramp 25) 22 3)) ++ repeat 0 6)).
Proof.
  split; apply run_result; vm_compute; reflexivity.
Qed.


(** C4, witness: five samples through a 44-byte sink and back. *)
Lemma round_trip_five_samples :
  well_configured sink44 /\ lz4_defined sink44 (ramp 5)
  /\ 0 < Z.of_nat (length (ramp 5)) <= UDPSink.samplesPerBlock sink44
  /\ exists st' datagrams,
      write_ref env0 sink44 (ramp 5) = Some (st', datagrams)
      /\ snd (feed_ref (SDRdaemonBuffer.init (UDPSink.m_udpSize sink44)) datagrams)
         = [IQ_image (ramp 5)].
Proof.
  split; [exact sink44_well_configured |].
  split; [apply lz4_off_defined; reflexivity |].
  assert (0 < Z.of_nat (length (ramp 5)) <= UDPSink.samplesPerBlock sink44) as Hfit
    by by_computation.
  split; [exact Hfit |].
  apply (@round_trip_single_datagram crc64_ref lz4_ref meta_eq_ref codec_ref
           env0 sink44 (ramp 5) sink44_well_configured
           (lz4_off_defined sink44 (ramp 5) eq_refl) Hfit).
  intros st' hdr payload Hw. vm_compute in Hw.
  injection Hw as _ _ <-.
  constructor; [vm_compute; reflexivity | constructor].
Defined.

(** C4, counterexample: a frame of two complete blocks (22 samples in
    44-byte datagrams). The header announces one block, so the receiver
    returns a frame after the first payload datagram, in which the second
    half of the samples is missing. *)
Lemma round_trip_two_blocks_fails :
  exists st' datagrams,
    write_ref env0 sink44 (ramp 22) = Some (st', datagrams)
    /\ length datagrams = 3%nat
    /\ forallb (fun d => negb (@SDRdaemonBuffer.valid_header crc64_ref d))
               (tail datagrams) = true
    /\ snd (feed_ref (SDRdaemonBuffer.init (UDPSink.m_udpSize sink44)) datagrams)
       = [IQ_image (ramp 11) ++ repeat 0 44]
    /\ snd (feed_ref (SDRdaemonBuffer.init (UDPSink.m_udpSize sink44)) datagrams)
       <> [IQ_image (ramp 22)].
Proof.
  apply run_result. vm_compute.
  repeat split; try reflexivity. intro Heq. discriminate Heq.
Qed.

(** C5, witness: the sample count of Scenario A. *)
Lemma write_header_sample_count_scenario_A :
  well_configured sink1024 /\ lz4_defined sink1024 (ramp 2000)
  /\ Z.of_nat (length (ramp 2000)) / UDPSink.samplesPerBlock sink1024 < 2 ^ 16
  /\ exists st' datagrams,
      write_ref env0 sink1024 (ramp 2000) = Some (st', datagrams)
      /\ let m := sent_header datagrams in
         let bytesPerComponent := Z.land (MetaData.m_sampleBytes m) 15 in
         let samplesPerBlock := MetaData.m_blockSize m / (2 * bytesPerComponent) in
         MetaData.m_nbSamples m = Z.of_nat (length (ramp 2000))
         /\ MetaData.m_nbSamples m
            = MetaData.m_nbCompleteBlocks m * samplesPerBlock
              + MetaData.m_remainderSamples m.
Proof.
  split; [exact sink1024_well_configured |].
  split; [apply lz4_off_defined; reflexivity |].
  assert (Z.of_nat (length (ramp 2000)) / UDPSink.samplesPerBlock sink1024 < 2 ^ 16)
    as Hfew by (vm_compute; reflexivity).
  split; [exact Hfew |].
  exact (@write_header_sample_count crc64_ref lz4_ref meta_eq_ref
           env0 sink1024 (ramp 2000) sink1024_well_configured
           (lz4_off_defined sink1024 (ramp 2000) eq_refl) Hfew).
Defined.

(** C5, counterexample: 65536 blocks of 11 samples through a 44-byte sink.
    The 16-bit count of complete blocks wraps to 0, and the header no longer
    adds up to its sample count. *)
Lemma sample_count_wraps :
  exists st' datagrams,
    write_ref env0 sink44 (repeat (mkIQ 0 0) (Z.to_nat 720896))
    = Some (st', datagrams)
    /\ let m := sent_header datagrams in
       let bytesPerComponent := Z.land (MetaData.m_sampleBytes m) 15 in
       let samplesPerBlock := MetaData.m_blockSize m / (2 * bytesPerComponent) in
       samplesPerBlock = 11
       /\ MetaData.m_nbSamples m = 720896
       /\ MetaData.m_nbCompleteBlocks m = 0
       /\ MetaData.m_remainderSamples m = 0
       /\ MetaData.m_nbSamples m
          <> MetaData.m_nbCompleteBlocks m * samplesPerBlock
             + MetaData.m_remainderSamples m.
Proof.
  apply run_result. vm_compute.
  repeat split; try reflexivity. intro Heq. discriminate Heq.
Qed.

(** C6, witness: the checksum in the header of Scenario A. *)
Lemma write_header_checksum_scenario_A :
  well_configured sink1024 /\ lz4_defined sink1024 (ramp 2000)
  /\ exists st' hdr payload,
      write_ref env0 sink1024 (ramp 2000) = Some (st', hdr :: payload)
      /\ let m := MetaData.of_bytes hdr in
         let covered := take (Z.to_nat (MetaData.sizeof - 8)) hdr in
         take (Z.to_nat MetaData.sizeof) hdr = MetaData.to_bytes m
         /\ covered = MetaData.leading_bytes m
         /\ MetaData.m_crc m = u64 (@calculate_crc crc64_ref covered).
Proof.
  split; [exact sink1024_well_configured |].
  split; [apply lz4_off_defined; reflexivity |].
  exact (@write_header_checksum crc64_ref lz4_ref meta_eq_ref
           env0 sink1024 (ramp 2000) sink1024_well_configured
           (lz4_off_defined sink1024 (ramp 2000) eq_refl)).
Defined.

(** C7, witness: the datagram sizes of Scenario A. *)
Lemma write_datagram_size_scenario_A :
  well_configured sink1024 /\ lz4_defined sink1024 (ramp 2000)
  /\ exists st' datagrams,
      write_ref env0 sink1024 (ramp 2000) = Some (st', datagrams)
      /\ Forall (fun d => Z.of_nat (length d) = UDPSink.m_udpSize sink1024) datagrams.
Proof.
  split; [exact sink1024_well_configured |].
  split; [apply lz4_off_defined; reflexivity |].
  exact (@write_datagram_size crc64_ref lz4_ref meta_eq_ref
           env0 sink1024 (ramp 2000) sink1024_well_configured
           (lz4_off_defined sink1024 (ramp 2000) eq_refl)).
Defined.

(** C8, witness: two frames of 3 samples with LZ4 sizing on. The first
    call allocates the buffer; the second, offered another address, keeps
    it. *)
Lemma write_keeps_lz4_buffer_two_frames :
  exists st1 d1 st2 d2,
    write_ref env0 sink44_lz4 (ramp 3) = Some (st1, d1)
    /\ write_ref env1 st1 (ramp 3) = Some (st2, d2)
    /\ UDPSink.m_lz4Buffer sink44_lz4 = 0
    /\ UDPSink.m_lz4Buffer st1 = UDPSink.new_ptr env0
    /\ (length (ramp 3) = length (ramp 3) ->
        UDPSink.m_lz4Buffer st2 = UDPSink.m_lz4Buffer st1
        /\ UDPSink.m_lz4BufSize st2 = UDPSink.m_lz4BufSize st1)
    /\ (UDPSink.m_lz4Buffer st2 <> UDPSink.m_lz4Buffer st1
        \/ UDPSink.m_lz4BufSize st2 <> UDPSink.m_lz4BufSize st1 ->
        length (ramp 3) <> length (ramp 3)).
Proof.
  destruct (write_ref env0 sink44_lz4 (ramp 3)) as [[st1 d1] |] eqn:E1;
    [| vm_compute in E1; discriminate E1].
  destruct (write_ref env1 st1 (ramp 3)) as [[st2 d2] |] eqn:E2.
  - exists st1, d1, st2, d2.
    split; [reflexivity |]. split; [exact E2 |]. split; [reflexivity |].
    split.
    + vm_compute in E1. injection E1 as <- _. reflexivity.
    + exact (@write_keeps_lz4_buffer crc64_ref lz4_ref meta_eq_ref
               env0 env1 sink44_lz4 st1 st2 (ramp 3) (ramp 3) d1 d2 E1 E2).
  - exfalso. vm_compute in E1. injection E1 as <- _.
    vm_compute in E2. discriminate E2.
Defined.

(** A frame of another size moves the buffer: the guard is the only thing
    that keeps it in place. *)
Example write_resizes_lz4_buffer :
  exists st1 d1,
    write_ref env0 sink44_lz4 (ramp 3) = Some (st1, d1)
    /\ exists st2 d2,
        write_ref env1 st1 (ramp 4) = Some (st2, d2)
        /\ UDPSink.m_lz4Buffer st1 = 4096
        /\ UDPSink.m_lz4Buffer st2 = 8192.
Proof.
  apply run_result. vm_compute.
  match goal with
  | |- exists st2 d2, Some (?a, ?b) = Some (st2, d2) /\ _ => exists a, b
  end.
  repeat split; reflexivity.
Qed.

(** C9, witness: "freq=1000" on both devices. *)
Lemma configure_rejects_frequency_1000 :
  cfg_low_freq !! "freq"%string = Some "1000"%string
  /\ (@atoi libc_ref "1000" < 24000000 \/ 1800000000 < @atoi libc_ref "1000")
  /\ (exists a',
        @AirspySource.configure libc_ref airspy_ref cfg_low_freq airspy0
        = Some (a', false)
        /\ a' = AirspySource.set_m_error "Invalid frequency" airspy0
        /\ AirspySource.calls a' = AirspySource.calls airspy0
        /\ AirspySource.m_frequency a' = AirspySource.m_frequency airspy0
        /\ AirspySource.m_confFreq a' = AirspySource.m_confFreq airspy0
        /\ AirspySource.m_sampleRate a' = AirspySource.m_sampleRate airspy0)
  /\ (exists h',
        @AirspyHFSource.configure libc_ref airspyhf_ref cfg_low_freq airspyhf0
        = Some (h', false)
        /\ h' = AirspyHFSource.set_m_error "Invalid frequency" airspyhf0
        /\ AirspyHFSource.calls h' = AirspyHFSource.calls airspyhf0
        /\ AirspyHFSource.m_frequency h' = AirspyHFSource.m_frequency airspyhf0
        /\ AirspyHFSource.m_confFreq h' = AirspyHFSource.m_confFreq airspyhf0
        /\ AirspyHFSource.m_sampleRate h' = AirspyHFSource.m_sampleRate airspyhf0).
Proof.
  assert (cfg_low_freq !! "freq"%string = Some "1000"%string) as Hkey
    by (vm_compute; reflexivity).
  assert (@atoi libc_ref "1000" < 24000000 \/ 1800000000 < @atoi libc_ref "1000")
    as Hlow by (left; vm_compute; reflexivity).
  split; [exact Hkey |]. split; [exact Hlow |].
  exact (@configure_rejects_frequency libc_ref airspy_ref airspyhf_ref
           cfg_low_freq "1000" airspy0 airspyhf0 Hkey Hlow).
Defined.

(** C10, witness: "srate=123" on both devices. *)
Lemma configure_unknown_rate_123 :
  cfg_unknown_rate !! "srate"%string = Some "123"%string
  /\ ~ In (@atoi libc_ref "123") (AirspySource.m_srates airspy0)
  /\ ~ In (@atoi libc_ref "123") (AirspyHFSource.m_srates airspyhf0)
  /\ (exists x',
        @AirspySource.configure libc_ref airspy_ref cfg_unknown_rate airspy0
        = Some (x', false)
        /\ AirspySource.calls x' = AirspySource.calls airspy0
        /\ ((forall f, cfg_unknown_rate !! "freq"%string = Some f ->
                       24000000 <= @atoi libc_ref f <= 1800000000) ->
            strcasecmp_eq "123" "list" = false ->
            AirspySource.get_sample_rate x' = 0
            /\ AirspySource.m_error x' = "Invalid sample rate"%string))
  /\ (exists x',
        @AirspyHFSource.configure libc_ref airspyhf_ref cfg_unknown_rate airspyhf0
        = Some (x', false)
        /\ AirspyHFSource.calls x' = AirspyHFSource.calls airspyhf0
        /\ ((forall f, cfg_unknown_rate !! "freq"%string = Some f ->
                       24000000 <= @atoi libc_ref f <= 1800000000) ->
            strcasecmp_eq "123" "list" = false ->
            AirspyHFSource.get_sample_rate x' = 0
            /\ AirspyHFSource.m_error x' = "Invalid sample rate"%string)).
Proof.
  assert (cfg_unknown_rate !! "srate"%string = Some "123"%string) as Hkey
    by (vm_compute; reflexivity).
  assert (~ In (@atoi libc_ref "123") (AirspySource.m_srates airspy0)) as Ha.
  { vm_compute. intros [Hx | [Hx | []]]; discriminate Hx. }
  assert (~ In (@atoi libc_ref "123") (AirspyHFSource.m_srates airspyhf0)) as Hh.
  { vm_compute. intros [Hx | []]; discriminate Hx. }
  split; [exact Hkey |]. split; [exact Ha |]. split; [exact Hh |].
  exact (@configure_unknown_rate_zeroes libc_ref airspy_ref airspyhf_ref
           cfg_unknown_rate "123" airspy0 airspyhf0 Hkey Ha Hh).
Defined.

(** With "srate=123" alone the stored sample rate is 0 afterwards. *)
Example unknown_rate_zeroes_sample_rate :
  exists a',
    @AirspySource.configure libc_ref airspy_ref cfg_unknown_rate airspy0
    = Some (a', false)
    /\ AirspySource.m_sampleRate airspy0 = 10000000
    /\ AirspySource.get_sample_rate a' = 0.
Proof.
  apply run_refused. vm_compute. split; reflexivity.
Qed.

(** C10, counterexample: "freq=1000 srate=123". The sample rate 123 is
    not supported, yet [configure] leaves on the frequency test and the
    stored sample rate is still the one configured before, not 0. *)
Lemma low_frequency_keeps_sample_rate :
  cfg_low_freq_unknown_rate !! "srate"%string = Some "123"%string
  /\ ~ In (@atoi libc_ref "123") (AirspySource.m_srates airspy0)
  /\ ~ In (@atoi libc_ref "123") (AirspyHFSource.m_srates airspyhf0)
  /\ (exists a',
        @AirspySource.configure libc_ref airspy_ref cfg_low_freq_unknown_rate airspy0
        = Some (a', false)
        /\ AirspySource.get_sample_rate a' = 10000000
        /\ AirspySource.get_sample_rate a' <> 0)
  /\ (exists h',
        @AirspyHFSource.configure libc_ref airspyhf_ref cfg_low_freq_unknown_rate
          airspyhf0
        = Some (h', false)
        /\ AirspyHFSource.get_sample_rate h' = 768000
        /\ AirspyHFSource.get_sample_rate h' <> 0).
Proof.
  split; [vm_compute; reflexivity |].
  split; [vm_compute; intros [Hx | [Hx | []]]; discriminate Hx |].
  split; [vm_compute; intros [Hx | []]; discriminate Hx |].
  split.
  - apply run_refused. vm_compute.
    split; [reflexivity | intro Hx; discriminate Hx].
  - apply run_refused. vm_compute.
    split; [reflexivity | intro Hx; discriminate Hx].
Qed.

(** Asking for the list of rates ("srate=List") also returns [false] with
    the sample rate untouched. *)
Example rate_list_keeps_sample_rate :
  exists a',
    @AirspySource.configure libc_ref airspy_ref cfg_rate_list airspy0
    = Some (a', false)
    /\ AirspySource.get_sample_rate a' = 10000000
    /\ AirspySource.m_error a'
       = "Available sample rates (Hz): 10000000 2500000 "%string.
Proof.
  apply run_refused. vm_compute. split; reflexivity.
Qed.

(** * Further properties of the code *)

(** ** More on [UDPSink::write] and [UDPSink::setLZ4MinInputSize] *)

Section SinkFurther.
Context `{CRC64} `{LZ4} `{MetaDataEq}.
Implicit Types (st : UDPSink.t) (env : UDPSink.Env).
Implicit Types (samples_in : list IQSample).

(** The header built is the one of [fill_meta], with some checksum. *)
Lemma build_meta_inv env st size (m : MetaData.t) (buf : list Z) :
  UDPSink.build_meta env st size = Some (m, buf) ->
  exists c, m = MetaData.set_crc (UDPSink.fill_meta env st size) c.
Proof.
  unfold UDPSink.build_meta.
  destruct (2 * UDPSink.m_sampleBytes st =? 0); [discriminate |].
  destruct (UDPSink.samplesPerBlock st =? 0); [discriminate |].
  cbv zeta.
  destruct (write_bytes (UDPSink.m_bufMeta st) 0 _) as [b1 |]; [| discriminate].
  cbn [mbind option_bind].
  destruct (read_bytes b1 0 _) as [pre |]; [| discriminate].
  cbn [mbind option_bind].
  destruct (write_bytes b1 _ _) as [b2 |]; [| discriminate].
  cbn [mbind option_bind]. intros [= <- _]. eexists. reflexivity.
Qed.

(** A call that completes went through each of its stages. *)
Lemma write_inv env st samples_in st' (datagrams : list (list Z)) :
  UDPSink.write env st samples_in = Some (st', datagrams) ->
  exists m bufMeta hdr blocks buf last,
    UDPSink.build_meta env st (Z.of_nat (length samples_in)) = Some (m, bufMeta)
    /\ UDPSink.resize_lz4 env st m
       = Some (UDPSink.m_nbSamples st', UDPSink.m_lz4BufSize st',
               UDPSink.m_lz4Buffer st', UDPSink.lz4_deleted st')
    /\ UDPSink.SendDataGram st bufMeta 0 = Some hdr
    /\ UDPSink.send_complete_blocks st m samples_in = Some blocks
    /\ UDPSink.send_remainder st m samples_in = Some (buf, last)
    /\ datagrams = hdr :: blocks ++ last
    /\ UDPSink.m_lz4MinInputSize st' = UDPSink.m_lz4MinInputSize st
    /\ UDPSink.m_bufMeta st' = bufMeta
    /\ UDPSink.m_buf st' = buf.
Proof.
  unfold UDPSink.write. intros Hw.
  destruct (UDPSink.build_meta env st _) as [[m bufMeta] |] eqn:Hm; [| discriminate].
  cbn [mbind option_bind] in Hw.
  destruct (UDPSink.resize_lz4 env st m) as [[[[n size] ptr] del] |] eqn:Hlz;
    [| discriminate].
  cbn [mbind option_bind] in Hw.
  destruct (UDPSink.SendDataGram st bufMeta 0) as [hdr |] eqn:Hh; [| discriminate].
  cbn [mbind option_bind] in Hw.
  destruct (UDPSink.send_complete_blocks st m samples_in) as [blocks |] eqn:Hb;
    [| discriminate].
  cbn [mbind option_bind] in Hw.
  destruct (UDPSink.send_remainder st m samples_in) as [[buf last] |] eqn:Hl;
    [| discriminate].
  cbn [mbind option_bind] in Hw. injection Hw as <- <-.
  exists m, bufMeta, hdr, blocks, buf, last. cbn. auto 10.
Qed.

(** X1. An empty vector is sent as the header datagram alone, with zero
    samples, zero complete blocks and zero remainder; [m_buf] is not
    touched. *)
Theorem write_empty_frame env st :
  well_configured st -> lz4_defined st [] ->
  exists st' hdr,
    UDPSink.write env st [] = Some (st', [hdr])
    /\ MetaData.m_nbSamples (MetaData.of_bytes hdr) = 0
    /\ MetaData.m_nbCompleteBlocks (MetaData.of_bytes hdr) = 0
    /\ MetaData.m_remainderSamples (MetaData.of_bytes hdr) = 0
    /\ UDPSink.m_buf st' = UDPSink.m_buf st.
Proof.
  intros Hwf Hdef.
  destruct (write_ok env st [] Hwf Hdef) as (st' & Hw & _ & _ & _ & _ & Hbuf).
  cbv zeta in Hw, Hbuf. cbn [length] in Hw, Hbuf.
  destruct (header_of_fields env st 0 Hwf ltac:(lia))
    as (_ & _ & _ & Hns & Hrem & Hcbc & _).
  destruct (samplesPerBlock_well_configured st Hwf) as (_ & Hspb & _).
  rewrite Z.mod_0_l in Hrem by lia.
  rewrite Z.div_0_l in Hcbc by lia.
  change (Z.of_nat 0) with 0 in Hw, Hbuf.
  change (u16 0) with 0 in Hcbc. change (u32 0) with 0 in Hns.
  rewrite Hrem, Hcbc in Hw. rewrite Hrem in Hbuf.
  rewrite seqZ_nil in Hw by lia.
  change (0 <? 0) with false in Hw, Hbuf. cbn [fmap list_fmap app] in Hw.
  eexists st', _. split; [exact Hw |].
  rewrite of_bytes_to_bytes by apply header_of_in_range.
  rewrite Hns, Hcbc, Hrem. auto.
Qed.

(** The first [k] complete blocks, one after the other, are the first
    [k * spb] samples of the vector. *)
(** X2. For a frame of fewer than 65536 complete blocks, the payload
    datagrams carry every sample exactly once and in order: the complete
    blocks followed by the first [m_remainderSamples] samples of the last
    datagram are the vector as it is stored. *)
Theorem write_payload_carries_frame env st samples_in :
  well_configured st -> lz4_defined st samples_in ->
  Z.of_nat (length samples_in) / UDPSink.samplesPerBlock st < 2 ^ 16 ->
  exists st' hdr blocks last,
    UDPSink.write env st samples_in = Some (st', hdr :: blocks ++ last)
    /\ Z.of_nat (length blocks) = MetaData.m_nbCompleteBlocks (MetaData.of_bytes hdr)
    /\ concat blocks
       ++ take (Z.to_nat (sizeof_IQSample
                          * MetaData.m_remainderSamples (MetaData.of_bytes hdr)))
               (concat last)
       = IQ_image samples_in.
Proof.
  intros Hwf Hdef Hfew.
  destruct (write_ok env st samples_in Hwf Hdef) as (st' & Hw & _).
  cbv zeta in Hw. eexists st', _, _, _. split; [exact Hw |].
  rewrite of_bytes_to_bytes by apply header_of_in_range.
  set (m := header_of env st (Z.of_nat (length samples_in))) in *.
  set (spb := UDPSink.samplesPerBlock st) in *.
  set (n := Z.of_nat (length samples_in)) in *.
  destruct (header_of_fields env st n Hwf ltac:(lia))
    as (_ & _ & _ & _ & Hrem & Hcbc & _).
  fold m spb in Hrem, Hcbc.
  destruct (samplesPerBlock_well_configured st Hwf) as (_ & Hspb & _).
  fold spb in Hspb.
  assert (0 <= n / spb) as Hq by (apply Z.div_pos; lia).
  pose proof (Z.div_mod n spb ltac:(lia)) as Hdm.
  pose proof (Z.mod_pos_bound n spb ltac:(lia)) as Hr.
  rewrite u16_small in Hcbc by lia.
  split; [rewrite length_fmap, length_seqZ; lia |].
  rewrite Hcbc, Hrem.
  rewrite <- (Z2Nat.id (n / spb)) at 1 by lia.
  rewrite concat_blocks by lia.
  assert (take (Z.to_nat (n / spb) * Z.to_nat spb) samples_in
          ++ slice samples_in (n / spb * spb) (n mod spb) = samples_in) as Hall.
  { unfold slice.
    replace (Z.to_nat (n / spb * spb)) with (Z.to_nat (n / spb) * Z.to_nat spb)%nat
      by nia.
    rewrite (take_ge (drop _ _)) by (rewrite length_drop; nia).
    apply take_drop. }
  destruct (Z.ltb_spec 0 (n mod spb)) as [Hpos | Hzero].
  - cbn [concat]. rewrite app_nil_r.
    rewrite take_app_length'.
    + rewrite <- IQ_image_app, Hall. reflexivity.
    + rewrite length_IQ_image. unfold slice, sizeof_IQSample.
      rewrite length_take, length_drop. nia.
  - cbn [concat]. rewrite take_nil, app_nil_r.
    rewrite <- Hall at 2.
    replace (n mod spb) with 0 by lia. unfold slice.
    change (Z.to_nat 0) with 0%nat. rewrite take_0, app_nil_r. reflexivity.
Qed.

(** X3. Whatever the sink and the vector, a call that completes sends at
    most 65537 datagrams: the header, at most 65535 complete blocks (their
    count is a 16-bit field) and at most one remainder. *)
Theorem write_datagram_count_bounded env st samples_in st'
    (datagrams : list (list Z)) :
  UDPSink.write env st samples_in = Some (st', datagrams) ->
  Z.of_nat (length datagrams) <= 65537.
Proof.
  intros Hw.
  destruct (write_inv _ _ _ _ _ Hw)
    as (m & bufMeta & hdr & blocks & buf & last
        & Hm & _ & _ & Hb & Hl & -> & _).
  destruct (build_meta_inv _ _ _ _ _ Hm) as (c & ->).
  unfold UDPSink.send_complete_blocks in Hb. apply length_mapM in Hb.
  rewrite length_seqZ in Hb. cbn in Hb.
  pose proof (u16_range (Z.of_nat (length samples_in) / UDPSink.samplesPerBlock st))
    as Hc.
  assert (length last <= 1)%nat as Hlast.
  { unfold UDPSink.send_remainder in Hl.
    destruct (0 <? _).
    - destruct (INT_MAX <? _); [discriminate |].
      destruct (read_bytes (IQ_image samples_in) _ _) as [src |]; [| discriminate].
      cbn [mbind option_bind] in Hl.
      destruct (write_bytes (UDPSink.m_buf st) 0 src) as [b |]; [| discriminate].
      cbn [mbind option_bind] in Hl.
      destruct (UDPSink.SendDataGram st b 0) as [dg |]; [| discriminate].
      cbn [mbind option_bind] in Hl. injection Hl as _ <-. cbn. lia.
    - injection Hl as _ <-. cbn. lia. }
  cbn [length]. rewrite length_app. lia.
Qed.

(** X4. The header datagram is the 42-byte record followed by the bytes
    [m_bufMeta] already held from offset 42 on: the call never writes them,
    and [m_bufMeta] afterwards is the datagram sent. *)
Theorem write_header_padding env st samples_in :
  well_configured st -> lz4_defined st samples_in ->
  exists st' hdr payload,
    UDPSink.write env st samples_in = Some (st', hdr :: payload)
    /\ drop (Z.to_nat MetaData.sizeof) hdr
       = drop (Z.to_nat MetaData.sizeof) (UDPSink.m_bufMeta st)
    /\ UDPSink.m_bufMeta st' = hdr.
Proof.
  intros Hwf Hdef.
  destruct (write_ok env st samples_in Hwf Hdef)
    as (st' & Hw & _ & _ & _ & Hmeta & _).
  cbv zeta in Hw, Hmeta. eexists st', _, _. split; [exact Hw |].
  split; [| exact Hmeta].
  change (Z.to_nat MetaData.sizeof) with 42%nat.
  apply drop_app_length'. reflexivity.
Qed.

(** X5. With LZ4 sizing off ([m_lz4MinInputSize] zero), no call changes
    [m_lz4Buffer] or [m_lz4BufSize], whatever the frame sizes. *)
Theorem write_without_lz4_keeps_buffer env st samples_in st'
    (datagrams : list (list Z)) :
  UDPSink.m_lz4MinInputSize st <= 0 ->
  UDPSink.write env st samples_in = Some (st', datagrams) ->
  UDPSink.m_lz4Buffer st' = UDPSink.m_lz4Buffer st
  /\ UDPSink.m_lz4BufSize st' = UDPSink.m_lz4BufSize st
  /\ UDPSink.m_lz4MinInputSize st' = UDPSink.m_lz4MinInputSize st.
Proof.
  intros Hoff Hw.
  destruct (write_inv _ _ _ _ _ Hw)
    as (m & bufMeta & hdr & blocks & buf & last & _ & Hlz & _ & _ & _ & _ & Hmin & _).
  unfold UDPSink.resize_lz4 in Hlz.
  destruct (negb _).
  - destruct (Z.ltb_spec 0 (UDPSink.m_lz4MinInputSize st)); [lia |].
    injection Hlz as _ <- <- _. auto.
  - injection Hlz as _ <- <- _. auto.
Qed.

(** X6. With LZ4 sizing on, a call whose frame size differs from the
    recorded one takes a new buffer, sized by [LZ4_compressBound] for a
    whole number of frames: the least multiple of the frame's byte count
    above [m_lz4MinInputSize]. *)
Theorem write_resizes_lz4_buffer_to_frames env st samples_in st'
    (datagrams : list (list Z)) :
  let bytesPerFrame :=
    u32 (u32 (Z.of_nat (length samples_in)) * 2 * UDPSink.m_sampleBytes st) in
  UDPSink.write env st samples_in = Some (st', datagrams) ->
  0 < UDPSink.m_lz4MinInputSize st ->
  u32 (Z.of_nat (length samples_in)) <> UDPSink.m_nbSamples st ->
  UDPSink.m_lz4MinInputSize st + bytesPerFrame < 2 ^ 31 ->
  UDPSink.m_lz4Buffer st' = UDPSink.new_ptr env
  /\ exists size,
      UDPSink.m_lz4BufSize st' = LZ4_compressBound size
      /\ size mod bytesPerFrame = 0
      /\ UDPSink.m_lz4MinInputSize st < size
         <= UDPSink.m_lz4MinInputSize st + bytesPerFrame.
Proof.
  intros bpf Hw Hon Hne Hsmall.
  destruct (write_inv _ _ _ _ _ Hw)
    as (m & bufMeta & hdr & blocks & buf & last & Hm & Hlz & _).
  apply build_meta_nbSamples in Hm.
  unfold UDPSink.resize_lz4 in Hlz. rewrite Hm in Hlz. fold bpf in Hlz.
  destruct (Z.eqb_spec (u32 (Z.of_nat (length samples_in))) (UDPSink.m_nbSamples st));
    [contradiction |].
  cbn [negb] in Hlz.
  destruct (Z.ltb_spec 0 (UDPSink.m_lz4MinInputSize st)); [| lia].
  destruct (Z.eqb_spec bpf 0) as [| Hnz]; [discriminate |].
  destruct (UDPSink.dangling st); [discriminate |].
  injection Hlz as _ <- <- _. split; [reflexivity |].
  pose proof (u32_range (u32 (Z.of_nat (length samples_in)) * 2
                         * UDPSink.m_sampleBytes st)) as Hb.
  fold bpf in Hb.
  set (min := UDPSink.m_lz4MinInputSize st) in *.
  pose proof (Z.div_mod min bpf Hnz) as Hdm.
  pose proof (Z.mod_pos_bound min bpf ltac:(lia)) as Hr.
  assert (0 <= min / bpf) as Hq by (apply Z.div_pos; lia).
  exists ((min / bpf + 1) * bpf).
  split; [| split].
  - f_equal. unfold u64. rewrite Z.mod_small by nia.
    rewrite u32_small by nia. apply s32_small. nia.
  - apply Z.mod_mul. exact Hnz.
  - nia.
Qed.

(** X7. On a well configured sink the call is defined exactly when the
    sizing of the LZ4 buffer is: it is undefined when LZ4 sizing is on, the
    frame size is not the recorded one, and either the frame's byte count
    is 0 (an empty frame, for one: division by zero) or [m_lz4Buffer]
    points to an array that [setLZ4MinInputSize(0)] has deleted (it is
    deleted a second time). *)
Theorem write_defined_iff env st samples_in :
  well_configured st ->
  is_Some (UDPSink.write env st samples_in) <-> lz4_defined st samples_in.
Proof.
  intros Hwf. split.
  - intros [[st' datagrams] Hw].
    destruct (write_inv _ _ _ _ _ Hw)
      as (m & bufMeta & hdr & blocks & buf & last & Hm & Hlz & _).
    apply build_meta_nbSamples in Hm.
    unfold UDPSink.resize_lz4 in Hlz. rewrite Hm in Hlz.
    unfold lz4_defined.
    destruct (Z.eqb_spec (u32 (Z.of_nat (length samples_in))) (UDPSink.m_nbSamples st))
      as [He | Hne]; [right; left; exact He |].
    cbn [negb] in Hlz.
    destruct (Z.ltb_spec 0 (UDPSink.m_lz4MinInputSize st)) as [Hon | Hoff];
      [| left; exact Hoff].
    destruct (Z.eqb_spec
                (u32 (u32 (Z.of_nat (length samples_in)) * 2 * UDPSink.m_sampleBytes st))
                0) as [| Hnz]; [discriminate |].
    destruct (UDPSink.dangling st); [discriminate |].
    right; right. split; [exact Hnz | reflexivity].
  - intros Hdef. destruct (write_ok env st samples_in Hwf Hdef) as (st' & Hw & _).
    eexists. exact Hw.
Qed.

(** X8. [setLZ4MinInputSize] between two frames of the same size: the
    second call still leaves the buffer alone. Turning LZ4 sizing on in the
    middle of a stream of equal frames allocates nothing; turning it off
    resets the size only: the pointer member keeps its value, and when it
    is not null the array it points to is deleted from then on. *)
Theorem setLZ4MinInputSize_between_equal_frames env1 env2 st st1 st1' st2
    (samples1 samples2 : list IQSample) (d1 d2 : list (list Z)) (k : Z) :
  UDPSink.write env1 st samples1 = Some (st1, d1) ->
  UDPSink.setLZ4MinInputSize st1 k = Some st1' ->
  UDPSink.write env2 st1' samples2 = Some (st2, d2) ->
  length samples2 = length samples1 ->
  UDPSink.m_lz4Buffer st2 = UDPSink.m_lz4Buffer st1
  /\ UDPSink.m_lz4BufSize st2 = (if k =? 0 then 0 else UDPSink.m_lz4BufSize st1)
  /\ UDPSink.m_lz4MinInputSize st2 = k
  /\ UDPSink.lz4_deleted st2
     = (if k =? 0 then negb (UDPSink.m_lz4Buffer st1 =? 0)
        else UDPSink.lz4_deleted st1).
Proof.
  intros Hw1 Hset Hw2 Hlen.
  unfold UDPSink.setLZ4MinInputSize in Hset.
  destruct ((k =? 0) && UDPSink.dangling st1); [discriminate |].
  injection Hset as <-.
  destruct (write_lz4 _ _ _ _ _ Hw1) as (Hn1 & _).
  destruct (write_lz4 _ _ _ _ _ Hw2) as (_ & Hsame).
  destruct (write_inv _ _ _ _ _ Hw2)
    as (m & bufMeta & hdr & blocks & buf & last & Hm & Hlz & _ & _ & _ & _ & Hmin & _).
  apply build_meta_nbSamples in Hm.
  rewrite resize_lz4_same in Hlz by (cbn; rewrite Hm, Hn1, Hlen; reflexivity).
  injection Hlz as _ _ _ Hdel.
  destruct Hsame as (Hb & Hs).
  { cbn. rewrite Hn1, Hlen. reflexivity. }
  cbn in Hb, Hs, Hmin, Hdel. auto.
Qed.

(** X9. A well configured sink with LZ4 sizing off accepts every vector and
    is still such a sink afterwards: any number of calls can follow one
    another. *)
Theorem write_keeps_sink_usable env st samples_in :
  well_configured st -> UDPSink.m_lz4MinInputSize st = 0 ->
  exists st' datagrams,
    UDPSink.write env st samples_in = Some (st', datagrams)
    /\ well_configured st'
    /\ UDPSink.m_lz4MinInputSize st' = 0.
Proof.
  intros Hwf Hoff.
  destruct (write_ok env st samples_in Hwf (lz4_off_defined _ _ Hoff))
    as (st' & Hw & _).
  eexists st', _. split; [exact Hw |]. split.
  - eapply write_preserves_well_configured; [exact Hwf | exact Hw].
  - destruct (write_preserves_configuration _ _ _ _ _ Hw) as (_ & _ & Hmin & _).
    congruence.
Qed.

End SinkFurther.

(** ** The layout of the header *)

Lemma le_bytes_le_value (l : list Z) :
  Forall (fun b => 0 <= b < 256) l -> le_bytes (length l) (le_value l) = l.
Proof.
  induction 1 as [| b l Hb _ IH]; [reflexivity |].
  cbn [length le_bytes le_value].
  rewrite (Z.mul_comm 256 (le_value l)).
  rewrite Z.mod_add, Z.div_add by lia.
  rewrite Z.mod_small, Z.div_small by lia.
  rewrite Z.add_0_l, IH. reflexivity.
Qed.

Lemma le_bytes_field (bs : list Z) (off len : nat) :
  Forall (fun b => 0 <= b < 256) bs -> (off + len <= length bs)%nat ->
  le_bytes len (MetaData.field bs off len) = take len (drop off bs).
Proof.
  intros Hall Hlen. unfold MetaData.field.
  rewrite <- (le_bytes_le_value (take len (drop off bs))) at 2.
  - rewrite length_take, length_drop. f_equal. lia.
  - apply Forall_take, Forall_drop, Hall.
Qed.

(** X10. The twelve fields of the packed header cover its 42 bytes exactly
    once: a header stored in a buffer is read back unchanged whatever
    follows it, and the first 42 bytes of any buffer, read as a header and
    stored again, are the same 42 bytes. *)
Theorem header_layout_round_trip (m : MetaData.t) (rest bs : list Z) :
  header_in_range m ->
  Forall (fun b => 0 <= b < 256) bs ->
  MetaData.sizeof <= Z.of_nat (length bs) ->
  MetaData.of_bytes (MetaData.to_bytes m ++ rest) = m
  /\ Z.of_nat (length (MetaData.to_bytes m)) = MetaData.sizeof
  /\ MetaData.to_bytes (MetaData.of_bytes bs) = take (Z.to_nat MetaData.sizeof) bs.
Proof.
  intros Hm Hall Hlen. change MetaData.sizeof with 42 in *.
  split; [apply of_bytes_to_bytes; exact Hm |].
  split; [reflexivity |].
  unfold MetaData.to_bytes, MetaData.leading_bytes, MetaData.of_bytes.
  cbn [MetaData.m_centerFrequency MetaData.m_sampleRate MetaData.m_sampleBytes
       MetaData.m_sampleBits MetaData.m_blockSize MetaData.m_nbSamples
       MetaData.m_nbBlocks MetaData.m_remainderSamples MetaData.m_nbCompleteBlocks
       MetaData.m_tv_sec MetaData.m_tv_usec MetaData.m_crc].
  rewrite !le_bytes_field by (try exact Hall; lia).
  rewrite drop_0. change (Z.to_nat 42) with 42%nat.
  rewrite <- !app_assoc.
  repeat (rewrite take_take_drop; cbn [Nat.add]).
  rewrite !app_assoc.
  repeat (rewrite take_take_drop; cbn [Nat.add]).
  reflexivity.
Qed.

(** ** The sink with the sample width of its constructor *)

Section SinkConstructed.
Context `{CRC64} `{LZ4} `{MetaDataEq}.
Implicit Types (st : UDPSink.t) (env : UDPSink.Env).
Implicit Types (samples_in : list IQSample).

Lemma init_as_constructed (udpSize : Z) (g1 g2 : list Z) :
  MetaData.sizeof <= udpSize <= 65535 -> udpSize mod 4 = 0 ->
  Z.of_nat (length g1) = udpSize -> Z.of_nat (length g2) = udpSize ->
  as_constructed (UDPSink.init udpSize g1 g2).
Proof.
  intros Hu Hm Hl1 Hl2. unfold as_constructed, UDPSink.init.
  cbn [UDPSink.m_sampleBytes UDPSink.m_lz4MinInputSize UDPSink.m_udpSize
       UDPSink.m_bufMeta UDPSink.m_buf].
  repeat split; try assumption; try reflexivity; lia.
Qed.


End SinkConstructed.

(** ** More on the configuration of the device sources *)

Section ConfigureFurther.
Context `{Libc} `{AirspySource.Device} `{AirspyHFSource.Device}.

Lemma text_not_empty (a b : string) : a <> ""%string -> (a +:+ b)%string <> ""%string.
Proof. destruct a; [congruence | discriminate]. Qed.

Lemma contains_In (x : Z) (l : list Z) : contains x l = true <-> In x l.
Proof.
  unfold contains. rewrite existsb_exists. split.
  - intros (y & Hy & He). apply Z.eqb_eq in He. subst y. exact Hy.
  - intros Hin. exists x. split; [exact Hin | apply Z.eqb_refl].
Qed.

Lemma parse_bind_Continue {S A B} (p : parse S A) (k : A -> parse S B) (r : B) :
  p ≫= k = Continue r -> exists a, p = Continue a /\ k a = Continue r.
Proof.
  destruct p as [f | a]; cbn [mbind parse_mbind parse_bind]; [discriminate |].
  intros Hk. exists a. split; [reflexivity | exact Hk].
Qed.

(** *** The Airspy: reading the map *)

Lemma airspy_same_refl (s : AirspySource.t) : airspy_same s s.
Proof. unfold airspy_same. auto. Qed.

Lemma airspy_parsed_trans (s s1 : AirspySource.t)
    (r : parse AirspySource.t (AirspySource.t * AirspySource.locals)) :
  airspy_same s s1 -> airspy_parsed s1 r -> airspy_parsed s r.
Proof.
  intros (E1 & E2 & E3 & E4). destruct r as [f | [s2 l2]]; cbn.
  - intros (F1 & F2 & F3). repeat split; congruence.
  - intros (F1 & F2 & F3 & F4). unfold airspy_same. repeat split; congruence.
Qed.

Lemma airspy_parsed_bind (s : AirspySource.t)
    (p : parse AirspySource.t (AirspySource.t * AirspySource.locals))
    (k : AirspySource.t * AirspySource.locals
         -> parse AirspySource.t (AirspySource.t * AirspySource.locals)) :
  airspy_parsed s p ->
  (forall s1 l1, airspy_same s s1 -> airspy_parsed s1 (k (s1, l1))) ->
  airspy_parsed s (p ≫= k).
Proof.
  destruct p as [f | [s1 l1]]; cbn [mbind parse_mbind parse_bind].
  - intros Hf _. exact Hf.
  - intros Hsame Hk. eapply airspy_parsed_trans; [exact Hsame | apply Hk, Hsame].
Qed.

Ltac airspy_fields s :=
  destruct s; unfold airspy_same; cbn;
  repeat split; try reflexivity; try discriminate;
  try (apply text_not_empty; discriminate).

Lemma airspy_key_freq_parsed m (s : AirspySource.t) l :
  airspy_parsed s (AirspySource.key_freq m (s, l)).
Proof.
  unfold AirspySource.key_freq. destruct (m !! "freq"%string) as [v |].
  - destruct (_ || _).
    + airspy_fields s.
    + destruct l. apply airspy_same_refl.
  - apply airspy_same_refl.
Qed.

Lemma airspy_key_srate_parsed m (s : AirspySource.t) l :
  airspy_parsed s (AirspySource.key_srate m (s, l)).
Proof.
  unfold AirspySource.key_srate. destruct (m !! "srate"%string) as [v |].
  - destruct (strcasecmp_eq v "list").
    + airspy_fields s.
    + destruct (find_rate _ _ 0) as [i |].
      * destruct l. airspy_fields s.
      * airspy_fields s.
  - apply airspy_same_refl.
Qed.

Lemma airspy_key_gain_parsed key gains listed unsupported store bit m
    (s : AirspySource.t) l :
  listed <> ""%string -> unsupported <> ""%string ->
  airspy_parsed s
    (AirspySource.key_gain key gains listed unsupported store bit m (s, l)).
Proof.
  intros Hl Hu. unfold AirspySource.key_gain. destruct (m !! key) as [v |].
  - destruct (strcasecmp_eq v "list").
    + destruct s; cbn; auto.
    + destruct (negb _).
      * destruct s; cbn; auto.
      * apply airspy_same_refl.
  - apply airspy_same_refl.
Qed.

Lemma airspy_key_switch_parsed key store bit m (s : AirspySource.t) l :
  airspy_parsed s (AirspySource.key_switch key store bit m (s, l)).
Proof.
  unfold AirspySource.key_switch.
  destruct (m !! key); apply airspy_same_refl.
Qed.

Lemma airspy_key_ppm_parsed m (s : AirspySource.t) l :
  airspy_parsed s (AirspySource.key_ppm m (s, l)).
Proof.
  unfold AirspySource.key_ppm.
  destruct (m !! "ppmp"%string) as [v |].
  - destruct (strtod_ok v); [airspy_fields s | apply airspy_same_refl].
  - destruct (m !! "ppmn"%string) as [v |]; [| apply airspy_same_refl].
    destruct (strtod_ok v); [airspy_fields s | apply airspy_same_refl].
Qed.

Lemma airspy_key_fcpos_parsed m (s : AirspySource.t) l :
  airspy_parsed s (AirspySource.key_fcpos m (s, l)).
Proof.
  unfold AirspySource.key_fcpos. destruct (m !! "fcpos"%string) as [v |].
  - destruct (_ || _).
    + airspy_fields s.
    + destruct l. airspy_fields s.
  - apply airspy_same_refl.
Qed.

Lemma airspy_key_decim_parsed m (s : AirspySource.t) l :
  airspy_parsed s (AirspySource.key_decim m (s, l)).
Proof.
  unfold AirspySource.key_decim. destruct (m !! "decim"%string) as [v |].
  - destruct (_ || _); airspy_fields s.
  - apply airspy_same_refl.
Qed.

(** Reading the map never calls the device; a refusal leaves an error
    text. *)
Lemma airspy_read_keys_parsed m (s : AirspySource.t) :
  airspy_parsed s (AirspySource.read_keys m s).
Proof.
  unfold AirspySource.read_keys. cbv zeta.
  apply airspy_parsed_bind; [apply airspy_key_freq_parsed | intros s1 l1 _].
  apply airspy_parsed_bind; [apply airspy_key_srate_parsed | intros s2 l2 _].
  apply airspy_parsed_bind;
    [apply airspy_key_gain_parsed; apply text_not_empty; discriminate
    | intros s3 l3 _].
  apply airspy_parsed_bind;
    [apply airspy_key_gain_parsed; apply text_not_empty; discriminate
    | intros s4 l4 _].
  apply airspy_parsed_bind;
    [apply airspy_key_gain_parsed; apply text_not_empty; discriminate
    | intros s5 l5 _].
  apply airspy_parsed_bind; [apply airspy_key_switch_parsed | intros s6 l6 _].
  apply airspy_parsed_bind; [apply airspy_key_switch_parsed | intros s7 l7 _].
  apply airspy_parsed_bind; [apply airspy_key_switch_parsed | intros s8 l8 _].
  apply airspy_parsed_bind; [apply airspy_key_ppm_parsed | intros s9 l9 _].
  apply airspy_parsed_bind; [apply airspy_key_fcpos_parsed | intros s10 l10 _].
  apply airspy_key_decim_parsed.
Qed.

(** *** The Airspy: the device settings *)

Lemma all_succeeded_app (hist a b : list AirspySource.call) :
  AirspySource.all_succeeded hist (a ++ b)
  = AirspySource.all_succeeded hist a
    && AirspySource.all_succeeded (hist ++ a) b.
Proof.
  revert hist. induction a as [| c a IH]; intros hist; cbn.
  - rewrite app_nil_r. reflexivity.
  - rewrite IH, <- app_assoc, andb_assoc. reflexivity.
Qed.

Lemma airspy_traced_refl (s : AirspySource.t) : airspy_traced s (Continue s).
Proof.
  exists []. rewrite app_nil_r. cbn. auto.
Qed.

Lemma airspy_traced_trans (s s1 : AirspySource.t)
    (r : parse AirspySource.t AirspySource.t) :
  airspy_traced s (Continue s1) -> airspy_traced s1 r -> airspy_traced s r.
Proof.
  intros (new1 & C1 & A1 & E1 & R1). destruct r as [f | s2]; cbn.
  - intros (done & c & C2 & A2 & F2 & E2).
    exists (new1 ++ done), c. rewrite C1 in C2, A2, F2.
    rewrite C2, all_succeeded_app, A1, A2, <- !app_assoc.
    rewrite <- app_assoc in F2. auto.
  - intros (new2 & C2 & A2 & E2 & R2).
    exists (new1 ++ new2). rewrite C1 in C2, A2.
    rewrite C2, all_succeeded_app, A1, A2, <- app_assoc.
    repeat split; congruence.
Qed.

Lemma airspy_traced_bind (s : AirspySource.t)
    (p : parse AirspySource.t AirspySource.t)
    (k : AirspySource.t -> parse AirspySource.t AirspySource.t) :
  airspy_traced s p -> (forall s1, airspy_traced s1 (k s1)) ->
  airspy_traced s (p ≫= k).
Proof.
  destruct p as [f | s1]; cbn [mbind parse_mbind parse_bind].
  - intros Hf _. exact Hf.
  - intros H1' Hk. eapply airspy_traced_trans; [exact H1' | apply Hk].
Qed.

(** One block of [configure(flags, ...)]: at most one call, and a refusal
    sets an error text. *)
Lemma airspy_setting_traced on assign c err (s : AirspySource.t) :
  (forall x, AirspySource.calls (assign x) = AirspySource.calls x
             /\ AirspySource.m_error (assign x) = AirspySource.m_error x
             /\ AirspySource.m_srates (assign x) = AirspySource.m_srates x) ->
  (forall x, err x <> ""%string) ->
  airspy_traced s (AirspySource.setting on assign c err s).
Proof.
  intros Hassign Herr. unfold AirspySource.setting, AirspySource.invoke.
  destruct on; [| apply airspy_traced_refl]. cbv zeta.
  destruct (Hassign s) as (C & E & R).
  set (s1 := assign s) in *. rewrite C.
  destruct (AirspySource.success (AirspySource.calls s) (c s1)) eqn:Hok.
  - exists [c s1]. cbn. rewrite Hok.
    destruct s1; cbn in *. auto.
  - exists [], (c s1). cbn. rewrite app_nil_r.
    repeat split; auto; [destruct s1; reflexivity |].
    assert (Hm : forall e x, AirspySource.m_error (AirspySource.set_m_error e x) = e)
      by (intros e x; destruct x; reflexivity).
    rewrite Hm. apply Herr.
Qed.

Ltac airspy_assign :=
  let x := fresh "x" in intros x; destruct x; cbn; auto.

Ltac airspy_text :=
  let x := fresh "x" in
  intros x; repeat (apply text_not_empty); discriminate.

(** The run of blocks of [AirspySource::configure(changeFlags, ...)] on an
    open device. *)
Lemma airspy_configure_flags_traced
    (changeFlags sampleRateIndex frequency bias_ant lna_gain mix_gain vga_gain
     lna_agc mix_agc : Z) (s s' : AirspySource.t) (r : bool) :
  AirspySource.m_dev s = true ->
  AirspySource.configure_flags changeFlags sampleRateIndex frequency
    bias_ant lna_gain mix_gain vga_gain lna_agc mix_agc s = Some (s', r) ->
  airspy_traced s (if r then Continue s' else Fail s').
Proof.
  intros Hdev. unfold AirspySource.configure_flags. rewrite Hdev.
  cbn [negb].
  match goal with
  | |- context [AirspySource.setting ?on ?a ?c ?e s] =>
      pose proof (airspy_setting_traced on a c e s) as Hfreq;
      destruct (AirspySource.setting on a c e s) as [f | s1]
  end.
  - intros [= <- <-]. apply Hfreq; [airspy_assign | airspy_text].
  - assert (H1' : airspy_traced s (Continue s1))
      by (apply Hfreq; [airspy_assign | airspy_text]).
    clear Hfreq.
    match goal with
    | |- context [@mbind option _ _ _ _ ?o] => destruct o as [rate |]
    end; cbn [mbind option_bind]; [| discriminate].
    match goal with
    | |- match ?run with _ => _ end = _ -> _ =>
        assert (Hrun : airspy_traced s1 run); [| destruct run as [f | c]]
    end.
    + apply airspy_traced_bind.
      * match goal with
        | |- context [AirspySource.setting ?on ?a ?c ?e s1] =>
            pose proof (airspy_setting_traced on a c e s1) as Hrate;
            destruct (AirspySource.setting on a c e s1) as [f | c1]
        end.
        -- apply Hrate; [intros x; cbn; auto | airspy_text].
        -- assert (Hc : airspy_traced s1 (Continue c1))
             by (apply Hrate; [intros x; cbn; auto | airspy_text]).
           destruct (has_flag changeFlags 2); [| exact Hc].
           destruct Hc as (new & C & A & E & R). exists new.
           destruct c1; cbn in *. auto.
      * intros s2. apply airspy_traced_bind;
          [apply airspy_setting_traced; [airspy_assign | airspy_text] |].
        intros s3. apply airspy_traced_bind;
          [apply airspy_setting_traced; [airspy_assign | airspy_text] |].
        intros s4. apply airspy_traced_bind;
          [apply airspy_setting_traced; [airspy_assign | airspy_text] |].
        intros s5. apply airspy_traced_bind;
          [apply airspy_setting_traced; [airspy_assign | airspy_text] |].
        intros s6. apply airspy_traced_bind;
          [apply airspy_setting_traced; [airspy_assign | airspy_text] |].
        intros s7. apply airspy_setting_traced; [airspy_assign | airspy_text].
    + intros [= <- <-]. eapply airspy_traced_trans; eassumption.
    + intros [= <- <-]. eapply airspy_traced_trans; eassumption.
Qed.

(** X12. [AirspySource::configure(changeFlags, ...)] on an open device
    stops at the first call the device refuses.  When it returns [true],
    every call it made was accepted and the error text is the one the
    object had before; when it returns [false], the calls it made were
    accepted up to the last one, which the device refused, and an error
    text is set. *)
Theorem airspy_configure_flags_stops_at_refusal
    (changeFlags sampleRateIndex frequency bias_ant lna_gain mix_gain vga_gain
     lna_agc mix_agc : Z) (s s' : AirspySource.t) (r : bool) :
  AirspySource.m_dev s = true ->
  AirspySource.configure_flags changeFlags sampleRateIndex frequency
    bias_ant lna_gain mix_gain vga_gain lna_agc mix_agc s = Some (s', r) ->
  exists made,
    AirspySource.calls s' = AirspySource.calls s ++ made
    /\ if r
       then AirspySource.all_succeeded (AirspySource.calls s) made = true
            /\ AirspySource.m_error s' = AirspySource.m_error s
       else AirspySource.m_error s' <> ""%string
            /\ exists done c,
                 made = done ++ [c]
                 /\ AirspySource.all_succeeded (AirspySource.calls s) done = true
                 /\ AirspySource.success (AirspySource.calls s ++ done) c = false.
Proof.
  intros Hdev Hc.
  pose proof (airspy_configure_flags_traced _ _ _ _ _ _ _ _ _ _ _ _ Hdev Hc) as Ht.
  destruct r; cbn in Ht.
  - destruct Ht as (new & C & A & E & _). exists new. auto.
  - destruct Ht as (done & c & C & A & F & E). exists (done ++ [c]).
    split; [exact C |]. split; [exact E |]. exists done, c. auto.
Qed.

Lemma airspy_key_gain_Continue key gains listed unsupported store bit m
    (sl r : AirspySource.t * AirspySource.locals) (v : string) :
  AirspySource.key_gain key gains listed unsupported store bit m sl = Continue r ->
  m !! key = Some v ->
  strcasecmp_eq v "list" = false /\ In (atoi v) gains.
Proof.
  destruct sl as [s l]. unfold AirspySource.key_gain. intros Hk Hv.
  rewrite Hv in Hk. destruct (strcasecmp_eq v "list"); [discriminate |].
  destruct (contains (atoi v) gains) eqn:Hc; cbn in Hk; [| discriminate].
  split; [reflexivity | apply contains_In, Hc].
Qed.

Lemma airspy_key_fcpos_Continue m
    (sl r : AirspySource.t * AirspySource.locals) (v : string) :
  AirspySource.key_fcpos m sl = Continue r ->
  m !! "fcpos"%string = Some v -> 0 <= atoi v <= 2.
Proof.
  destruct sl as [s l]. unfold AirspySource.key_fcpos. intros Hk Hv.
  rewrite Hv in Hk. cbv zeta in Hk.
  destruct (atoi v <? 0) eqn:E1; [discriminate |].
  destruct (2 <? atoi v) eqn:E2; [discriminate |]. lia.
Qed.

Lemma airspy_key_decim_Continue m
    (sl r : AirspySource.t * AirspySource.locals) (v : string) :
  AirspySource.key_decim m sl = Continue r ->
  m !! "decim"%string = Some v -> 0 <= atoi v <= 6.
Proof.
  destruct sl as [s l]. unfold AirspySource.key_decim. intros Hk Hv.
  rewrite Hv in Hk. cbv zeta in Hk.
  destruct (atoi v <? 0) eqn:E1; [discriminate |].
  destruct (6 <? atoi v) eqn:E2; [discriminate |]. lia.
Qed.

Lemma airspy_read_keys_Continue m (s : AirspySource.t)
    (r : AirspySource.t * AirspySource.locals) :
  AirspySource.read_keys m s = Continue r -> ~ airspy_refused_value m.
Proof.
  unfold AirspySource.read_keys. cbv zeta. intros Hr.
  apply parse_bind_Continue in Hr as (a1 & _ & Hr).
  apply parse_bind_Continue in Hr as (a2 & _ & Hr).
  apply parse_bind_Continue in Hr as (a3 & Hl & Hr).
  apply parse_bind_Continue in Hr as (a4 & Hm & Hr).
  apply parse_bind_Continue in Hr as (a5 & Hv & Hr).
  apply parse_bind_Continue in Hr as (a6 & _ & Hr).
  apply parse_bind_Continue in Hr as (a7 & _ & Hr).
  apply parse_bind_Continue in Hr as (a8 & _ & Hr).
  apply parse_bind_Continue in Hr as (a9 & _ & Hr).
  apply parse_bind_Continue in Hr as (a10 & Hf & Hd).
  intros [(v & Hk & Hbad) | [(v & Hk & Hbad) | [(v & Hk & Hbad)
         | [(v & Hk & Hbad) | (v & Hk & Hbad)]]]].
  - destruct (airspy_key_gain_Continue _ _ _ _ _ _ _ _ _ _ Hl Hk) as [E I].
    destruct Hbad; [congruence | contradiction].
  - destruct (airspy_key_gain_Continue _ _ _ _ _ _ _ _ _ _ Hm Hk) as [E I].
    destruct Hbad; [congruence | contradiction].
  - destruct (airspy_key_gain_Continue _ _ _ _ _ _ _ _ _ _ Hv Hk) as [E I].
    destruct Hbad; [congruence | contradiction].
  - pose proof (airspy_key_fcpos_Continue _ _ _ _ Hf Hk). lia.
  - pose proof (airspy_key_decim_Continue _ _ _ _ Hd Hk). lia.
Qed.

(** X13. [AirspySource::configure(pairs_type&)] refuses a map that holds
    a gain outside the list of the device, the word "list" for a gain, a
    centre frequency position outside 0..2 or a decimation outside 0..6,
    whatever the other keys hold: it returns [false] with an error text
    set and without having called the device. *)
Theorem airspy_configure_refuses_value (m : gmap string string)
    (s : AirspySource.t) :
  airspy_refused_value m ->
  exists s',
    AirspySource.configure m s = Some (s', false)
    /\ AirspySource.calls s' = AirspySource.calls s
    /\ AirspySource.m_error s' <> ""%string.
Proof.
  intros Hbad. unfold AirspySource.configure.
  pose proof (airspy_read_keys_parsed m s) as Hp.
  destruct (AirspySource.read_keys m s) as [f | r] eqn:Hr.
  - destruct Hp as (C & _ & E). exists f. auto.
  - exfalso. exact (airspy_read_keys_Continue _ _ _ Hr Hbad).
Qed.

(** X14. [AirspySource::configure(pairs_type&)] on an open device reports
    every failure: when it returns [true], every call it made was accepted
    by the device and the error text is untouched; when it returns
    [false], an error text is set, and either the device was not called at
    all (a value of the map was refused) or the last call made is one the
    device refused, the calls before it having been accepted. *)
Theorem airspy_configure_reports_failure (m : gmap string string)
    (s s' : AirspySource.t) (r : bool) :
  AirspySource.m_dev s = true ->
  AirspySource.configure m s = Some (s', r) ->
  exists made,
    AirspySource.calls s' = AirspySource.calls s ++ made
    /\ if r
       then AirspySource.all_succeeded (AirspySource.calls s) made = true
            /\ AirspySource.m_error s' = AirspySource.m_error s
       else AirspySource.m_error s' <> ""%string
            /\ (made = []
                \/ exists done c,
                     made = done ++ [c]
                     /\ AirspySource.all_succeeded (AirspySource.calls s) done = true
                     /\ AirspySource.success (AirspySource.calls s ++ done) c = false).
Proof.
  intros Hdev. unfold AirspySource.configure.
  pose proof (airspy_read_keys_parsed m s) as Hp.
  destruct (AirspySource.read_keys m s) as [f | [s1 l]].
  - intros [= <- <-]. destruct Hp as (C & _ & E).
    exists []. rewrite app_nil_r. auto.
  - cbv zeta. destruct Hp as (C & E & D & R).
    set (s2 := AirspySource.set_m_confFreq (AirspySource.frequency l) s1).
    assert (Hs2 : AirspySource.calls s2 = AirspySource.calls s
                  /\ AirspySource.m_error s2 = AirspySource.m_error s
                  /\ AirspySource.m_dev s2 = true).
    { subst s2. rewrite <- C, <- E, <- Hdev, <- D. destruct s1; cbn; auto. }
    destruct Hs2 as (C2 & E2 & D2).
    match goal with
    | |- context [@mbind option _ _ _ _ ?o] => destruct o as [quarter |]
    end; cbn [mbind option_bind]; [| discriminate].
    intros Hc.
    pose proof (airspy_configure_flags_traced _ _ _ _ _ _ _ _ _ _ _ _ D2 Hc) as Ht.
    destruct r; cbn in Ht.
    + destruct Ht as (new & Cn & A & En & _). rewrite C2 in Cn, A.
      exists new. rewrite <- E2. auto.
    + destruct Ht as (done & c & Cn & A & F & En). rewrite C2 in Cn, A, F.
      exists (done ++ [c]).
      split; [exact Cn |]. split; [exact En |]. right. exists done, c. auto.
Qed.

(** *** The Airspy HF *)

Lemma airspyhf_same_refl (s : AirspyHFSource.t) : airspyhf_same s s.
Proof. unfold airspyhf_same. auto. Qed.

Lemma airspyhf_parsed_trans (s s1 : AirspyHFSource.t)
    (r : parse AirspyHFSource.t (AirspyHFSource.t * AirspyHFSource.locals)) :
  airspyhf_same s s1 -> airspyhf_parsed s1 r -> airspyhf_parsed s r.
Proof.
  intros (E1 & E2 & E3 & E4). destruct r as [f | [s2 l2]]; cbn.
  - intros (F1 & F2 & F3). repeat split; congruence.
  - intros (F1 & F2 & F3 & F4). unfold airspyhf_same. repeat split; congruence.
Qed.

Lemma airspyhf_parsed_bind (s : AirspyHFSource.t)
    (p : parse AirspyHFSource.t (AirspyHFSource.t * AirspyHFSource.locals))
    (k : AirspyHFSource.t * AirspyHFSource.locals
         -> parse AirspyHFSource.t (AirspyHFSource.t * AirspyHFSource.locals)) :
  airspyhf_parsed s p ->
  (forall s1 l1, airspyhf_same s s1 -> airspyhf_parsed s1 (k (s1, l1))) ->
  airspyhf_parsed s (p ≫= k).
Proof.
  destruct p as [f | [s1 l1]]; cbn [mbind parse_mbind parse_bind].
  - intros Hf _. exact Hf.
  - intros Hsame Hk. eapply airspyhf_parsed_trans; [exact Hsame | apply Hk, Hsame].
Qed.

Ltac airspyhf_fields s :=
  destruct s; unfold airspyhf_same; cbn;
  repeat split; try reflexivity; try discriminate;
  try (apply text_not_empty; discriminate).

Lemma airspyhf_read_keys_parsed m (s : AirspyHFSource.t) :
  airspyhf_parsed s (AirspyHFSource.read_keys m s).
Proof.
  unfold AirspyHFSource.read_keys. cbv zeta.
  apply airspyhf_parsed_bind; [| intros s1 l1 _].
  { unfold AirspyHFSource.key_freq. destruct (m !! "freq"%string) as [v |];
      [| apply airspyhf_same_refl].
    destruct (_ || _); [airspyhf_fields s | apply airspyhf_same_refl]. }
  apply airspyhf_parsed_bind; [| intros s2 l2 _].
  { unfold AirspyHFSource.key_srate. destruct (m !! "srate"%string) as [v |];
      [| apply airspyhf_same_refl].
    destruct (strcasecmp_eq v "list"); [airspyhf_fields s1 |].
    destruct (find_rate _ _ 0) as [i |]; airspyhf_fields s1. }
  apply airspyhf_parsed_bind; [| intros s3 l3 _].
  { unfold AirspyHFSource.key_ppm. destruct (m !! "ppmp"%string) as [v |].
    - destruct (strtod_ok v); [airspyhf_fields s2 | apply airspyhf_same_refl].
    - destruct (m !! "ppmn"%string) as [v |]; [| apply airspyhf_same_refl].
      destruct (strtod_ok v); [airspyhf_fields s2 | apply airspyhf_same_refl]. }
  unfold AirspyHFSource.key_decim. destruct (m !! "decim"%string) as [v |];
    [| apply airspyhf_same_refl].
  destruct (_ || _); airspyhf_fields s3.
Qed.

Lemma airspyhf_configure_flags_outcome
    (changeFlags sampleRateIndex frequency hf_agc hf_att hf_lna : Z)
    (s s' : AirspyHFSource.t) (r : bool) :
  AirspyHFSource.configure_flags changeFlags sampleRateIndex frequency
    hf_agc hf_att hf_lna s = Some (s', r) ->
  AirspyHFSource.m_dev s' = AirspyHFSource.m_dev s
  /\ if r
     then AirspyHFSource.m_dev s = true
          /\ AirspyHFSource.m_error s' = AirspyHFSource.m_error s
     else AirspyHFSource.m_dev s = false
          \/ AirspyHFSource.m_error s' <> ""%string.
Proof.
  unfold AirspyHFSource.configure_flags, AirspyHFSource.invoke.
  destruct (AirspyHFSource.m_dev s) eqn:Hdev; cbn [negb];
    [| intros [= <- <-]; auto].
  cbv zeta.
  destruct (has_flag changeFlags 1).
  - destruct (AirspyHFSource.success _ _).
    + destruct (has_flag changeFlags 2).
      * match goal with
        | |- context [@mbind option _ _ _ _ ?o] => destruct o as [rate |]
        end; cbn [mbind option_bind]; [| discriminate].
        destruct (AirspyHFSource.success _ _); intros [= <- <-];
          destruct s; cbn in *; repeat split; auto;
          right; apply text_not_empty; discriminate.
      * intros [= <- <-]. destruct s; cbn in *; auto.
    + intros [= <- <-]. destruct s; cbn in *. split; [auto |].
      right. apply text_not_empty; discriminate.
  - destruct (has_flag changeFlags 2).
    + match goal with
      | |- context [@mbind option _ _ _ _ ?o] => destruct o as [rate |]
      end; cbn [mbind option_bind]; [| discriminate].
      destruct (AirspyHFSource.success _ _); intros [= <- <-];
        destruct s; cbn in *; repeat split; auto;
        right; apply text_not_empty; discriminate.
    + intros [= <- <-]. auto.
Qed.

(** X15. [AirspyHFSource::configure(pairs_type&)] and [operator bool]:
    after a call that returned [false] the object tests false; after a call
    that returned [true] it tests as it did before the call, so a
    successful configuration never clears the error of an earlier failure. *)
Theorem airspyhf_configure_operator_bool (m : gmap string string)
    (s s' : AirspyHFSource.t) (r : bool) :
  AirspyHFSource.configure m s = Some (s', r) ->
  AirspyHFSource.operator_bool s' = r && AirspyHFSource.operator_bool s.
Proof.
  unfold AirspyHFSource.configure, AirspyHFSource.operator_bool.
  pose proof (airspyhf_read_keys_parsed m s) as Hp.
  destruct (AirspyHFSource.read_keys m s) as [f | [s1 l]].
  - intros [= <- <-]. destruct Hp as (_ & _ & E).
    apply String.eqb_neq in E. rewrite E. apply andb_false_r.
  - cbv zeta. destruct Hp as (C & E & D & R). intros Hc.
    apply airspyhf_configure_flags_outcome in Hc as [D' Hr].
    assert (Hs2 : forall x,
              AirspyHFSource.m_error (AirspyHFSource.set_m_confFreq x s1)
              = AirspyHFSource.m_error s
              /\ AirspyHFSource.m_dev (AirspyHFSource.set_m_confFreq x s1)
                 = AirspyHFSource.m_dev s).
    { intros x. rewrite <- E, <- D. destruct s1; cbn; auto. }
    destruct (Hs2 (AirspyHFSource.frequency l)) as [E2 D2].
    rewrite D2 in D', Hr. rewrite E2 in Hr. rewrite D'.
    destruct r; cbn [andb].
    + destruct Hr as [_ ->]. reflexivity.
    + destruct Hr as [-> | Hne]; [reflexivity |].
      apply String.eqb_neq in Hne. rewrite Hne. apply andb_false_r.
Qed.

(** *** The Airspy: when the tuner is left alone *)

Lemma has_flag_1 (x : Z) : has_flag x 1 = Z.testbit x 0.
Proof.
  unfold has_flag. change 1 with (Z.ones 1).
  rewrite Z.land_ones by lia. change (2 ^ 1) with 2.
  rewrite <- Z.bit0_mod. destruct (Z.testbit x 0); reflexivity.
Qed.

Lemma has_flag_1_lor (x bit : Z) :
  has_flag x 1 = false -> Z.testbit bit 0 = false ->
  has_flag (Z.lor x bit) 1 = false.
Proof.
  rewrite !has_flag_1, Z.lor_spec. intros -> ->. reflexivity.
Qed.

Lemma airspy_untuned_bind (s : AirspySource.t)
    (p : parse AirspySource.t (AirspySource.t * AirspySource.locals))
    (k : AirspySource.t * AirspySource.locals
         -> parse AirspySource.t (AirspySource.t * AirspySource.locals)) :
  airspy_untuned s p ->
  (forall s1 l1, airspy_untuned s (Continue (s1, l1)) ->
                 airspy_untuned s (k (s1, l1))) ->
  airspy_untuned s (p ≫= k).
Proof.
  destruct p as [f | [s1 l1]]; cbn [mbind parse_mbind parse_bind].
  - intros Hf _. exact Hf.
  - intros H1' Hk. apply Hk, H1'.
Qed.

Ltac airspy_untuned_fields s l :=
  destruct s, l; cbn in *; repeat split;
  try assumption; try reflexivity;
  try (apply has_flag_1_lor; [assumption | reflexivity]).

Lemma airspy_key_gain_untuned key gains listed unsupported store bit m
    (s0 s : AirspySource.t) l :
  (forall g x, AirspySource.changeFlags (store g x) = AirspySource.changeFlags x
               /\ AirspySource.fcpos (store g x) = AirspySource.fcpos x) ->
  Z.testbit bit 0 = false ->
  airspy_untuned s0 (Continue (s, l)) ->
  airspy_untuned s0
    (AirspySource.key_gain key gains listed unsupported store bit m (s, l)).
Proof.
  intros Hstore Hbit (Hf & Hp & Hq). unfold AirspySource.key_gain.
  destruct (m !! key) as [v |]; [| cbn; auto].
  destruct (strcasecmp_eq v "list"); [destruct s; exact Hq |].
  destruct (negb _); [destruct s; exact Hq |].
  destruct (Hstore (atoi v) l) as [Hc Hfc].
  cbn. split; [| split; [| exact Hq]].
  - destruct (store (atoi v) l); cbn in Hc, Hfc |- *. subst.
    apply has_flag_1_lor; [exact Hf | exact Hbit].
  - destruct (store (atoi v) l); cbn in Hc, Hfc |- *. congruence.
Qed.

Lemma airspy_key_switch_untuned key store bit m (s0 s : AirspySource.t) l :
  (forall g x, AirspySource.changeFlags (store g x) = AirspySource.changeFlags x
               /\ AirspySource.fcpos (store g x) = AirspySource.fcpos x) ->
  Z.testbit bit 0 = false ->
  airspy_untuned s0 (Continue (s, l)) ->
  airspy_untuned s0 (AirspySource.key_switch key store bit m (s, l)).
Proof.
  intros Hstore Hbit (Hf & Hp & Hq). unfold AirspySource.key_switch.
  destruct (m !! key) as [v |]; [| cbn; auto].
  destruct (Hstore (atoi v) l) as [Hc Hfc].
  cbn. split; [| split; [| exact Hq]].
  - destruct (store (atoi v) l); cbn in Hc, Hfc |- *. subst.
    apply has_flag_1_lor; [exact Hf | exact Hbit].
  - destruct (store (atoi v) l); cbn in Hc, Hfc |- *. congruence.
Qed.

Ltac airspy_store := let g := fresh in let x := fresh in
  intros g x; destruct x; cbn; auto.

(** Without the keys "freq", "ppmp", "ppmn" and "fcpos" the map never
    raises flag 0x1: the test [fcpos != 2] of the "srate" block reads a
    local that still holds its initial value. *)
Lemma airspy_read_keys_untuned m (s : AirspySource.t) :
  m !! "freq"%string = None -> m !! "ppmp"%string = None ->
  m !! "ppmn"%string = None -> m !! "fcpos"%string = None ->
  airspy_untuned s (AirspySource.read_keys m s).
Proof.
  intros Hfreq Hppmp Hppmn Hfcpos.
  unfold AirspySource.read_keys. cbv zeta.
  apply airspy_untuned_bind.
  { unfold AirspySource.key_freq. rewrite Hfreq. cbn. auto. }
  intros s1 l1 H1'. apply airspy_untuned_bind.
  { destruct H1' as (Hf & Hp & Hq). unfold AirspySource.key_srate.
    destruct (m !! "srate"%string) as [v |]; [| cbn; auto].
    destruct (strcasecmp_eq v "list"); [destruct s1; exact Hq |]. cbv zeta.
    destruct (find_rate _ _ 0) as [i |]; [| destruct s1; exact Hq].
    destruct l1; cbn in Hp, Hf. subst. cbn.
    split; [apply has_flag_1_lor; [exact Hf | reflexivity] |].
    split; [reflexivity | destruct s1; exact Hq]. }
  intros s2 l2 H2'. apply airspy_untuned_bind;
    [apply airspy_key_gain_untuned; [airspy_store | reflexivity | exact H2'] |].
  intros s3 l3 H3. apply airspy_untuned_bind;
    [apply airspy_key_gain_untuned; [airspy_store | reflexivity | exact H3] |].
  intros s4 l4 H4. apply airspy_untuned_bind;
    [apply airspy_key_gain_untuned; [airspy_store | reflexivity | exact H4] |].
  intros s5 l5 H5. apply airspy_untuned_bind;
    [apply airspy_key_switch_untuned; [airspy_store | reflexivity | exact H5] |].
  intros s6 l6 H6. apply airspy_untuned_bind;
    [apply airspy_key_switch_untuned; [airspy_store | reflexivity | exact H6] |].
  intros s7 l7 H7. apply airspy_untuned_bind;
    [apply airspy_key_switch_untuned; [airspy_store | reflexivity | exact H7] |].
  intros s8 l8 H8. apply airspy_untuned_bind.
  { unfold AirspySource.key_ppm. rewrite Hppmp, Hppmn. exact H8. }
  intros s9 l9 H9. apply airspy_untuned_bind.
  { unfold AirspySource.key_fcpos. rewrite Hfcpos. exact H9. }
  intros s10 l10 (Hf & Hp & Hq). unfold AirspySource.key_decim.
  destruct (m !! "decim"%string) as [v |]; [| cbn; auto].
  cbv zeta. destruct (_ || _); [destruct s10; exact Hq |].
  cbn. repeat split; auto. destruct s10; exact Hq.
Qed.

Lemma airspy_quiet_refl (s : AirspySource.t) : airspy_quiet s s.
Proof.
  split; [reflexivity |]. exists []. rewrite app_nil_r. auto.
Qed.

Lemma airspy_quiet_trans (s s1 s2 : AirspySource.t) :
  airspy_quiet s s1 -> airspy_quiet s1 s2 -> airspy_quiet s s2.
Proof.
  intros (F1 & new1 & C1 & N1) (F2 & new2 & C2 & N2).
  split; [congruence |]. exists (new1 ++ new2).
  rewrite C2, C1, <- app_assoc. split; [reflexivity |].
  apply Forall_app; auto.
Qed.

Lemma airspy_quiet_bind (s : AirspySource.t)
    (p : parse AirspySource.t AirspySource.t)
    (k : AirspySource.t -> parse AirspySource.t AirspySource.t) :
  airspy_quiet s (parse_state p) ->
  (forall s1, airspy_quiet s1 (parse_state (k s1))) ->
  airspy_quiet s (parse_state (p ≫= k)).
Proof.
  destruct p as [f | s1]; cbn [mbind parse_mbind parse_bind parse_state].
  - intros Hf _. exact Hf.
  - intros H1' Hk. eapply airspy_quiet_trans; [exact H1' | apply Hk].
Qed.

Lemma airspy_setting_quiet on assign c err (s : AirspySource.t) :
  (forall x, AirspySource.calls (assign x) = AirspySource.calls x
             /\ AirspySource.m_frequency (assign x) = AirspySource.m_frequency x) ->
  (forall x, airspy_is_set_freq (c x) = false) ->
  airspy_quiet s (parse_state (AirspySource.setting on assign c err s)).
Proof.
  intros Hassign Hc. unfold AirspySource.setting, AirspySource.invoke.
  destruct on; [| apply airspy_quiet_refl]. cbv zeta.
  destruct (Hassign s) as (C & F).
  set (s1 := assign s) in *. rewrite C.
  assert (Hq : forall e,
            airspy_quiet s
              (AirspySource.set_m_error e
                 (AirspySource.set_calls (AirspySource.calls s ++ [c s1]) s1))
            /\ airspy_quiet s
                 (AirspySource.set_calls (AirspySource.calls s ++ [c s1]) s1)).
  { intros e. split; (split; [destruct s1; exact F |]); exists [c s1];
      (split; [destruct s1; reflexivity |]); repeat constructor; apply Hc. }
  destruct (AirspySource.success _ _); cbn [parse_state];
    [apply (Hq ""%string) | apply Hq].
Qed.

Ltac airspy_keeps_frequency :=
  let x := fresh "x" in intros x; destruct x; cbn; auto.

Lemma airspy_configure_flags_quiet
    (changeFlags sampleRateIndex frequency bias_ant lna_gain mix_gain vga_gain
     lna_agc mix_agc : Z) (s s' : AirspySource.t) (r : bool) :
  has_flag changeFlags 1 = false ->
  AirspySource.configure_flags changeFlags sampleRateIndex frequency
    bias_ant lna_gain mix_gain vga_gain lna_agc mix_agc s = Some (s', r) ->
  airspy_quiet s s'.
Proof.
  intros Hflag. unfold AirspySource.configure_flags. rewrite Hflag.
  destruct (negb (AirspySource.m_dev s));
    [intros [= <- <-]; apply airspy_quiet_refl |].
  cbn [AirspySource.setting].
  match goal with
  | |- context [@mbind option _ _ _ _ ?o] => destruct o as [rate |]
  end; cbn [mbind option_bind]; [| discriminate].
  match goal with
  | |- match ?run with _ => _ end = _ -> _ =>
      assert (Hrun : airspy_quiet s (parse_state run)); [| destruct run as [f | c]]
  end.
  + apply airspy_quiet_bind.
    * match goal with
      | |- context [AirspySource.setting ?on ?a ?c ?e s] =>
          pose proof (airspy_setting_quiet on a c e s) as Hrate;
          destruct (AirspySource.setting on a c e s) as [f | c1]
      end.
      -- apply Hrate; [intros x; cbn; auto | reflexivity].
      -- assert (Hc : airspy_quiet s c1)
           by (apply Hrate; [intros x; cbn; auto | reflexivity]).
         cbn [parse_state].
         destruct (has_flag changeFlags 2); [| exact Hc].
         destruct Hc as (F & new & C & N). split; [destruct c1; exact F |].
         exists new. destruct c1; cbn in *. auto.
    * intros s2. apply airspy_quiet_bind;
        [apply airspy_setting_quiet; [airspy_keeps_frequency | reflexivity] |].
      intros s3. apply airspy_quiet_bind;
        [apply airspy_setting_quiet; [airspy_keeps_frequency | reflexivity] |].
      intros s4. apply airspy_quiet_bind;
        [apply airspy_setting_quiet; [airspy_keeps_frequency | reflexivity] |].
      intros s5. apply airspy_quiet_bind;
        [apply airspy_setting_quiet; [airspy_keeps_frequency | reflexivity] |].
      intros s6. apply airspy_quiet_bind;
        [apply airspy_setting_quiet; [airspy_keeps_frequency | reflexivity] |].
      intros s7. apply airspy_setting_quiet; [airspy_keeps_frequency | reflexivity].
  + intros [= <- <-]. exact Hrun.
  + intros [= <- <-]. exact Hrun.
Qed.

(** X16. A map without the keys "freq", "ppmp", "ppmn" and "fcpos" never
    retunes the Airspy: whatever the outcome of
    [AirspySource::configure(pairs_type&)], [m_frequency] keeps its value
    and none of the calls made is [airspy_set_freq].  This holds also when
    the map changes the sample rate of an object whose centre frequency
    position is not centred, so that the tuner offset of a quarter of the
    sample rate is left at the old rate: the test [fcpos != 2] of the
    "srate" block reads the local variable, which is still 2 there. *)
Theorem airspy_configure_without_tuning_keys (m : gmap string string)
    (s s' : AirspySource.t) (r : bool) :
  m !! "freq"%string = None -> m !! "ppmp"%string = None ->
  m !! "ppmn"%string = None -> m !! "fcpos"%string = None ->
  AirspySource.configure m s = Some (s', r) ->
  AirspySource.m_frequency s' = AirspySource.m_frequency s
  /\ exists made,
       AirspySource.calls s' = AirspySource.calls s ++ made
       /\ Forall (fun c => airspy_is_set_freq c = false) made.
Proof.
  intros Hfreq Hppmp Hppmn Hfcpos. unfold AirspySource.configure.
  pose proof (airspy_read_keys_untuned m s Hfreq Hppmp Hppmn Hfcpos) as Hu.
  pose proof (airspy_read_keys_parsed m s) as Hp.
  destruct (AirspySource.read_keys m s) as [f | [s1 l]].
  - intros [= <- <-]. destruct Hp as (C & _). split; [exact Hu |].
    exists []. rewrite app_nil_r. auto.
  - cbv zeta. destruct Hu as (Hf & _ & Hq). destruct Hp as (C & _).
    match goal with
    | |- context [@mbind option _ _ _ _ ?o] => destruct o as [quarter |]
    end; cbn [mbind option_bind]; [| discriminate].
    intros Hc. apply airspy_configure_flags_quiet in Hc; [| exact Hf].
    destruct Hc as (F & made & Cm & N).
    split; [rewrite F, <- Hq; destruct s1; reflexivity |].
    exists made. rewrite Cm, <- C. split; [destruct s1; reflexivity | exact N].
Qed.

(** *** Maps with both rates of correction, and the empty map *)

(** X17. "ppmp" has priority over "ppmn": when the map holds "ppmp", a
    "ppmn" entry changes nothing in what [configure] does, whether the
    "ppmp" value converts to a number or not.  For both devices. *)
Theorem configure_ppmp_hides_ppmn (m : gmap string string) (v w : string)
    (a : AirspySource.t) (h : AirspyHFSource.t) :
  m !! "ppmp"%string = Some v ->
  AirspySource.configure (<["ppmn"%string := w]> m) a = AirspySource.configure m a
  /\ AirspyHFSource.configure (<["ppmn"%string := w]> m) h
     = AirspyHFSource.configure m h.
Proof.
  intros Hppmp.
  assert (other_key : forall k : string,
            "ppmn"%string <> k -> <["ppmn"%string := w]> m !! k = m !! k)
    by (intros k Hk; apply lookup_insert_ne, Hk).
  split.
  - assert (Hr : AirspySource.read_keys (<["ppmn"%string := w]> m) a
                 = AirspySource.read_keys m a).
    { unfold AirspySource.read_keys, AirspySource.key_freq,
        AirspySource.key_srate, AirspySource.key_gain, AirspySource.key_switch,
        AirspySource.key_ppm, AirspySource.key_fcpos, AirspySource.key_decim.
      rewrite (other_key "freq"), (other_key "srate"), (other_key "lgain"),
        (other_key "mgain"), (other_key "vgain"), (other_key "antbias"),
        (other_key "lagc"), (other_key "magc"), (other_key "ppmp"),
        (other_key "fcpos"), (other_key "decim") by discriminate.
      rewrite Hppmp. reflexivity. }
    unfold AirspySource.configure. rewrite Hr. reflexivity.
  - assert (Hr : AirspyHFSource.read_keys (<["ppmn"%string := w]> m) h
                 = AirspyHFSource.read_keys m h).
    { unfold AirspyHFSource.read_keys, AirspyHFSource.key_freq,
        AirspyHFSource.key_srate, AirspyHFSource.key_ppm,
        AirspyHFSource.key_decim.
      rewrite (other_key "freq"), (other_key "srate"), (other_key "ppmp"),
        (other_key "decim") by discriminate.
      rewrite Hppmp. reflexivity. }
    unfold AirspyHFSource.configure. rewrite Hr. reflexivity.
Qed.

(** X18. With an empty map [configure] calls nothing and changes nothing,
    and returns whether the device is open.  For the Airspy this needs a
    sample rate in the list when the centre frequency position is 0 or 1:
    the tuner offset reads [m_srates[0]] even though no key asks for a
    retune. *)
Theorem configure_empty_map (a : AirspySource.t) (h : AirspyHFSource.t) :
  (AirspySource.m_fcPos a = 0 \/ AirspySource.m_fcPos a = 1 ->
   AirspySource.m_srates a <> []) ->
  AirspySource.configure ∅ a = Some (a, AirspySource.m_dev a)
  /\ AirspyHFSource.configure ∅ h = Some (h, AirspyHFSource.m_dev h).
Proof.
  intros Hrates. split.
  - unfold AirspySource.configure, AirspySource.read_keys,
      AirspySource.key_freq, AirspySource.key_srate, AirspySource.key_gain,
      AirspySource.key_switch, AirspySource.key_ppm, AirspySource.key_fcpos,
      AirspySource.key_decim.
    rewrite !lookup_empty. cbn [mbind parse_mbind parse_bind].
    cbv zeta. cbn [AirspySource.frequency AirspySource.sampleRateIndex
                   AirspySource.changeFlags].
    assert (Hs : AirspySource.set_m_confFreq (AirspySource.m_confFreq a) a = a)
      by (destruct a; reflexivity).
    rewrite Hs.
    assert (Hq : exists q,
              (if AirspySource.m_fcPos a =? 0
               then AirspySource.m_srates a !! Z.to_nat 0
               else if AirspySource.m_fcPos a =? 1
                    then Z.opp <$> AirspySource.m_srates a !! Z.to_nat 0
                    else Some 0) = Some q).
    { destruct (Z.eqb_spec (AirspySource.m_fcPos a) 0) as [E0 | N0];
        [| destruct (Z.eqb_spec (AirspySource.m_fcPos a) 1) as [E1 | N1]].
      - destruct (AirspySource.m_srates a) as [| x r];
          [exfalso; apply Hrates; auto | exists x; reflexivity].
      - destruct (AirspySource.m_srates a) as [| x r];
          [exfalso; apply Hrates; auto | exists (- x); reflexivity].
      - exists 0. reflexivity. }
    destruct Hq as [q ->]. cbn [mbind option_bind].
    unfold AirspySource.configure_flags.
    destruct (AirspySource.m_dev a); reflexivity.
  - unfold AirspyHFSource.configure, AirspyHFSource.read_keys,
      AirspyHFSource.key_freq, AirspyHFSource.key_srate,
      AirspyHFSource.key_ppm, AirspyHFSource.key_decim.
    rewrite !lookup_empty. cbn [mbind parse_mbind parse_bind].
    cbv zeta. cbn [AirspyHFSource.frequency AirspyHFSource.sampleRateIndex
                   AirspyHFSource.changeFlags].
    assert (Hs : AirspyHFSource.set_m_confFreq (AirspyHFSource.m_confFreq h) h = h)
      by (destruct h; reflexivity).
    rewrite Hs. unfold AirspyHFSource.configure_flags.
    destruct (AirspyHFSource.m_dev h); reflexivity.
Qed.

End ConfigureFurther.

(** ** The sample rate member after [configure] *)

Section ConfigureRate.
Context `{Libc} `{AirspySource.Device} `{AirspyHFSource.Device}.

Lemma u32_s32 (v : Z) : 0 <= v < 2 ^ 32 -> u32 (s32 v) = v.
Proof.
  intros Hv. unfold u32, s32.
  destruct (Z_lt_le_dec v (2 ^ 31)) as [Hlo | Hhi].
  - rewrite (Z.mod_small (v + 2 ^ 31)) by lia.
    replace (v + 2 ^ 31 - 2 ^ 31) with v by lia. apply Z.mod_small. exact Hv.
  - replace (v + 2 ^ 31) with (v - 2 ^ 31 + 1 * 2 ^ 32) by lia.
    rewrite Z.mod_add by lia. rewrite (Z.mod_small (v - 2 ^ 31)) by lia.
    replace (v - 2 ^ 31 - 2 ^ 31) with (v + (- 1) * 2 ^ 32) by lia.
    rewrite Z.mod_add by lia. apply Z.mod_small. exact Hv.
Qed.

Lemma find_rate_lookup (x : Z) (l : list Z) :
  forall k i, 0 <= k -> find_rate x l k = Some i ->
    k <= i /\ l !! Z.to_nat (i - k) = Some x.
Proof.
  induction l as [| y l IH]; intros k i Hk; cbn [find_rate]; [discriminate |].
  destruct (Z.eqb_spec y x) as [-> | Hne].
  - intros [= <-]. split; [lia |]. rewrite Z.sub_diag. reflexivity.
  - intros Hf. destruct (IH (k + 1) i ltac:(lia) Hf) as [Hle Hl].
    split; [lia |].
    replace (Z.to_nat (i - k)) with (S (Z.to_nat (i - (k + 1)))) by lia.
    exact Hl.
Qed.

Lemma frequency_accepted (f : Z) :
  24000000 <= f <= 1800000000 ->
  (f <? 24000000) || (1800000000 <? f) = false.
Proof.
  intros Hf. apply orb_false_intro; apply Z.ltb_ge; lia.
Qed.

(** *** The Airspy *)

Lemma airspy_rated_bind (R : Z)
    (p : parse AirspySource.t (AirspySource.t * AirspySource.locals))
    (k : AirspySource.t * AirspySource.locals
         -> parse AirspySource.t (AirspySource.t * AirspySource.locals)) :
  airspy_rated R p ->
  (forall s1 l1, airspy_rated R (Continue (s1, l1)) ->
                 airspy_rated R (k (s1, l1))) ->
  airspy_rated R (p ≫= k).
Proof.
  destruct p as [f | [s1 l1]]; cbn [mbind parse_mbind parse_bind].
  - intros Hf _. exact Hf.
  - intros H1' Hk. apply Hk, H1'.
Qed.

Lemma airspy_key_srate_rated m (v : string) (s : AirspySource.t) l :
  m !! "srate"%string = Some v -> strcasecmp_eq v "list" = false ->
  In (s32 (u32 (atoi v))) (AirspySource.m_srates s) ->
  airspy_rated (u32 (atoi v)) (AirspySource.key_srate m (s, l)).
Proof.
  intros Hv Hlist Hin. unfold AirspySource.key_srate. rewrite Hv, Hlist.
  cbv zeta.
  assert (Hs1 : AirspySource.m_sampleRate
                  (AirspySource.set_m_sampleRate (u32 (atoi v)) s) = u32 (atoi v)
                /\ AirspySource.m_srates
                     (AirspySource.set_m_sampleRate (u32 (atoi v)) s)
                   = AirspySource.m_srates s)
    by (destruct s; cbn; auto).
  destruct Hs1 as [-> Hrates]. rewrite Hrates.
  destruct (find_rate_Some _ _ 0 Hin) as [i Hi]. rewrite Hi.
  destruct (find_rate_lookup _ _ 0 i ltac:(lia) Hi) as [Hle Hl].
  rewrite Z.sub_0_r in Hl.
  destruct l; cbn. destruct (negb _); cbn;
    (split; [destruct s; reflexivity |]); (split; [exact Hle |]);
    destruct s; exact Hl.
Qed.

Lemma airspy_key_gain_rated R key gains listed unsupported store bit m
    (s : AirspySource.t) l :
  (forall g x, AirspySource.sampleRateIndex (store g x)
               = AirspySource.sampleRateIndex x) ->
  airspy_rated R (Continue (s, l)) ->
  airspy_rated R
    (AirspySource.key_gain key gains listed unsupported store bit m (s, l)).
Proof.
  intros Hstore (Hr & Hi & Hl). unfold AirspySource.key_gain.
  destruct (m !! key) as [v |]; [| cbn; auto].
  destruct (strcasecmp_eq v "list"); [destruct s; exact Hr |].
  destruct (negb _); [destruct s; exact Hr |].
  specialize (Hstore (atoi v) l).
  cbn. destruct (store (atoi v) l); cbn in Hstore |- *. subst. auto.
Qed.

Lemma airspy_key_switch_rated R key store bit m (s : AirspySource.t) l :
  (forall g x, AirspySource.sampleRateIndex (store g x)
               = AirspySource.sampleRateIndex x) ->
  airspy_rated R (Continue (s, l)) ->
  airspy_rated R (AirspySource.key_switch key store bit m (s, l)).
Proof.
  intros Hstore (Hr & Hi & Hl). unfold AirspySource.key_switch.
  destruct (m !! key) as [v |]; [| cbn; auto].
  specialize (Hstore (atoi v) l).
  cbn. destruct (store (atoi v) l); cbn in Hstore |- *. subst. auto.
Qed.

Ltac airspy_index := let g := fresh in let x := fresh in
  intros g x; destruct x; reflexivity.

Ltac airspy_rated_fields s l :=
  destruct s, l; cbn in *; auto.

Lemma airspy_read_keys_rated m (v : string) (s : AirspySource.t) :
  (forall f, m !! "freq"%string = Some f ->
             24000000 <= u32 (atoi f) <= 1800000000) ->
  m !! "srate"%string = Some v -> strcasecmp_eq v "list" = false ->
  In (s32 (u32 (atoi v))) (AirspySource.m_srates s) ->
  airspy_rated (u32 (atoi v)) (AirspySource.read_keys m s).
Proof.
  intros Hfreq Hv Hlist Hin. unfold AirspySource.read_keys. cbv zeta.
  assert (Hk : exists l,
            AirspySource.key_freq m
              (s, AirspySource.mkLocals 0 (AirspySource.m_confFreq s)
                    8 8 0 0 0 0 2 0)
            = Continue (s, l)).
  { unfold AirspySource.key_freq. destruct (m !! "freq"%string) as [f |];
      [| eexists; reflexivity].
    cbv zeta. rewrite (frequency_accepted _ (Hfreq f eq_refl)).
    eexists. reflexivity. }
  destruct Hk as [l0 ->]. cbn [mbind parse_mbind parse_bind].
  apply airspy_rated_bind;
    [apply airspy_key_srate_rated; assumption |].
  intros s2 l2 H2'. apply airspy_rated_bind;
    [apply airspy_key_gain_rated; [airspy_index | exact H2'] |].
  intros s3 l3 H3. apply airspy_rated_bind;
    [apply airspy_key_gain_rated; [airspy_index | exact H3] |].
  intros s4 l4 H4. apply airspy_rated_bind;
    [apply airspy_key_gain_rated; [airspy_index | exact H4] |].
  intros s5 l5 H5. apply airspy_rated_bind;
    [apply airspy_key_switch_rated; [airspy_index | exact H5] |].
  intros s6 l6 H6. apply airspy_rated_bind;
    [apply airspy_key_switch_rated; [airspy_index | exact H6] |].
  intros s7 l7 H7. apply airspy_rated_bind;
    [apply airspy_key_switch_rated; [airspy_index | exact H7] |].
  intros s8 l8 H8. apply airspy_rated_bind.
  { unfold AirspySource.key_ppm.
    destruct (m !! "ppmp"%string) as [w |].
    - destruct (strtod_ok w); [airspy_rated_fields s8 l8 | exact H8].
    - destruct (m !! "ppmn"%string) as [w |]; [| exact H8].
      destruct (strtod_ok w); [airspy_rated_fields s8 l8 | exact H8]. }
  intros s9 l9 H9. apply airspy_rated_bind.
  { unfold AirspySource.key_fcpos.
    destruct (m !! "fcpos"%string) as [w |]; [| exact H9].
    cbv zeta. destruct (_ || _); airspy_rated_fields s9 l9.
    destruct H9 as [H9 _]. exact H9. }
  intros s10 l10 H10. unfold AirspySource.key_decim.
  destruct (m !! "decim"%string) as [w |]; [| exact H10].
  cbv zeta. destruct (_ || _); airspy_rated_fields s10 l10.
  destruct H10 as [H10 _]. exact H10.
Qed.

Lemma airspy_rate_bind (R : Z)
    (p : parse AirspySource.t AirspySource.t)
    (k : AirspySource.t -> parse AirspySource.t AirspySource.t) :
  AirspySource.m_sampleRate (parse_state p) = R ->
  (forall s1, AirspySource.m_sampleRate (parse_state (k s1))
              = AirspySource.m_sampleRate s1) ->
  AirspySource.m_sampleRate (parse_state (p ≫= k)) = R.
Proof.
  destruct p as [f | s1]; cbn [mbind parse_mbind parse_bind parse_state].
  - intros Hf _. exact Hf.
  - intros H1' Hk. rewrite Hk. exact H1'.
Qed.

Lemma airspy_setting_rate on assign c err (s : AirspySource.t) :
  (forall x, AirspySource.m_sampleRate (assign x) = AirspySource.m_sampleRate x
             /\ AirspySource.m_srates (assign x) = AirspySource.m_srates x) ->
  AirspySource.m_sampleRate (parse_state (AirspySource.setting on assign c err s))
  = AirspySource.m_sampleRate s
  /\ AirspySource.m_srates (parse_state (AirspySource.setting on assign c err s))
     = AirspySource.m_srates s.
Proof.
  intros Hassign. unfold AirspySource.setting, AirspySource.invoke.
  destruct on; [| cbn; auto]. cbv zeta.
  destruct (Hassign s) as (R & L). set (s1 := assign s) in *.
  destruct (AirspySource.success _ _); cbn [parse_state];
    rewrite <- R, <- L; destruct s1; cbn; auto.
Qed.

Ltac airspy_keeps_rate :=
  let x := fresh "x" in intros x; destruct x; cbn; auto.

Lemma airspy_configure_flags_rate (R : Z)
    (changeFlags sampleRateIndex frequency bias_ant lna_gain mix_gain vga_gain
     lna_agc mix_agc : Z) (s s' : AirspySource.t) (r : bool) :
  0 <= R < 2 ^ 32 ->
  AirspySource.m_sampleRate s = R ->
  0 <= sampleRateIndex ->
  AirspySource.m_srates s !! Z.to_nat sampleRateIndex = Some (s32 R) ->
  AirspySource.configure_flags changeFlags sampleRateIndex frequency
    bias_ant lna_gain mix_gain vga_gain lna_agc mix_agc s = Some (s', r) ->
  AirspySource.m_sampleRate s' = R.
Proof.
  intros HR Hrate Hidx Hlook. unfold AirspySource.configure_flags.
  destruct (negb (AirspySource.m_dev s)); [intros [= <- <-]; exact Hrate |].
  match goal with
  | |- context [AirspySource.setting ?on ?a ?c ?e s] =>
      pose proof (airspy_setting_rate on a c e s) as Hfreq;
      destruct (AirspySource.setting on a c e s) as [f | s1]
  end.
  - intros [= <- <-]. rewrite <- Hrate. apply Hfreq. airspy_keeps_rate.
  - destruct Hfreq as [Hr1 Hl1]; [airspy_keeps_rate |].
    cbn [parse_state] in Hr1, Hl1. rewrite Hl1.
    assert (Hidx' : (sampleRateIndex <? 0) = false) by (apply Z.ltb_ge; lia).
    rewrite Hidx', Hlook.
    assert (Hstep :
      forall rate, (has_flag changeFlags 2 = true -> u32 rate = R) ->
        AirspySource.m_sampleRate
          (parse_state
             (match AirspySource.setting (has_flag changeFlags 2) id
                      (fun _ => AirspySource.airspy_set_samplerate sampleRateIndex)
                      (fun _ => ("Could not set center sample rate to "
                                 +:+ pretty rate +:+ " Hz")%string) s1 with
              | Fail f => Fail f
              | Continue c =>
                  Continue (if has_flag changeFlags 2
                            then AirspySource.set_m_sampleRate (u32 rate) c
                            else c)
              end)) = R).
    { intros rate Hrate'.
      match goal with
      | |- context [AirspySource.setting ?on ?a ?c ?e s1] =>
          pose proof (airspy_setting_rate on a c e s1) as Hs;
          destruct (AirspySource.setting on a c e s1) as [f | c1]
      end; (destruct Hs as [Hs _]; [intros x; cbn; auto |]);
        cbn [parse_state] in Hs |- *.
      - congruence.
      - destruct (has_flag changeFlags 2).
        + rewrite <- (Hrate' eq_refl). destruct c1; reflexivity.
        + congruence. }
    destruct (has_flag changeFlags 2) eqn:Hflag; cbn [mbind option_bind].
    + match goal with
      | |- match ?run with _ => _ end = _ -> _ =>
          assert (Hrun : AirspySource.m_sampleRate (parse_state run) = R);
            [| destruct run as [f | c]; intros [= <- <-]; exact Hrun]
      end.
      apply airspy_rate_bind;
        [apply Hstep; intros _; apply u32_s32, HR |].
      intros s2. apply airspy_rate_bind;
        [apply airspy_setting_rate; airspy_keeps_rate |].
      intros s3. apply airspy_rate_bind;
        [apply airspy_setting_rate; airspy_keeps_rate |].
      intros s4. apply airspy_rate_bind;
        [apply airspy_setting_rate; airspy_keeps_rate |].
      intros s5. apply airspy_rate_bind;
        [apply airspy_setting_rate; airspy_keeps_rate |].
      intros s6. apply airspy_rate_bind;
        [apply airspy_setting_rate; airspy_keeps_rate |].
      intros s7. apply airspy_setting_rate; airspy_keeps_rate.
    + match goal with
      | |- match ?run with _ => _ end = _ -> _ =>
          assert (Hrun : AirspySource.m_sampleRate (parse_state run) = R);
            [| destruct run as [f | c]; intros [= <- <-]; exact Hrun]
      end.
      apply airspy_rate_bind;
        [apply Hstep; discriminate |].
      intros s2. apply airspy_rate_bind;
        [apply airspy_setting_rate; airspy_keeps_rate |].
      intros s3. apply airspy_rate_bind;
        [apply airspy_setting_rate; airspy_keeps_rate |].
      intros s4. apply airspy_rate_bind;
        [apply airspy_setting_rate; airspy_keeps_rate |].
      intros s5. apply airspy_rate_bind;
        [apply airspy_setting_rate; airspy_keeps_rate |].
      intros s6. apply airspy_rate_bind;
        [apply airspy_setting_rate; airspy_keeps_rate |].
      intros s7. apply airspy_setting_rate; airspy_keeps_rate.
Qed.

(** X21. [AirspySource::configure(pairs_type&)] assigns the sample rate
    member before anything is asked of the device: when the map names a
    listed rate (and its "freq", if any, is in range), [get_sample_rate]
    afterwards is that rate whatever the call returns, also when it returns
    [false] because a later key is refused or because the device refuses
    the rate. *)
Theorem airspy_configure_sets_rate_early (m : gmap string string) (v : string)
    (s s' : AirspySource.t) (r : bool) :
  (forall f, m !! "freq"%string = Some f ->
             24000000 <= u32 (atoi f) <= 1800000000) ->
  m !! "srate"%string = Some v -> strcasecmp_eq v "list" = false ->
  In (s32 (u32 (atoi v))) (AirspySource.m_srates s) ->
  AirspySource.configure m s = Some (s', r) ->
  AirspySource.get_sample_rate s' = u32 (atoi v).
Proof.
  intros Hfreq Hv Hlist Hin. unfold AirspySource.configure,
    AirspySource.get_sample_rate.
  pose proof (airspy_read_keys_rated m v s Hfreq Hv Hlist Hin) as Hr.
  destruct (AirspySource.read_keys m s) as [f | [s1 l]].
  - intros [= <- <-]. exact Hr.
  - cbv zeta. destruct Hr as (Hrate & Hidx & Hlook).
    match goal with
    | |- context [@mbind option _ _ _ _ ?o] => destruct o as [quarter |]
    end; cbn [mbind option_bind]; [| discriminate].
    apply airspy_configure_flags_rate.
    + apply u32_range.
    + rewrite <- Hrate. destruct s1; reflexivity.
    + exact Hidx.
    + rewrite <- Hlook. destruct s1; reflexivity.
Qed.

(** *** The Airspy HF *)

Lemma airspyhf_rated_bind (R : Z)
    (p : parse AirspyHFSource.t (AirspyHFSource.t * AirspyHFSource.locals))
    (k : AirspyHFSource.t * AirspyHFSource.locals
         -> parse AirspyHFSource.t (AirspyHFSource.t * AirspyHFSource.locals)) :
  airspyhf_rated R p ->
  (forall s1 l1, airspyhf_rated R (Continue (s1, l1)) ->
                 airspyhf_rated R (k (s1, l1))) ->
  airspyhf_rated R (p ≫= k).
Proof.
  destruct p as [f | [s1 l1]]; cbn [mbind parse_mbind parse_bind].
  - intros Hf _. exact Hf.
  - intros H1' Hk. apply Hk, H1'.
Qed.

Lemma airspyhf_read_keys_rated m (v : string) (s : AirspyHFSource.t) :
  (forall f, m !! "freq"%string = Some f ->
             24000000 <= u32 (atoi f) <= 1800000000) ->
  m !! "srate"%string = Some v -> strcasecmp_eq v "list" = false ->
  In (s32 (u32 (atoi v))) (AirspyHFSource.m_srates s) ->
  airspyhf_rated (u32 (atoi v)) (AirspyHFSource.read_keys m s).
Proof.
  intros Hfreq Hv Hlist Hin. unfold AirspyHFSource.read_keys. cbv zeta.
  assert (Hk : exists l,
            AirspyHFSource.key_freq m
              (s, AirspyHFSource.mkLocals 0 (AirspyHFSource.m_confFreq s) 0)
            = Continue (s, l)).
  { unfold AirspyHFSource.key_freq. destruct (m !! "freq"%string) as [f |];
      [| eexists; reflexivity].
    cbv zeta. rewrite (frequency_accepted _ (Hfreq f eq_refl)).
    eexists. reflexivity. }
  destruct Hk as [l0 ->]. cbn [mbind parse_mbind parse_bind].
  apply airspyhf_rated_bind.
  { unfold AirspyHFSource.key_srate. rewrite Hv, Hlist. cbv zeta.
    assert (Hs1 : AirspyHFSource.m_sampleRate
                    (AirspyHFSource.set_m_sampleRate (u32 (atoi v)) s)
                  = u32 (atoi v)
                  /\ AirspyHFSource.m_srates
                       (AirspyHFSource.set_m_sampleRate (u32 (atoi v)) s)
                     = AirspyHFSource.m_srates s)
      by (destruct s; cbn; auto).
    destruct Hs1 as [-> Hrates]. rewrite Hrates.
    destruct (find_rate_Some _ _ 0 Hin) as [i Hi]. rewrite Hi.
    destruct (find_rate_lookup _ _ 0 i ltac:(lia) Hi) as [Hle Hl].
    rewrite Z.sub_0_r in Hl. cbn.
    split; [destruct s; reflexivity |]. split; [exact Hle |].
    destruct s; exact Hl. }
  intros s2 l2 H2'. apply airspyhf_rated_bind.
  { unfold AirspyHFSource.key_ppm.
    destruct (m !! "ppmp"%string) as [w |].
    - destruct (strtod_ok w); [destruct s2, l2; cbn in *; auto | exact H2'].
    - destruct (m !! "ppmn"%string) as [w |]; [| exact H2'].
      destruct (strtod_ok w); [destruct s2, l2; cbn in *; auto | exact H2']. }
  intros s3 l3 H3. unfold AirspyHFSource.key_decim.
  destruct (m !! "decim"%string) as [w |]; [| exact H3].
  cbv zeta. destruct (_ || _); destruct s3, l3; cbn in *; auto.
  destruct H3 as [H3 _]. exact H3.
Qed.

Lemma airspyhf_configure_flags_rate (R : Z)
    (changeFlags sampleRateIndex frequency hf_agc hf_att hf_lna : Z)
    (s s' : AirspyHFSource.t) (r : bool) :
  0 <= R < 2 ^ 32 ->
  AirspyHFSource.m_sampleRate s = R ->
  0 <= sampleRateIndex ->
  AirspyHFSource.m_srates s !! Z.to_nat sampleRateIndex = Some (s32 R) ->
  AirspyHFSource.configure_flags changeFlags sampleRateIndex frequency
    hf_agc hf_att hf_lna s = Some (s', r) ->
  AirspyHFSource.m_sampleRate s' = R.
Proof.
  intros HR Hrate Hidx Hlook.
  assert (Hidx' : (sampleRateIndex <? 0) = false) by (apply Z.ltb_ge; lia).
  pose proof (u32_s32 R HR) as Hback.
  unfold AirspyHFSource.configure_flags, AirspyHFSource.invoke.
  destruct (negb (AirspyHFSource.m_dev s)); [intros [= <- <-]; exact Hrate |].
  cbv zeta. rewrite Hidx'.
  destruct (has_flag changeFlags 1).
  - destruct (AirspyHFSource.success _ _).
    + destruct (has_flag changeFlags 2).
      * replace (AirspyHFSource.m_srates
                   (AirspyHFSource.set_calls _
                      (AirspyHFSource.set_m_frequency (u32 frequency) s)))
          with (AirspyHFSource.m_srates s) by (destruct s; reflexivity).
        rewrite Hlook. cbn [mbind option_bind].
        destruct (AirspyHFSource.success _ _); intros [= <- <-];
          destruct s; cbn in *; congruence.
      * intros [= <- <-]. destruct s; cbn in *; congruence.
    + intros [= <- <-]. destruct s; cbn in *; congruence.
  - destruct (has_flag changeFlags 2).
    + rewrite Hlook. cbn [mbind option_bind].
      destruct (AirspyHFSource.success _ _); intros [= <- <-];
        destruct s; cbn in *; congruence.
    + intros [= <- <-]. exact Hrate.
Qed.

(** X22. The same for [AirspyHFSource::configure(pairs_type&)]: when the
    map names a listed rate (and its "freq", if any, is in range),
    [get_sample_rate] afterwards is that rate whatever the call returns,
    also when the device refuses the rate or the frequency. *)
Theorem airspyhf_configure_sets_rate_early (m : gmap string string) (v : string)
    (s s' : AirspyHFSource.t) (r : bool) :
  (forall f, m !! "freq"%string = Some f ->
             24000000 <= u32 (atoi f) <= 1800000000) ->
  m !! "srate"%string = Some v -> strcasecmp_eq v "list" = false ->
  In (s32 (u32 (atoi v))) (AirspyHFSource.m_srates s) ->
  AirspyHFSource.configure m s = Some (s', r) ->
  AirspyHFSource.get_sample_rate s' = u32 (atoi v).
Proof.
  intros Hfreq Hv Hlist Hin. unfold AirspyHFSource.configure,
    AirspyHFSource.get_sample_rate.
  pose proof (airspyhf_read_keys_rated m v s Hfreq Hv Hlist Hin) as Hr.
  destruct (AirspyHFSource.read_keys m s) as [f | [s1 l]].
  - intros [= <- <-]. exact Hr.
  - cbv zeta. destruct Hr as (Hrate & Hidx & Hlook).
    apply airspyhf_configure_flags_rate.
    + apply u32_range.
    + rewrite <- Hrate. destruct s1; reflexivity.
    + exact Hidx.
    + rewrite <- Hlook. destruct s1; reflexivity.
Qed.

End ConfigureRate.

(** ** The callbacks of the device sources *)

Lemma callback_loop_pairs (n : nat) :
  forall (pre post : list Z) (done todo : list IQSample),
    length pre = (2 * length done)%nat ->
    length todo = n ->
    (2 * n <= length post)%nat ->
    callback_loop n (pre ++ post) (Z.of_nat (length pre))
      (Z.of_nat (length done)) (done ++ todo)
    = Some (done ++ pairs (take (2 * n) post)).
Proof.
  induction n as [| k IH]; intros pre post done todo Hpre Htodo Hpost.
  - destruct todo; [| discriminate]. reflexivity.
  - destruct todo as [| t todo]; [discriminate |].
    destruct post as [| re [| im post]]; cbn [length] in Hpost; try lia.
    cbn [callback_loop].
    assert (E0 : (Z.of_nat (length pre) <? 0) = false) by (apply Z.ltb_ge; lia).
    assert (E1 : (Z.of_nat (length pre) + 1 <? 0) = false) by (apply Z.ltb_ge; lia).
    rewrite E0, E1, !Nat2Z.id.
    replace (Z.to_nat (Z.of_nat (length pre) + 1)) with (length pre + 1)%nat by lia.
    assert (L0 : (pre ++ re :: im :: post) !! length pre = Some re)
      by (apply list_lookup_middle; reflexivity).
    assert (L1 : (pre ++ re :: im :: post) !! (length pre + 1)%nat = Some im).
    { replace (pre ++ re :: im :: post) with ((pre ++ [re]) ++ im :: post)
        by (rewrite <- app_assoc; reflexivity).
      apply list_lookup_middle. rewrite length_app. reflexivity. }
    rewrite L0, L1. cbn [mbind option_bind].
    assert (Ej : (0 <=? Z.of_nat (length done))
                 && (Z.of_nat (length done)
                     <? Z.of_nat (length (done ++ t :: todo))) = true).
    { rewrite length_app. cbn [length].
      apply andb_true_intro. split; [apply Z.leb_le | apply Z.ltb_lt]; lia. }
    rewrite Ej.
    replace (length done) with (length done + 0)%nat at 2 by lia.
    rewrite insert_app_r. cbn [insert list_insert].
    replace (pre ++ re :: im :: post) with ((pre ++ [re; im]) ++ post)
      by (rewrite <- app_assoc; reflexivity).
    replace (done ++ mkIQ re im :: todo) with ((done ++ [mkIQ re im]) ++ todo)
      by (rewrite <- app_assoc; reflexivity).
    replace (Z.of_nat (length pre) + 2) with (Z.of_nat (length (pre ++ [re; im])))
      by (rewrite length_app; cbn [length]; lia).
    replace (Z.of_nat (length done) + 1)
      with (Z.of_nat (length (done ++ [mkIQ re im])))
      by (rewrite length_app; cbn [length]; lia).
    rewrite IH.
    + replace (2 * S k)%nat with (S (S (2 * k))) by lia.
      cbn [take pairs]. rewrite <- app_assoc. reflexivity.
    + rewrite !length_app. cbn [length]. lia.
    + cbn [length] in Htodo. lia.
    + lia.
Qed.

Lemma callback_loop_overrun (n : nat) :
  forall (buf : list Z) (i j : Z) (v : list IQSample),
    Z.of_nat (length v) <= j + Z.of_nat n ->
    callback_loop (S n) buf i j v = None.
Proof.
  induction n as [| k IH]; intros buf i j v Hlen;
    cbn [callback_loop];
    (destruct (if i <? 0 then None else buf !! Z.to_nat i) as [re |];
       cbn [mbind option_bind]; [| reflexivity]);
    (destruct (if i + 1 <? 0 then None else buf !! Z.to_nat (i + 1)) as [im |];
       cbn [mbind option_bind]; [| reflexivity]).
  - assert (E : (j <? Z.of_nat (length v)) = false) by (apply Z.ltb_ge; lia).
    rewrite E, andb_false_r. reflexivity.
  - destruct ((0 <=? j) && (j <? Z.of_nat (length v))); [| reflexivity].
    apply IH. rewrite length_insert. lia.
Qed.

Lemma length_pairs_take (k : nat) :
  forall buf : list Z, (2 * k <= length buf)%nat ->
    length (pairs (take (2 * k) buf)) = k.
Proof.
  induction k as [| k IH]; intros buf Hlen; [reflexivity |].
  destruct buf as [| re [| im buf]]; cbn [length] in Hlen; try lia.
  replace (2 * S k)%nat with (S (S (2 * k))) by lia.
  cbn [take pairs length]. rewrite IH by lia. reflexivity.
Qed.

Lemma device_callback_even (buf : list Z) (k : nat) :
  (2 * k <= length buf)%nat ->
  device_callback buf (2 * Z.of_nat k) = Some (pairs (take (2 * k) buf)).
Proof.
  intros Hlen. unfold device_callback.
  rewrite (Z.mul_comm 2), Z.quot_mul by lia.
  assert (E : (Z.of_nat k <? 0) = false) by (apply Z.ltb_ge; lia).
  rewrite E.
  replace ((Z.of_nat k * 2 + 1) / 2) with (Z.of_nat k)
    by (apply Z.div_unique with (r := 1); lia).
  rewrite Nat2Z.id.
  exact (callback_loop_pairs k [] buf [] (replicate k (mkIQ 0 0))
           eq_refl (length_replicate _ _) Hlen).
Qed.

(** X19. [callback] (of both sources) on [len = 2k] shorts, all inside the
    buffer, pushes exactly [k] samples: the consecutive pairs of the first
    [len] shorts, in order.  On an odd positive [len] it is undefined: the
    last iteration writes one element past the vector of [len/2]
    samples. *)
Theorem callback_pairs_the_buffer (buf : list Z) (k : nat) :
  (2 * k <= length buf)%nat ->
  AirspySource.callback buf (2 * Z.of_nat k) = Some (pairs (take (2 * k) buf))
  /\ AirspyHFSource.callback buf (2 * Z.of_nat k)
     = Some (pairs (take (2 * k) buf))
  /\ length (pairs (take (2 * k) buf)) = k
  /\ AirspySource.callback buf (2 * Z.of_nat k + 1) = None
  /\ AirspyHFSource.callback buf (2 * Z.of_nat k + 1) = None.
Proof.
  intros Hlen.
  assert (Hodd : device_callback buf (2 * Z.of_nat k + 1) = None).
  { unfold device_callback.
    replace (Z.quot (2 * Z.of_nat k + 1) 2) with (Z.of_nat k)
      by (rewrite Z.quot_div_nonneg by lia;
          apply Z.div_unique with (r := 1); lia).
    assert (E : (Z.of_nat k <? 0) = false) by (apply Z.ltb_ge; lia).
    rewrite E.
    replace ((2 * Z.of_nat k + 1 + 1) / 2) with (Z.of_nat (S k))
      by (apply Z.div_unique with (r := 0); lia).
    rewrite Nat2Z.id.
    apply callback_loop_overrun. rewrite length_replicate. lia. }
  unfold AirspySource.callback, AirspyHFSource.callback.
  rewrite device_callback_even by exact Hlen.
  rewrite length_pairs_take by exact Hlen. auto.
Qed.

(** X20. [rx_callback] (of both sources) on a transfer of [sample_count]
    samples held by the buffer: with the instance pointer set it pushes
    exactly [sample_count] samples, the consecutive pairs of the buffer,
    and returns 0; with the pointer null it pushes nothing and returns
    0. *)
Theorem rx_callback_pushes_transfer (samples : list Z) (sample_count : nat) :
  (2 * sample_count <= length samples)%nat ->
  2 * Z.of_nat sample_count <= INT_MAX ->
  AirspySource.rx_callback true samples (Z.of_nat sample_count)
  = Some (Some (pairs (take (2 * sample_count) samples)), 0)
  /\ AirspyHFSource.rx_callback true samples (Z.of_nat sample_count)
     = Some (Some (pairs (take (2 * sample_count) samples)), 0)
  /\ AirspySource.rx_callback false samples (Z.of_nat sample_count)
     = Some (None, 0)
  /\ AirspyHFSource.rx_callback false samples (Z.of_nat sample_count)
     = Some (None, 0).
Proof.
  intros Hlen Hint.
  unfold AirspySource.rx_callback, AirspyHFSource.rx_callback,
    device_rx_callback. cbv zeta.
  assert (E : (Z.of_nat sample_count * 2 <? - 2 ^ 31)
              || (INT_MAX <? Z.of_nat sample_count * 2) = false).
  { apply orb_false_intro; apply Z.ltb_ge; lia. }
  rewrite E, (Z.mul_comm _ 2), device_callback_even by exact Hlen.
  cbn [mbind option_bind]. auto.
Qed.

(** ** Closed instances of the further properties *)

(** X1, witness: an empty vector on the 44-byte sink. *)
Lemma write_empty_frame_sink44 :
  well_configured sink44 /\ lz4_defined sink44 []
  /\ exists st' hdr,
       write_ref env0 sink44 [] = Some (st', [hdr])
       /\ MetaData.m_nbSamples (MetaData.of_bytes hdr) = 0
       /\ MetaData.m_nbCompleteBlocks (MetaData.of_bytes hdr) = 0
       /\ MetaData.m_remainderSamples (MetaData.of_bytes hdr) = 0
       /\ UDPSink.m_buf st' = UDPSink.m_buf sink44.
Proof.
  split; [exact sink44_well_configured |].
  split; [exact (lz4_off_defined sink44 [] eq_refl) |].
  exact (@write_empty_frame crc64_ref lz4_ref meta_eq_ref env0 sink44
           sink44_well_configured (lz4_off_defined sink44 [] eq_refl)).
Defined.

(** X2, witness: 25 samples in 44-byte datagrams (two blocks of 11 and a
    remainder of 3). *)
Lemma write_payload_carries_frame_25 :
  well_configured sink44 /\ lz4_defined sink44 (ramp 25)
  /\ Z.of_nat (length (ramp 25)) / UDPSink.samplesPerBlock sink44 < 2 ^ 16
  /\ exists st' hdr blocks last,
       write_ref env0 sink44 (ramp 25) = Some (st', hdr :: blocks ++ last)
       /\ Z.of_nat (length blocks)
          = MetaData.m_nbCompleteBlocks (MetaData.of_bytes hdr)
       /\ concat blocks
          ++ take (Z.to_nat (sizeof_IQSample
                             * MetaData.m_remainderSamples (MetaData.of_bytes hdr)))
                  (concat last)
          = IQ_image (ramp 25).
Proof.
  split; [exact sink44_well_configured |].
  split; [exact (lz4_off_defined sink44 (ramp 25) eq_refl) |].
  split; [vm_compute; reflexivity |].
  exact (@write_payload_carries_frame crc64_ref lz4_ref meta_eq_ref env0 sink44
           (ramp 25) sink44_well_configured
           (lz4_off_defined sink44 (ramp 25) eq_refl) eq_refl).
Defined.

(** X3, witness: the four datagrams of a frame of 25 samples. *)
Lemma write_datagram_count_bounded_25 :
  exists st' datagrams,
    write_ref env0 sink44 (ramp 25) = Some (st', datagrams)
    /\ Z.of_nat (length datagrams) <= 65537.
Proof.
  destruct (write_ref env0 sink44 (ramp 25)) as [[st' datagrams] |] eqn:E;
    [| vm_compute in E; discriminate E].
  exists st', datagrams. split; [reflexivity |].
  exact (@write_datagram_count_bounded crc64_ref lz4_ref meta_eq_ref env0 sink44
           (ramp 25) st' datagrams E).
Defined.

(** X4, witness: the header datagram of a frame of 25 samples. *)
Lemma write_header_padding_25 :
  well_configured sink44 /\ lz4_defined sink44 (ramp 25)
  /\ exists st' hdr payload,
       write_ref env0 sink44 (ramp 25) = Some (st', hdr :: payload)
       /\ drop (Z.to_nat MetaData.sizeof) hdr
          = drop (Z.to_nat MetaData.sizeof) (UDPSink.m_bufMeta sink44)
       /\ UDPSink.m_bufMeta st' = hdr.
Proof.
  split; [exact sink44_well_configured |].
  split; [exact (lz4_off_defined sink44 (ramp 25) eq_refl) |].
  exact (@write_header_padding crc64_ref lz4_ref meta_eq_ref env0 sink44 (ramp 25)
           sink44_well_configured (lz4_off_defined sink44 (ramp 25) eq_refl)).
Defined.

Lemma sink44_lz4_off : UDPSink.m_lz4MinInputSize sink44 <= 0.
Proof. vm_compute. intro Hx. discriminate Hx. Defined.

(** X5, witness: a frame of 25 samples with LZ4 sizing off. *)
Lemma write_without_lz4_keeps_buffer_25 :
  UDPSink.m_lz4MinInputSize sink44 <= 0
  /\ exists st' datagrams,
       write_ref env0 sink44 (ramp 25) = Some (st', datagrams)
       /\ UDPSink.m_lz4Buffer st' = UDPSink.m_lz4Buffer sink44
       /\ UDPSink.m_lz4BufSize st' = UDPSink.m_lz4BufSize sink44
       /\ UDPSink.m_lz4MinInputSize st' = UDPSink.m_lz4MinInputSize sink44.
Proof.
  split; [exact sink44_lz4_off |].
  destruct (write_ref env0 sink44 (ramp 25)) as [[st' datagrams] |] eqn:E;
    [| vm_compute in E; discriminate E].
  exists st', datagrams. split; [reflexivity |].
  exact (@write_without_lz4_keeps_buffer crc64_ref lz4_ref meta_eq_ref env0 sink44
           (ramp 25) st' datagrams sink44_lz4_off E).
Defined.

(** X6, witness: a first frame of 3 samples (12 bytes) with a minimum
    input size of 1000: the buffer is sized for 1008 bytes of input. *)
Lemma write_resizes_lz4_buffer_to_frames_3 :
  exists st' datagrams,
    write_ref env0 sink44_lz4 (ramp 3) = Some (st', datagrams)
    /\ 0 < UDPSink.m_lz4MinInputSize sink44_lz4
    /\ u32 (Z.of_nat (length (ramp 3))) <> UDPSink.m_nbSamples sink44_lz4
    /\ UDPSink.m_lz4MinInputSize sink44_lz4
       + u32 (u32 (Z.of_nat (length (ramp 3))) * 2
              * UDPSink.m_sampleBytes sink44_lz4) < 2 ^ 31
    /\ UDPSink.m_lz4Buffer st' = UDPSink.new_ptr env0
    /\ exists size,
         UDPSink.m_lz4BufSize st' = @LZ4_compressBound lz4_ref size
         /\ size mod u32 (u32 (Z.of_nat (length (ramp 3))) * 2
                          * UDPSink.m_sampleBytes sink44_lz4) = 0
         /\ UDPSink.m_lz4MinInputSize sink44_lz4 < size
            <= UDPSink.m_lz4MinInputSize sink44_lz4
               + u32 (u32 (Z.of_nat (length (ramp 3))) * 2
                      * UDPSink.m_sampleBytes sink44_lz4).
Proof.
  destruct (write_ref env0 sink44_lz4 (ramp 3)) as [[st' datagrams] |] eqn:E;
    [| vm_compute in E; discriminate E].
  exists st', datagrams. split; [reflexivity |].
  assert (H1 : 0 < UDPSink.m_lz4MinInputSize sink44_lz4) by reflexivity.
  assert (H2 : u32 (Z.of_nat (length (ramp 3))) <> UDPSink.m_nbSamples sink44_lz4)
    by (vm_compute; intro Hx; discriminate Hx).
  assert (H3 : UDPSink.m_lz4MinInputSize sink44_lz4
               + u32 (u32 (Z.of_nat (length (ramp 3))) * 2
                      * UDPSink.m_sampleBytes sink44_lz4) < 2 ^ 31)
    by reflexivity.
  split; [exact H1 |]. split; [exact H2 |]. split; [exact H3 |].
  exact (@write_resizes_lz4_buffer_to_frames crc64_ref lz4_ref meta_eq_ref env0
           sink44_lz4 (ramp 3) st' datagrams E H1 H2 H3).
Defined.

Lemma sink44_lz4_after3_well_configured : well_configured sink44_lz4_after3.
Proof. unfold well_configured. by_computation. Defined.

Lemma sink44_lz4_dangling_well_configured : well_configured sink44_lz4_dangling.
Proof. unfold well_configured. by_computation. Defined.

(** X7, witness: with LZ4 sizing on, an empty frame after a frame of 3
    samples (the division by zero), and a frame of 4 samples when the
    array has been deleted (the second deletion). *)
Lemma write_defined_iff_lz4_on :
  well_configured sink44_lz4_after3
  /\ well_configured sink44_lz4_dangling
  /\ (is_Some (write_ref env1 sink44_lz4_after3 [])
      <-> lz4_defined sink44_lz4_after3 [])
  /\ (is_Some (write_ref env1 sink44_lz4_dangling (ramp 4))
      <-> lz4_defined sink44_lz4_dangling (ramp 4)).
Proof.
  split; [exact sink44_lz4_after3_well_configured |].
  split; [exact sink44_lz4_dangling_well_configured |].
  split.
  - exact (@write_defined_iff crc64_ref lz4_ref meta_eq_ref env1
             sink44_lz4_after3 [] sink44_lz4_after3_well_configured).
  - exact (@write_defined_iff crc64_ref lz4_ref meta_eq_ref env1
             sink44_lz4_dangling (ramp 4) sink44_lz4_dangling_well_configured).
Defined.

(** In both runs the call is undefined, and so is a second
    [setLZ4MinInputSize(0)]; a frame of the recorded size goes through. *)
Example write_undefined_with_lz4_on :
  write_ref env1 sink44_lz4_after3 [] = None
  /\ ~ lz4_defined sink44_lz4_after3 []
  /\ UDPSink.m_lz4Buffer sink44_lz4_dangling = 4096
  /\ UDPSink.lz4_deleted sink44_lz4_dangling = true
  /\ write_ref env1 sink44_lz4_dangling (ramp 4) = None
  /\ ~ lz4_defined sink44_lz4_dangling (ramp 4)
  /\ UDPSink.setLZ4MinInputSize sink44_lz4_dangling 0 = None
  /\ is_Some (write_ref env1 sink44_lz4_dangling (ramp 3)).
Proof.
  split; [vm_compute; reflexivity |].
  split.
  { intros [Hd | [Hd | [Hd _]]]; vm_compute in Hd;
      [apply Hd; reflexivity | discriminate Hd | apply Hd; reflexivity]. }
  split; [vm_compute; reflexivity |].
  split; [vm_compute; reflexivity |].
  split; [vm_compute; reflexivity |].
  split.
  { intros [Hd | [Hd | [_ Hd]]]; vm_compute in Hd;
      [apply Hd; reflexivity | discriminate Hd | discriminate Hd]. }
  split; [vm_compute; reflexivity |].
  vm_compute. eexists. reflexivity.
Qed.

(** X8, witness: LZ4 sizing turned off between two frames of 3 samples,
    the first of which allocated the buffer: the pointer is kept, the size
    reset, the array deleted. *)
Lemma setLZ4MinInputSize_between_equal_frames_3 :
  exists st1 d1 st1' st2 d2,
    write_ref env0 sink44_lz4 (ramp 3) = Some (st1, d1)
    /\ UDPSink.setLZ4MinInputSize st1 0 = Some st1'
    /\ write_ref env1 st1' (ramp 3) = Some (st2, d2)
    /\ length (ramp 3) = length (ramp 3)
    /\ UDPSink.m_lz4Buffer st2 = UDPSink.m_lz4Buffer st1
    /\ UDPSink.m_lz4BufSize st2
       = (if 0 =? 0 then 0 else UDPSink.m_lz4BufSize st1)
    /\ UDPSink.m_lz4MinInputSize st2 = 0
    /\ UDPSink.lz4_deleted st2
       = (if 0 =? 0 then negb (UDPSink.m_lz4Buffer st1 =? 0)
          else UDPSink.lz4_deleted st1).
Proof.
  destruct (write_ref env0 sink44_lz4 (ramp 3)) as [[st1 d1] |] eqn:E1;
    [| vm_compute in E1; discriminate E1].
  destruct (UDPSink.setLZ4MinInputSize st1 0) as [st1' |] eqn:E2;
    [| exfalso; vm_compute in E1; injection E1 as <- _;
       vm_compute in E2; discriminate E2].
  destruct (write_ref env1 st1' (ramp 3)) as [[st2 d2] |] eqn:E3.
  - exists st1, d1, st1', st2, d2.
    split; [reflexivity |]. split; [exact E2 |]. split; [exact E3 |].
    split; [reflexivity |].
    exact (@setLZ4MinInputSize_between_equal_frames crc64_ref lz4_ref meta_eq_ref
             env0 env1 sink44_lz4 st1 st1' st2 (ramp 3) (ramp 3) d1 d2 0
             E1 E2 E3 eq_refl).
  - exfalso. vm_compute in E1. injection E1 as <- _.
    vm_compute in E2. injection E2 as <-.
    vm_compute in E3. discriminate E3.
Defined.

(** X9, witness: the 44-byte sink after a frame of 25 samples. *)
Lemma write_keeps_sink_usable_25 :
  well_configured sink44 /\ UDPSink.m_lz4MinInputSize sink44 = 0
  /\ exists st' datagrams,
       write_ref env0 sink44 (ramp 25) = Some (st', datagrams)
       /\ well_configured st'
       /\ UDPSink.m_lz4MinInputSize st' = 0.
Proof.
  split; [exact sink44_well_configured |]. split; [reflexivity |].
  exact (@write_keeps_sink_usable crc64_ref lz4_ref meta_eq_ref env0 sink44
           (ramp 25) sink44_well_configured eq_refl).
Defined.

Lemma init_header_in_range : header_in_range MetaData.init.
Proof. unfold header_in_range. by_computation. Defined.

Lemma zeroes_are_bytes (n : nat) : Forall (fun b => 0 <= b < 256) (repeat 0 n).
Proof.
  induction n as [| n IH]; cbn [repeat]; constructor; [lia | exact IH].
Defined.

(** X10, witness: the initial header and a buffer of 44 zero bytes. *)
Lemma header_layout_round_trip_init :
  header_in_range MetaData.init
  /\ Forall (fun b => 0 <= b < 256) (repeat 0 44%nat)
  /\ MetaData.sizeof <= Z.of_nat (length (repeat 0 44%nat))
  /\ MetaData.of_bytes (MetaData.to_bytes MetaData.init ++ [7; 7]) = MetaData.init
  /\ Z.of_nat (length (MetaData.to_bytes MetaData.init)) = MetaData.sizeof
  /\ MetaData.to_bytes (MetaData.of_bytes (repeat 0 44%nat))
     = take (Z.to_nat MetaData.sizeof) (repeat 0 44%nat).
Proof.
  assert (H3 : MetaData.sizeof <= Z.of_nat (length (repeat 0 44%nat)))
    by (vm_compute; intro Hx; discriminate Hx).
  split; [exact init_header_in_range |].
  split; [exact (zeroes_are_bytes 44) |]. split; [exact H3 |].
  exact (header_layout_round_trip MetaData.init [7; 7] (repeat 0 44%nat)
           init_header_in_range (zeroes_are_bytes 44) H3).
Defined.


(** A computed run that returns exhibits its result to what is proved of
    every result. *)
Lemma run_defined {A B} (r : option (A * B)) (P : A -> B -> Prop) :
  match r with Some _ => True | None => False end ->
  (forall a b, r = Some (a, b) -> P a b) ->
  exists a b, r = Some (a, b) /\ P a b.
Proof.
  destruct r as [[a b] |]; [| intros []].
  intros _ HP. exists a, b. split; [reflexivity | exact (HP a b eq_refl)].
Defined.

Lemma airspy0_open : AirspySource.m_dev airspy0 = true.
Proof. reflexivity. Defined.

(** X12, witness: frequency, sample rate and LNA gain asked of a device
    that refuses the LNA gain: two calls accepted, the third refused. *)
Lemma airspy_configure_flags_stops_at_lna :
  AirspySource.m_dev airspy0 = true
  /\ exists s' r,
       @AirspySource.configure_flags libc_ref airspy_no_lna
         7 1 100000000 0 5 8 0 0 0 airspy0 = Some (s', r)
       /\ exists made,
            AirspySource.calls s' = AirspySource.calls airspy0 ++ made
            /\ if r
               then @AirspySource.all_succeeded airspy_no_lna
                      (AirspySource.calls airspy0) made = true
                    /\ AirspySource.m_error s' = AirspySource.m_error airspy0
               else AirspySource.m_error s' <> ""%string
                    /\ exists done c,
                         made = done ++ [c]
                         /\ @AirspySource.all_succeeded airspy_no_lna
                              (AirspySource.calls airspy0) done = true
                         /\ @AirspySource.success airspy_no_lna
                              (AirspySource.calls airspy0 ++ done) c = false.
Proof.
  split; [exact airspy0_open |].
  apply run_defined; [vm_compute; exact I |]. intros s' r E.
  exact (@airspy_configure_flags_stops_at_refusal libc_ref airspy_no_lna
           7 1 100000000 0 5 8 0 0 0 airspy0 s' r airspy0_open E).
Defined.

Lemma cfg_lgain_99_refused : @airspy_refused_value libc_ref cfg_lgain_99.
Proof.
  left. exists "99"%string. split; [vm_compute; reflexivity |].
  right. intros Hin. vm_compute in Hin.
  repeat (destruct Hin as [Hin | Hin]; [discriminate Hin |]). exact Hin.
Defined.

(** X13, witness: an LNA gain of 99. *)
Lemma airspy_configure_refuses_lgain_99 :
  @airspy_refused_value libc_ref cfg_lgain_99
  /\ exists s',
       @AirspySource.configure libc_ref airspy_ref cfg_lgain_99 airspy0
       = Some (s', false)
       /\ AirspySource.calls s' = AirspySource.calls airspy0
       /\ AirspySource.m_error s' <> ""%string.
Proof.
  split; [exact cfg_lgain_99_refused |].
  exact (@airspy_configure_refuses_value libc_ref airspy_ref cfg_lgain_99 airspy0
           cfg_lgain_99_refused).
Defined.

(** X14, witness: an LNA gain of 5 asked of a device that refuses it. *)
Lemma airspy_configure_reports_refused_lna :
  AirspySource.m_dev airspy0 = true
  /\ exists s' r,
       @AirspySource.configure libc_ref airspy_no_lna cfg_lgain_5 airspy0
       = Some (s', r)
       /\ exists made,
            AirspySource.calls s' = AirspySource.calls airspy0 ++ made
            /\ if r
               then @AirspySource.all_succeeded airspy_no_lna
                      (AirspySource.calls airspy0) made = true
                    /\ AirspySource.m_error s' = AirspySource.m_error airspy0
               else AirspySource.m_error s' <> ""%string
                    /\ (made = []
                        \/ exists done c,
                             made = done ++ [c]
                             /\ @AirspySource.all_succeeded airspy_no_lna
                                  (AirspySource.calls airspy0) done = true
                             /\ @AirspySource.success airspy_no_lna
                                  (AirspySource.calls airspy0 ++ done) c = false).
Proof.
  split; [exact airspy0_open |].
  apply run_defined; [vm_compute; exact I |]. intros s' r E.
  exact (@airspy_configure_reports_failure libc_ref airspy_no_lna cfg_lgain_5
           airspy0 s' r airspy0_open E).
Defined.

(** X15, witness: a frequency of 1000 Hz asked of the Airspy HF. *)
Lemma airspyhf_configure_operator_bool_low_freq :
  exists s' r,
    @AirspyHFSource.configure libc_ref airspyhf_ref cfg_low_freq airspyhf0
    = Some (s', r)
    /\ AirspyHFSource.operator_bool s'
       = r && AirspyHFSource.operator_bool airspyhf0.
Proof.
  apply run_defined; [vm_compute; exact I |]. intros s' r E.
  exact (@airspyhf_configure_operator_bool libc_ref airspyhf_ref cfg_low_freq
           airspyhf0 s' r E).
Defined.

(** X16, witness: the sample rate changed to 2500000 on an Airspy whose
    centre frequency position is 0. *)
Lemma airspy_configure_rate_alone_no_retune :
  cfg_rate_2500000 !! "freq"%string = None
  /\ cfg_rate_2500000 !! "ppmp"%string = None
  /\ cfg_rate_2500000 !! "ppmn"%string = None
  /\ cfg_rate_2500000 !! "fcpos"%string = None
  /\ exists s' r,
       @AirspySource.configure libc_ref airspy_ref cfg_rate_2500000
         airspy_infradyne = Some (s', r)
       /\ AirspySource.m_frequency s' = AirspySource.m_frequency airspy_infradyne
       /\ exists made,
            AirspySource.calls s' = AirspySource.calls airspy_infradyne ++ made
            /\ Forall (fun c => airspy_is_set_freq c = false) made.
Proof.
  assert (H1 : cfg_rate_2500000 !! "freq"%string = None) by (vm_compute; reflexivity).
  assert (H2 : cfg_rate_2500000 !! "ppmp"%string = None) by (vm_compute; reflexivity).
  assert (H3 : cfg_rate_2500000 !! "ppmn"%string = None) by (vm_compute; reflexivity).
  assert (H4 : cfg_rate_2500000 !! "fcpos"%string = None) by (vm_compute; reflexivity).
  split; [exact H1 |]. split; [exact H2 |]. split; [exact H3 |].
  split; [exact H4 |].
  apply run_defined; [vm_compute; exact I |]. intros s' r E.
  exact (@airspy_configure_without_tuning_keys libc_ref airspy_ref
           cfg_rate_2500000 airspy_infradyne s' r H1 H2 H3 H4 E).
Defined.

(** The call made in that run: the sample rate alone. *)
Example rate_alone_calls_set_samplerate :
  exists s' r,
    @AirspySource.configure libc_ref airspy_ref cfg_rate_2500000 airspy_infradyne
    = Some (s', r)
    /\ r = true
    /\ AirspySource.calls s' = [AirspySource.airspy_set_samplerate 1]
    /\ AirspySource.get_sample_rate s' = 2500000.
Proof.
  apply run_result. vm_compute. repeat split; reflexivity.
Qed.

Lemma cfg_ppmp_5_holds_ppmp : cfg_ppmp_5 !! "ppmp"%string = Some "5"%string.
Proof. vm_compute. reflexivity. Defined.

(** X17, witness: "ppmn" added to a map that holds "ppmp". *)
Lemma configure_ppmp_hides_ppmn_5 :
  cfg_ppmp_5 !! "ppmp"%string = Some "5"%string
  /\ @AirspySource.configure libc_ref airspy_ref
       (<["ppmn"%string := "7"%string]> cfg_ppmp_5) airspy0
     = @AirspySource.configure libc_ref airspy_ref cfg_ppmp_5 airspy0
  /\ @AirspyHFSource.configure libc_ref airspyhf_ref
       (<["ppmn"%string := "7"%string]> cfg_ppmp_5) airspyhf0
     = @AirspyHFSource.configure libc_ref airspyhf_ref cfg_ppmp_5 airspyhf0.
Proof.
  split; [exact cfg_ppmp_5_holds_ppmp |].
  exact (@configure_ppmp_hides_ppmn libc_ref airspy_ref airspyhf_ref cfg_ppmp_5
           "5"%string "7"%string airspy0 airspyhf0 cfg_ppmp_5_holds_ppmp).
Defined.

Lemma airspy0_centred :
  AirspySource.m_fcPos airspy0 = 0 \/ AirspySource.m_fcPos airspy0 = 1 ->
  AirspySource.m_srates airspy0 <> [].
Proof. intros _ Hx. discriminate Hx. Defined.

(** X18, witness: the empty map on both devices. *)
Lemma configure_empty_map_both :
  (AirspySource.m_fcPos airspy0 = 0 \/ AirspySource.m_fcPos airspy0 = 1 ->
   AirspySource.m_srates airspy0 <> [])
  /\ @AirspySource.configure libc_ref airspy_ref ∅ airspy0
     = Some (airspy0, AirspySource.m_dev airspy0)
  /\ @AirspyHFSource.configure libc_ref airspyhf_ref ∅ airspyhf0
     = Some (airspyhf0, AirspyHFSource.m_dev airspyhf0).
Proof.
  split; [exact airspy0_centred |].
  exact (@configure_empty_map libc_ref airspy_ref airspyhf_ref airspy0 airspyhf0
           airspy0_centred).
Defined.

Lemma shorts5_holds_two_samples : (2 * 2 <= length shorts5)%nat.
Proof. vm_compute. repeat constructor. Defined.

(** X19, witness: two samples out of a buffer of five shorts. *)
Lemma callback_pairs_shorts5 :
  (2 * 2 <= length shorts5)%nat
  /\ AirspySource.callback shorts5 (2 * Z.of_nat 2)
     = Some (pairs (take (2 * 2) shorts5))
  /\ AirspyHFSource.callback shorts5 (2 * Z.of_nat 2)
     = Some (pairs (take (2 * 2) shorts5))
  /\ length (pairs (take (2 * 2) shorts5)) = 2%nat
  /\ AirspySource.callback shorts5 (2 * Z.of_nat 2 + 1) = None
  /\ AirspyHFSource.callback shorts5 (2 * Z.of_nat 2 + 1) = None.
Proof.
  split; [exact shorts5_holds_two_samples |].
  exact (callback_pairs_the_buffer shorts5 2 shorts5_holds_two_samples).
Defined.

(** X20, witness: a transfer of two samples. *)
Lemma rx_callback_pushes_two_samples :
  (2 * 2 <= length shorts5)%nat
  /\ 2 * Z.of_nat 2 <= INT_MAX
  /\ AirspySource.rx_callback true shorts5 (Z.of_nat 2)
     = Some (Some (pairs (take (2 * 2) shorts5)), 0)
  /\ AirspyHFSource.rx_callback true shorts5 (Z.of_nat 2)
     = Some (Some (pairs (take (2 * 2) shorts5)), 0)
  /\ AirspySource.rx_callback false shorts5 (Z.of_nat 2) = Some (None, 0)
  /\ AirspyHFSource.rx_callback false shorts5 (Z.of_nat 2) = Some (None, 0).
Proof.
  assert (H2 : 2 * Z.of_nat 2 <= INT_MAX) by (vm_compute; intro Hx; discriminate Hx).
  split; [exact shorts5_holds_two_samples |]. split; [exact H2 |].
  exact (rx_callback_pushes_transfer shorts5 2 shorts5_holds_two_samples H2).
Defined.

Lemma cfg_rate_2500000_no_freq (f : string) :
  cfg_rate_2500000 !! "freq"%string = Some f ->
  24000000 <= u32 (@atoi libc_ref f) <= 1800000000.
Proof. intros Hf. vm_compute in Hf. discriminate Hf. Defined.

Lemma cfg_rate_2500000_listed :
  In (s32 (u32 (@atoi libc_ref "2500000")))
     (AirspySource.m_srates airspy0).
Proof. vm_compute. right. left. reflexivity. Defined.

(** X21, witness: the rate 2500000 asked of an Airspy that refuses to
    change its sample rate. *)
Lemma airspy_configure_sets_rate_early_2500000 :
  (forall f, cfg_rate_2500000 !! "freq"%string = Some f ->
             24000000 <= u32 (@atoi libc_ref f) <= 1800000000)
  /\ cfg_rate_2500000 !! "srate"%string = Some "2500000"%string
  /\ strcasecmp_eq "2500000" "list" = false
  /\ In (s32 (u32 (@atoi libc_ref "2500000"))) (AirspySource.m_srates airspy0)
  /\ exists s' r,
       @AirspySource.configure libc_ref airspy_fixed_rate cfg_rate_2500000 airspy0
       = Some (s', r)
       /\ AirspySource.get_sample_rate s' = u32 (@atoi libc_ref "2500000").
Proof.
  assert (H2 : cfg_rate_2500000 !! "srate"%string = Some "2500000"%string)
    by (vm_compute; reflexivity).
  assert (H3 : strcasecmp_eq "2500000" "list" = false) by (vm_compute; reflexivity).
  split; [exact cfg_rate_2500000_no_freq |]. split; [exact H2 |].
  split; [exact H3 |]. split; [exact cfg_rate_2500000_listed |].
  apply run_defined; [vm_compute; exact I |]. intros s' r E.
  exact (@airspy_configure_sets_rate_early libc_ref airspy_fixed_rate
           cfg_rate_2500000 "2500000" airspy0 s' r
           cfg_rate_2500000_no_freq H2 H3 cfg_rate_2500000_listed E).
Defined.

(** In that run the call returns [false] and the object reports the rate
    the device refused. *)
Example refused_rate_is_reported :
  AirspySource.get_sample_rate airspy0 = 10000000
  /\ exists s',
       @AirspySource.configure libc_ref airspy_fixed_rate cfg_rate_2500000 airspy0
       = Some (s', false)
       /\ AirspySource.get_sample_rate s' = 2500000
       /\ AirspySource.calls s' = [AirspySource.airspy_set_samplerate 1].
Proof.
  split; [reflexivity |].
  apply run_refused. vm_compute. repeat split; reflexivity.
Qed.

Lemma cfg_rate_768000_no_freq (f : string) :
  cfg_rate_768000 !! "freq"%string = Some f ->
  24000000 <= u32 (@atoi libc_ref f) <= 1800000000.
Proof. intros Hf. vm_compute in Hf. discriminate Hf. Defined.

Lemma cfg_rate_768000_listed :
  In (s32 (u32 (@atoi libc_ref "768000")))
     (AirspyHFSource.m_srates airspyhf0).
Proof. vm_compute. left. reflexivity. Defined.

(** X22, witness: the rate 768000 asked of an Airspy HF that refuses to
    change its sample rate. *)
Lemma airspyhf_configure_sets_rate_early_768000 :
  (forall f, cfg_rate_768000 !! "freq"%string = Some f ->
             24000000 <= u32 (@atoi libc_ref f) <= 1800000000)
  /\ cfg_rate_768000 !! "srate"%string = Some "768000"%string
  /\ strcasecmp_eq "768000" "list" = false
  /\ In (s32 (u32 (@atoi libc_ref "768000"))) (AirspyHFSource.m_srates airspyhf0)
  /\ exists s' r,
       @AirspyHFSource.configure libc_ref airspyhf_fixed_rate cfg_rate_768000
         airspyhf0 = Some (s', r)
       /\ AirspyHFSource.get_sample_rate s' = u32 (@atoi libc_ref "768000").
Proof.
  assert (H2 : cfg_rate_768000 !! "srate"%string = Some "768000"%string)
    by (vm_compute; reflexivity).
  assert (H3 : strcasecmp_eq "768000" "list" = false) by (vm_compute; reflexivity).
  split; [exact cfg_rate_768000_no_freq |]. split; [exact H2 |].
  split; [exact H3 |]. split; [exact cfg_rate_768000_listed |].
  apply run_defined; [vm_compute; exact I |]. intros s' r E.
  exact (@airspyhf_configure_sets_rate_early libc_ref airspyhf_fixed_rate
           cfg_rate_768000 "768000" airspyhf0 s' r
           cfg_rate_768000_no_freq H2 H3 cfg_rate_768000_listed E).
Defined.
